(** * Task rotation, swap negotiation and verification
    (controllers/cleaning.js, scripts/archiveTasks.js)

    A shallow embedding of the cleaning controller: the end-date rule,
    the metrics builder, the scorer and rotation planner, the swap
    handlers, the verification handlers, the listings and the availability
    handler, and of the archival script, followed by the properties
    established about them: Part II those of the specification, Part III
    further properties of the code.

    Conventions of the embedding.
    - A JavaScript [Date] is its time value: milliseconds since the epoch,
      an integer.  The server clock is read in UTC, and time values stay in
      the range where [TimeClip] is the identity.
    - Numbers that the code only counts with are [nat]; scores and rates are
      exact rationals ([Q]), so rounding of doubles is not part of the model.
    - A JS object used as a dictionary is a [gmap] with string keys.
    - A Mongo collection is the list of its documents in natural order; a
      handler is a function from the database to a response and a database.
    - [Array.prototype.sort] is stable, so it is a stable insertion sort. *)

From Stdlib Require Import ZArith QArith Qround Lia Bool Sorted.
From stdpp Require Import gmap strings list fin_maps.

Ltac Zify.zify_post_hook ::= Z.to_euclidean_division_equations.

(* ===================================================================== *)
(** * Part I: definitions                                                 *)
(* ===================================================================== *)

(** ** Dates: the ECMAScript time-value operations used by the controller *)

Module JSDate.
Local Open Scope Z_scope.

Definition msPerDay : Z := 86400000.

Definition Day (t : Z) : Z := t / msPerDay.
Definition TimeWithinDay (t : Z) : Z := t mod msPerDay.

(** Days of a 400-year era are counted from 1 March of its first year,
    so that the leap day is the last day of a year. *)
Definition yoe_of_doe (doe : Z) : Z :=
  (doe - doe / 1460 + doe / 36524 - doe / 146096) / 365.

Definition days_before_yoe (yoe : Z) : Z := 365 * yoe + yoe / 4 - yoe / 100.

(** Year, month (0..11) and day of the month (1..31) of a day number. *)
Definition civil_from_days (z : Z) : Z * Z * Z :=
  let z := z + 719468 in
  let era := z / 146097 in
  let doe := z - era * 146097 in
  let yoe := yoe_of_doe doe in
  let doy := doe - days_before_yoe yoe in
  let mp := (5 * doy + 2) / 153 in
  let d := doy - (153 * mp + 2) / 5 + 1 in
  let m := if mp <? 10 then mp + 2 else mp - 10 in
  (if m <=? 1 then yoe + era * 400 + 1 else yoe + era * 400, m, d).

(** Day number of a year, a month in 0..11 and a day of the month. *)
Definition days_from_civil (y m d : Z) : Z :=
  let y := if m <=? 1 then y - 1 else y in
  let era := y / 400 in
  let yoe := y - era * 400 in
  let mp := if 1 <? m then m - 2 else m + 10 in
  let doy := (153 * mp + 2) / 5 + d - 1 in
  era * 146097 + days_before_yoe yoe + doy - 719468.

Definition YearFromTime (t : Z) : Z := fst (fst (civil_from_days (Day t))).
Definition MonthFromTime (t : Z) : Z := snd (fst (civil_from_days (Day t))).
Definition DateFromTime (t : Z) : Z := snd (civil_from_days (Day t)).

(** [MakeDay]: months outside 0..11 carry into the year, and the day of
    the month is an offset from the first of that month. *)
Definition MakeDay (year month date : Z) : Z :=
  let ym := year + month / 12 in
  let mn := month mod 12 in
  days_from_civil ym mn 1 + date - 1.

Definition MakeDate (day time : Z) : Z := day * msPerDay + time.

Definition getFullYear (t : Z) : Z := YearFromTime t.
Definition getMonth (t : Z) : Z := MonthFromTime t.
Definition getDate (t : Z) : Z := DateFromTime t.

Definition setMonth (t : Z) (month : Z) : Z :=
  MakeDate (MakeDay (YearFromTime t) month (DateFromTime t)) (TimeWithinDay t).

Definition setDate (t : Z) (date : Z) : Z :=
  MakeDate (MakeDay (YearFromTime t) (MonthFromTime t) date) (TimeWithinDay t).

Definition isLeapYear (y : Z) : bool :=
  (((y mod 4 =? 0) && negb (y mod 100 =? 0)) || (y mod 400 =? 0))%bool.

Definition DaysInMonth (y m : Z) : Z :=
  if m =? 1 then (if isLeapYear y then 29 else 28)
  else if ((m =? 3) || (m =? 5) || (m =? 8) || (m =? 10))%bool then 30
  else 31.

(** The month after month [m] of year [y]. *)
Definition nextMonth (y m : Z) : Z * Z :=
  if m =? 11 then (y + 1, 0) else (y, m + 1).

(** The time value of a calendar day at a time of day (in ms). *)
Definition at_civil (y m d time : Z) : Z := MakeDate (days_from_civil y m d) time.
End JSDate.

(** ** Frequencies and end dates *)

(** [taskFrequencies]: the areas that are not weekly. *)
Definition taskFrequencies : gmap string string :=
  <["Cortar el pasto" := "monthly"]>
    (<["Terraza y Escaleras" := "biweekly"]> ∅).

(** [taskFrequencies[area] || 'weekly'] *)
Definition frequencyOf (area : string) : string :=
  match taskFrequencies !! area with
  | Some f => f
  | None => "weekly"
  end.

Definition calculateEndDate (startDate : Z) (frequency : string) : Z :=
  let date := startDate in
  if String.eqb frequency "monthly" then
    JSDate.setMonth date (JSDate.getMonth date + 1)
  else if String.eqb frequency "biweekly" then
    JSDate.setDate date (JSDate.getDate date + 14)
  else
    JSDate.setDate date (JSDate.getDate date + 7).

(** ** Data model *)

(** Modelled from the spec: models/user.js is not part of the sources; the
    fields are those of the spec's Person that the controller reads. *)
Module User.
Record t := mk {
  _id : string;
  fullName : string;
  availableNextWeek : bool
}.
End User.

(** The authenticated caller, [req.user]. *)
Module ReqUser.
Record t := mk { id : string; isAdmin : bool }.
End ReqUser.

Inductive VerificationStatus := pending | in_progress | approved | rejected.

Inductive SwapStatus := swap_pending | swap_accepted | swap_rejected.

(** Modelled from the spec: models/cleaningTask.js is not part of the
    sources; a vote carries the attributes of the spec's VerificationVote,
    under the names the controller uses for them. *)
Module Verification.
Record t := mk {
  verifier : string;
  approved : bool;
  comment : option string;
  verifiedAt : Z
}.
End Verification.

(** Modelled from the spec: the sub-document schema of models/cleaningTask.js
    is not part of the sources; a request carries the attributes of the
    spec's SwapRequest and the id that Mongoose gives a sub-document. *)
Module SwapRequest.
Record t := mk {
  _id : N;
  requestedBy : string;
  targetTask : N;
  status : SwapStatus;
  createdAt : Z
}.

Definition set_status (s : SwapStatus) (r : t) : t :=
  mk (_id r) (requestedBy r) (targetTask r) s (createdAt r).
End SwapRequest.

(** Modelled from the spec: the schema of models/cleaningTask.js is not
    part of the sources; a task carries the attributes of the spec's Task,
    under the names the controller uses for them.  The completion flag is a
    boolean. *)
Module CleaningTask.
Record t := mk {
  _id : N;
  area : string;
  frequency : string;
  responsibles : list string;
  temporaryResponsible : option string;
  startDate : Z;
  endDate : Z;
  verifiers : list string;
  completed : bool;
  completedAt : option Z;
  verificationStatus : VerificationStatus;
  verifications : list Verification.t;
  swapRequests : list SwapRequest.t
}.

Definition set_responsibles (rs : list string) (k : t) : t :=
  mk (_id k) (area k) (frequency k) rs (temporaryResponsible k)
     (startDate k) (endDate k) (verifiers k) (completed k) (completedAt k)
     (verificationStatus k) (verifications k) (swapRequests k).

Definition set_temporaryResponsible (r : option string) (k : t) : t :=
  mk (_id k) (area k) (frequency k) (responsibles k) r
     (startDate k) (endDate k) (verifiers k) (completed k) (completedAt k)
     (verificationStatus k) (verifications k) (swapRequests k).

Definition set_completion (c : bool) (at_ : option Z) (k : t) : t :=
  mk (_id k) (area k) (frequency k) (responsibles k) (temporaryResponsible k)
     (startDate k) (endDate k) (verifiers k) c at_
     (verificationStatus k) (verifications k) (swapRequests k).

Definition set_verificationStatus (s : VerificationStatus) (k : t) : t :=
  mk (_id k) (area k) (frequency k) (responsibles k) (temporaryResponsible k)
     (startDate k) (endDate k) (verifiers k) (completed k) (completedAt k)
     s (verifications k) (swapRequests k).

Definition set_verifications (vs : list Verification.t) (k : t) : t :=
  mk (_id k) (area k) (frequency k) (responsibles k) (temporaryResponsible k)
     (startDate k) (endDate k) (verifiers k) (completed k) (completedAt k)
     (verificationStatus k) vs (swapRequests k).

Definition set_swapRequests (rs : list SwapRequest.t) (k : t) : t :=
  mk (_id k) (area k) (frequency k) (responsibles k) (temporaryResponsible k)
     (startDate k) (endDate k) (verifiers k) (completed k) (completedAt k)
     (verificationStatus k) (verifications k) rs.
End CleaningTask.

(** The database: both collections and the source of fresh ObjectIds. *)
Record DB := mkDB {
  users : list User.t;
  tasks : list CleaningTask.t;
  nextObjectId : N
}.

Definition set_tasks (ts : list CleaningTask.t) (db : DB) : DB :=
  mkDB (users db) ts (nextObjectId db).

(** [CleaningTask.findById] *)
Definition findById (taskId : N) (db : DB) : option CleaningTask.t :=
  List.find (fun k => N.eqb (CleaningTask._id k) taskId) (tasks db).

(** [doc.save()] and [findByIdAndUpdate]: the modified paths, given as a
    function on the document, are written to the stored document with that
    id; other documents are untouched. *)
Definition updateTask (taskId : N) (f : CleaningTask.t -> CleaningTask.t)
    (db : DB) : DB :=
  set_tasks
    (List.map (fun k => if N.eqb (CleaningTask._id k) taskId then f k else k)
              (tasks db))
    db.

(** [task.swapRequests.id(requestId)] *)
Definition swapRequestById (requestId : N) (k : CleaningTask.t)
    : option SwapRequest.t :=
  List.find (fun r => N.eqb (SwapRequest._id r) requestId)
            (CleaningTask.swapRequests k).

(** Assigning [swapRequest.status] on the sub-document with that id. *)
Definition setRequestStatus (requestId : N) (s : SwapStatus)
    (rs : list SwapRequest.t) : list SwapRequest.t :=
  List.map (fun r => if N.eqb (SwapRequest._id r) requestId
                     then SwapRequest.set_status s r else r) rs.

(** What a handler sends: [res.json(docs)] or [res.status(c).json({error})]. *)
Inductive Response :=
| json (docs : list CleaningTask.t)
| status_json (code : nat) (error : string).

(** The permission test written out in every handler:
    [task.responsibles.some(r => r.toString() === userId) ||
     (task.temporaryResponsible && task.temporaryResponsible.toString() === userId)] *)
Definition isResponsible (task : CleaningTask.t) (userId : string) : bool :=
  existsb (fun r => String.eqb r userId) (CleaningTask.responsibles task)
  || match CleaningTask.temporaryResponsible task with
     | Some r => String.eqb r userId
     | None => false
     end.

(** ** Verification *)

(** The status computed in [verifyTask] from the roster size and the tally. *)
Definition statusOfTally (totalVerifiers totalVerifications
                          approvedCount rejectedCount : nat)
    : VerificationStatus :=
  if Nat.eqb totalVerifications totalVerifiers then
    if Nat.ltb rejectedCount approvedCount then approved else rejected
  else if Nat.ltb rejectedCount approvedCount then approved
  else if Nat.ltb approvedCount rejectedCount then rejected
  else in_progress.

Definition approvedCount (vs : list Verification.t) : nat :=
  length (List.filter (fun v => Verification.approved v) vs).

Definition rejectedCount (vs : list Verification.t) : nat :=
  length (List.filter (fun v => negb (Verification.approved v)) vs).

Definition verifyTask (taskId : N) (approved : bool) (comment : option string)
    (verifierId : string) (now : Z) (db : DB) : Response * DB :=
  match findById taskId db with
  | None => (status_json 404 "Tarea no encontrada", db)
  | Some task =>
    if negb (CleaningTask.completed task) then
      (status_json 400 "La tarea aún no está marcada como completada", db)
    else if negb (existsb (fun v => String.eqb v verifierId)
                          (CleaningTask.verifiers task)) then
      (status_json 403 "No eres verificador de esta tarea", db)
    else if existsb (fun v => String.eqb (Verification.verifier v) verifierId)
                    (CleaningTask.verifications task) then
      (status_json 400 "Ya has verificado esta tarea", db)
    else
      let verifications :=
        CleaningTask.verifications task
          ++ [Verification.mk verifierId approved comment now] in
      let totalVerifiers := length (CleaningTask.verifiers task) in
      let totalVerifications := length verifications in
      let verificationStatus :=
        statusOfTally totalVerifiers totalVerifications
                      (approvedCount verifications) (rejectedCount verifications) in
      let save k :=
        CleaningTask.set_verificationStatus verificationStatus
          (CleaningTask.set_verifications verifications k) in
      (json [save task], updateTask taskId save db)
  end.

Definition markAsCompleted (taskId : N) (completed : bool) (user : ReqUser.t)
    (now : Z) (db : DB) : Response * DB :=
  match findById taskId db with
  | None => (status_json 404 "Tarea no encontrada", db)
  | Some task =>
    if negb (isResponsible task (ReqUser.id user)) && negb (ReqUser.isAdmin user)
    then (status_json 403 "No tienes permiso para actualizar esta tarea", db)
    else
      let updateData k :=
        if completed then
          CleaningTask.set_verificationStatus pending
            (CleaningTask.set_completion completed (Some now) k)
        else
          CleaningTask.set_verifications []
            (CleaningTask.set_verificationStatus pending
               (CleaningTask.set_completion completed None k)) in
      (json [updateData task], updateTask taskId updateData db)
  end.

(** ** Swap requests *)

(** The query of [countDocuments]: the tasks holding at least one pending
    request of that requester ([$elemMatch]). *)
Definition hasPendingRequestBy (userId : string) (k : CleaningTask.t) : bool :=
  existsb (fun r => String.eqb (SwapRequest.requestedBy r) userId
                    && match SwapRequest.status r with
                       | swap_pending => true
                       | _ => false
                       end)
          (CleaningTask.swapRequests k).

Definition countDocuments (q : CleaningTask.t -> bool) (db : DB) : nat :=
  length (List.filter q (tasks db)).

Definition createSwapRequest (requestedTaskId offeredTaskId : N)
    (userId : string) (now : Z) (db : DB) : Response * DB :=
  match findById requestedTaskId db, findById offeredTaskId db with
  | Some requestedTask, Some offeredTask =>
    if negb (isResponsible offeredTask userId) then
      (status_json 403 "No tienes permiso para ofrecer esta tarea", db)
    else
      let existingRequest :=
        List.find (fun r => match SwapRequest.status r with
                            | swap_pending => true
                            | _ => false
                            end
                            && N.eqb (SwapRequest.targetTask r) offeredTaskId
                            && String.eqb (SwapRequest.requestedBy r) userId)
                  (CleaningTask.swapRequests requestedTask) in
      match existingRequest with
      | Some _ =>
        (status_json 400
           "Ya existe una solicitud de intercambio pendiente para estas tareas",
         db)
      | None =>
        let pendingRequests := countDocuments (hasPendingRequestBy userId) db in
        if Nat.leb 3 pendingRequests then
          (status_json 400
             "Ya tienes demasiadas solicitudes de intercambio pendientes", db)
        else
          let request :=
            SwapRequest.mk (nextObjectId db) userId offeredTaskId
                           swap_pending now in
          let save k :=
            CleaningTask.set_swapRequests
              (CleaningTask.swapRequests k ++ [request]) k in
          (json [save requestedTask],
           updateTask requestedTaskId save
             (mkDB (users db) (tasks db) (N.succ (nextObjectId db))))
      end
  | _, _ => (status_json 404 "Una o ambas tareas no encontradas", db)
  end.

(** [CleaningTask.findOne({'swapRequests._id': requestId})] *)
Definition findOneBySwapRequest (requestId : N) (db : DB)
    : option CleaningTask.t :=
  List.find (fun k => existsb (fun r => N.eqb (SwapRequest._id r) requestId)
                              (CleaningTask.swapRequests k))
            (tasks db).

Definition acceptSwapRequest (requestId : N) (userId : string) (db : DB)
    : Response * DB :=
  match findOneBySwapRequest requestId db with
  | None => (status_json 404 "Solicitud de intercambio no encontrada", db)
  | Some task =>
    match swapRequestById requestId task with
    | None => (status_json 400 "Solicitud de intercambio no válida", db)
    | Some swapRequest =>
      match SwapRequest.status swapRequest with
      | swap_pending =>
        if negb (isResponsible task userId) then
          (status_json 403 "No tienes permiso para aceptar esta solicitud", db)
        else
          match findById (SwapRequest.targetTask swapRequest) db with
          | None => (status_json 404 "Tarea ofrecida no encontrada", db)
          | Some offeredTask =>
            let tempResponsibles := CleaningTask.responsibles task in
            let saveTask k :=
              CleaningTask.set_swapRequests
                (setRequestStatus requestId swap_accepted
                                  (CleaningTask.swapRequests k))
                (CleaningTask.set_temporaryResponsible None
                   (CleaningTask.set_responsibles
                      (CleaningTask.responsibles offeredTask) k)) in
            let saveOffered k :=
              CleaningTask.set_temporaryResponsible None
                (CleaningTask.set_responsibles tempResponsibles k) in
            (json [saveTask task],
             updateTask (CleaningTask._id offeredTask) saveOffered
               (updateTask (CleaningTask._id task) saveTask db))
          end
      | _ => (status_json 400 "Solicitud de intercambio no válida", db)
      end
    end
  end.

Definition rejectSwapRequest (requestId : N) (userId : string) (db : DB)
    : Response * DB :=
  match findOneBySwapRequest requestId db with
  | None => (status_json 404 "Solicitud de intercambio no encontrada", db)
  | Some task =>
    match swapRequestById requestId task with
    | None => (status_json 400 "Solicitud de intercambio no válida", db)
    | Some swapRequest =>
      match SwapRequest.status swapRequest with
      | swap_pending =>
        if negb (isResponsible task userId) then
          (status_json 403 "No tienes permiso para rechazar esta solicitud", db)
        else
          let save k :=
            CleaningTask.set_swapRequests
              (setRequestStatus requestId swap_rejected
                                (CleaningTask.swapRequests k)) k in
          (json [save task], updateTask (CleaningTask._id task) save db)
      | _ => (status_json 400 "Solicitud de intercambio no válida", db)
      end
    end
  end.

(** *** The direct swap, an Express handler [(req, res)]

    [respondToSwapRequest] calls this handler with two ObjectIds, so its
    arguments are JavaScript values: a request carrying
    [body = {task1Id, task2Id}] and [user.id], a response object, or an
    ObjectId.  Reading [body] off anything but a request gives [undefined],
    and destructuring [undefined] throws; calling [status] or [json] on
    anything but a response throws. *)
Inductive JsValue :=
| ExpressReq (task1Id task2Id : N) (userId : string)
| ExpressRes
| ObjectId (oid : N).

(** An async handler either sends its response or rejects with an error;
    the writes made before that stay. *)
Inductive Outcome :=
| Responds (r : Response) (db : DB)
| Rejects (error : string) (db : DB).

(** [res.status(..).json(..)] or [res.json(..)] inside the [try] block: on a
    response object it is sent; otherwise the call throws, the [catch] block
    calls [res.status(500)], which throws again, and the handler rejects. *)
Definition send (res : JsValue) (r : Response) (db : DB) : Outcome :=
  match res with
  | ExpressRes => Responds r db
  | _ => Rejects "res.status is not a function" db
  end.

Definition swapTasks (req res : JsValue) (db : DB) : Outcome :=
  match req with
  | ExpressReq task1Id task2Id userId =>
    match findById task1Id db, findById task2Id db with
    | Some task1, Some task2 =>
      let isResponsibleForTask1 := isResponsible task1 userId in
      let isResponsibleForTask2 := isResponsible task2 userId in
      if negb isResponsibleForTask1 && negb isResponsibleForTask2 then
        send res
          (status_json 403 "No tienes permiso para intercambiar estas tareas") db
      else if CleaningTask.completed task1 || CleaningTask.completed task2 then
        send res
          (status_json 400
             "No se pueden intercambiar tareas que ya están completadas") db
      else
        let temp := CleaningTask.responsibles task1 in
        let save1 k :=
          CleaningTask.set_temporaryResponsible None
            (CleaningTask.set_responsibles (CleaningTask.responsibles task2) k) in
        let save2 k :=
          CleaningTask.set_temporaryResponsible None
            (CleaningTask.set_responsibles temp k) in
        send res (json [save1 task1; save2 task2])
          (updateTask task2Id save2 (updateTask task1Id save1 db))
    | _, _ => send res (status_json 404 "Una o ambas tareas no encontradas") db
    end
  | _ =>
    (* [const { task1Id, task2Id } = req.body] throws inside the [try] *)
    send res
      (status_json 500 "Cannot destructure property 'task1Id' of 'req.body'") db
  end.

Definition respondToSwapRequest (taskId swapRequestId : N) (accept : bool)
    (userId : string) (db : DB) : Response * DB :=
  match findById taskId db with
  | None => (status_json 404 "Tarea no encontrada", db)
  | Some task =>
    match swapRequestById swapRequestId task with
    | None => (status_json 404 "Solicitud de intercambio no encontrada", db)
    | Some swapRequest =>
      if negb (isResponsible task userId) then
        (status_json 403 "No tienes permiso para responder a esta solicitud", db)
      else if accept then
        match swapTasks (ObjectId (CleaningTask._id task))
                        (ObjectId (SwapRequest.targetTask swapRequest)) db with
        | Rejects error db' =>
          (* the [await] throws; the [catch] block answers *)
          (status_json 500 error, db')
        | Responds _ db' =>
          let save k :=
            CleaningTask.set_swapRequests
              (setRequestStatus swapRequestId swap_accepted
                                (CleaningTask.swapRequests k)) k in
          (json [save task], updateTask (CleaningTask._id task) save db')
        end
      else
        let save k :=
          CleaningTask.set_swapRequests
            (setRequestStatus swapRequestId swap_rejected
                              (CleaningTask.swapRequests k)) k in
        (json [save task], updateTask (CleaningTask._id task) save db)
    end
  end.

(** ** Stable sorting

    [before x y] says that the comparator does not order [y] before [x]
    (it returns a value [<= 0] on [(x, y)]): [x], met first, stays first. *)
Fixpoint insertSorted {A : Type} (before : A -> A -> bool) (x : A)
    (l : list A) : list A :=
  match l with
  | [] => [x]
  | y :: r => if before x y then x :: y :: r else y :: insertSorted before x r
  end.

Definition stableSort {A : Type} (before : A -> A -> bool) (l : list A)
    : list A :=
  foldr (insertSorted before) [] l.

(** ** Metrics *)

Module Metrics.
Record t := mk {
  totalHistoricalTasks : nat;
  completedTasks : nat;
  incompleteOrRejectedTasks : nat;
  completionRate : Q;
  lastAssignedAreas : gmap string Z;
  areaAssignmentCounts : gmap string nat;
  (* set only during planning: [None] is [undefined] *)
  currentWorkload : option nat;
  tasksAssigned : option nat
}.

(** The object of a user without history, as [calculateUserMetrics]
    creates it. *)
Definition initial : t := mk 0 0 0 1%Q ∅ ∅ None None.
End Metrics.

Definition wasCompleted (task : CleaningTask.t) : bool :=
  CleaningTask.completed task
  && match CleaningTask.verificationStatus task with
     | approved => true
     | _ => false
     end.

Definition wasRejected (task : CleaningTask.t) : bool :=
  CleaningTask.completed task
  && match CleaningTask.verificationStatus task with
     | rejected => true
     | _ => false
     end.

(** [totalHistoricalTasks++] and the completion counters, the statements
    shared by the responsibles and the temporary responsible. *)
Definition creditCompletion (task : CleaningTask.t) (m : Metrics.t)
    : Metrics.t :=
  let completedTasks :=
    if wasCompleted task then S (Metrics.completedTasks m)
    else Metrics.completedTasks m in
  let incompleteOrRejectedTasks :=
    if wasCompleted task then Metrics.incompleteOrRejectedTasks m
    else if wasRejected task || negb (CleaningTask.completed task)
    then S (Metrics.incompleteOrRejectedTasks m)
    else Metrics.incompleteOrRejectedTasks m in
  Metrics.mk (S (Metrics.totalHistoricalTasks m)) completedTasks
             incompleteOrRejectedTasks (Metrics.completionRate m)
             (Metrics.lastAssignedAreas m) (Metrics.areaAssignmentCounts m)
             (Metrics.currentWorkload m) (Metrics.tasksAssigned m).

(** The area statistics, updated for responsibles only. *)
Definition creditArea (task : CleaningTask.t) (m : Metrics.t) : Metrics.t :=
  let area := CleaningTask.area task in
  let lastAssignedAreas :=
    match Metrics.lastAssignedAreas m !! area with
    | None => <[area := CleaningTask.endDate task]> (Metrics.lastAssignedAreas m)
    | Some last =>
      if (last <? CleaningTask.endDate task)%Z
      then <[area := CleaningTask.endDate task]> (Metrics.lastAssignedAreas m)
      else Metrics.lastAssignedAreas m
    end in
  let areaAssignmentCounts :=
    <[area := S (default 0 (Metrics.areaAssignmentCounts m !! area))]>
      (Metrics.areaAssignmentCounts m) in
  Metrics.mk (Metrics.totalHistoricalTasks m) (Metrics.completedTasks m)
             (Metrics.incompleteOrRejectedTasks m) (Metrics.completionRate m)
             lastAssignedAreas areaAssignmentCounts
             (Metrics.currentWorkload m) (Metrics.tasksAssigned m).

(** The body of [task.responsibles.forEach]; users without an entry are
    skipped. *)
Definition creditResponsible (task : CleaningTask.t)
    (metrics : gmap string Metrics.t) (userId : string)
    : gmap string Metrics.t :=
  match metrics !! userId with
  | None => metrics
  | Some m => <[userId := creditArea task (creditCompletion task m)]> metrics
  end.

Definition creditTemporary (task : CleaningTask.t)
    (metrics : gmap string Metrics.t) : gmap string Metrics.t :=
  match CleaningTask.temporaryResponsible task with
  | None => metrics
  | Some tempUserId =>
    match metrics !! tempUserId with
    | None => metrics
    | Some m => <[tempUserId := creditCompletion task m]> metrics
    end
  end.

(** The body of [taskHistory.forEach]. *)
Definition creditTask (metrics : gmap string Metrics.t) (task : CleaningTask.t)
    : gmap string Metrics.t :=
  creditTemporary task
    (foldl (creditResponsible task) metrics (CleaningTask.responsibles task)).

Definition withCompletionRate (m : Metrics.t) : Metrics.t :=
  let totalEvaluable :=
    (Metrics.completedTasks m + Metrics.incompleteOrRejectedTasks m)%nat in
  if Nat.ltb 0 totalEvaluable then
    Metrics.mk (Metrics.totalHistoricalTasks m) (Metrics.completedTasks m)
               (Metrics.incompleteOrRejectedTasks m)
               (inject_Z (Z.of_nat (Metrics.completedTasks m))
                / inject_Z (Z.of_nat totalEvaluable))%Q
               (Metrics.lastAssignedAreas m) (Metrics.areaAssignmentCounts m)
               (Metrics.currentWorkload m) (Metrics.tasksAssigned m)
  else m.

(** The counters after the history has been read, before the rates. *)
Definition tallyHistory (taskHistory : list CleaningTask.t)
    (availableUsers : list User.t) : gmap string Metrics.t :=
  let metrics :=
    foldl (fun metrics user => <[User._id user := Metrics.initial]> metrics)
          ∅ availableUsers in
  foldl creditTask metrics taskHistory.

Definition calculateUserMetrics (taskHistory : list CleaningTask.t)
    (availableUsers : list User.t) : gmap string Metrics.t :=
  withCompletionRate <$> tallyHistory taskHistory availableUsers.

(** ** Scorer *)

Module AreaInfo.
Record t := mk { area : string; peopleNeeded : nat; difficulty : nat }.
End AreaInfo.

Definition ofNat (n : nat) : Q := inject_Z (Z.of_nat n).

(** [metrics.lastAssignedAreas[area] ? Math.floor((new Date() - last) / day) : 365] *)
Definition daysSinceLastAssignment (area : string) (now : Z) (metrics : Metrics.t)
    : Z :=
  match Metrics.lastAssignedAreas metrics !! area with
  | Some last => ((now - last) / JSDate.msPerDay)%Z
  | None => 365%Z
  end.

(** [metrics.areaAssignmentCounts[area] || 0] *)
Definition areaAssignmentCount (area : string) (metrics : Metrics.t) : nat :=
  default 0 (Metrics.areaAssignmentCounts metrics !! area).

(** [Math.max(...Object.values(userMetrics).map(m => m.totalHistoricalTasks || 0))] *)
Definition maxTotalHistoricalTasks (userMetrics : gmap string Metrics.t) : nat :=
  max_list (Metrics.totalHistoricalTasks <$> (map_to_list userMetrics).*2).

(** [metrics.totalHistoricalTasks / (Math.max(...) || 1)] *)
Definition totalTasksRatio (userMetrics : gmap string Metrics.t)
    (metrics : Metrics.t) : Q :=
  let maxTotal := maxTotalHistoricalTasks userMetrics in
  (ofNat (Metrics.totalHistoricalTasks metrics)
   / ofNat (if Nat.eqb maxTotal 0 then 1 else maxTotal))%Q.

Definition score (area : string) (now : Z) (userMetrics : gmap string Metrics.t)
    (targetWorkload : Q) (metrics : Metrics.t) : Q :=
  let workloadDifference :=
    (targetWorkload
     - ofNat (default 0%nat (Metrics.currentWorkload metrics)))%Q in
  let completionRateBonus := (Metrics.completionRate metrics * 3)%Q in
  (inject_Z (daysSinceLastAssignment area now metrics) * 0.2
   + (10 - ofNat (areaAssignmentCount area metrics)) * 0.2
   + workloadDifference * 0.3
   + completionRateBonus * 0.2
   + (1 - totalTasksRatio userMetrics metrics) * 0.1)%Q.

(** The [map] callback of [selectResponsiblesForArea]; reading a field of
    the missing entry of a user throws ([None]). *)
Definition scoreUser (area : string) (now : Z)
    (userMetrics : gmap string Metrics.t) (targetWorkload : Q) (user : User.t)
    : option (string * Q) :=
  metrics ← userMetrics !! User._id user;
  Some (User._id user, score area now userMetrics targetWorkload metrics).

(** [(a, b) => b.score - a.score] is [<= 0] when [b.score <= a.score]. *)
Definition byScoreDesc (a b : string * Q) : bool := Qle_bool (snd b) (snd a).

Definition selectResponsiblesForArea (areaInfo : AreaInfo.t)
    (availableUsers : list User.t) (userMetrics : gmap string Metrics.t)
    (targetWorkload : Q) (now : Z) : option (list string) :=
  scoredUsers ←
    mapM (scoreUser (AreaInfo.area areaInfo) now userMetrics targetWorkload)
         availableUsers;
  Some (fst <$> take (AreaInfo.peopleNeeded areaInfo)
                     (stableSort byScoreDesc scoredUsers)).

(** ** Verifiers *)

(** [userMetrics[id]?.completionRate || 0] *)
Definition completionRateOf (userMetrics : gmap string Metrics.t)
    (userId : string) : Q :=
  match userMetrics !! userId with
  | Some m => Metrics.completionRate m
  | None => 0%Q
  end.

Definition byCompletionRateDesc (userMetrics : gmap string Metrics.t)
    (a b : string) : bool :=
  Qle_bool (completionRateOf userMetrics b) (completionRateOf userMetrics a).

Definition selectVerifiers (responsibles : list string)
    (availableUsers : list User.t) (userMetrics : gmap string Metrics.t)
    : list string :=
  let potentialVerifiers :=
    List.filter
      (fun user => negb (existsb (String.eqb (User._id user)) responsibles))
      availableUsers in
  if Nat.ltb (length potentialVerifiers) 3 then
    let allUserIds := User._id <$> availableUsers in
    take (Nat.min 3 (length allUserIds))
         (stableSort (byCompletionRateDesc userMetrics) allUserIds)
  else
    User._id <$>
      take 3 (stableSort
                (fun a b => byCompletionRateDesc userMetrics
                              (User._id a) (User._id b))
                potentialVerifiers).

(** ** Rotation *)

Definition areaConfig : list AreaInfo.t :=
  [ AreaInfo.mk "Baño 1" 1 2;
    AreaInfo.mk "Baño 2" 1 2;
    AreaInfo.mk "Baño 3" 1 2;
    AreaInfo.mk "Terraza y Escaleras" 2 3;
    AreaInfo.mk "Orden de Cocina" 1 1;
    AreaInfo.mk "Cocina y Living" 2 4;
    AreaInfo.mk "Basura" 1 1;
    AreaInfo.mk "Cortar el pasto" 2 3 ].

(** [(a, b) => b.difficulty - a.difficulty] *)
Definition byDifficultyDesc (a b : AreaInfo.t) : bool :=
  Nat.leb (AreaInfo.difficulty b) (AreaInfo.difficulty a).

(** [.sort({ endDate: -1 })] *)
Definition byEndDateDesc (a b : CleaningTask.t) : bool :=
  (CleaningTask.endDate b <=? CleaningTask.endDate a)%Z.

Definition totalDifficulty (areas : list AreaInfo.t) : nat :=
  foldl (fun sum area =>
           (sum + AreaInfo.difficulty area * AreaInfo.peopleNeeded area)%nat)
        0 areas.

(** [userMetrics[user._id].currentWorkload = 0] *)
Definition zeroWorkload (m : Metrics.t) : Metrics.t :=
  Metrics.mk (Metrics.totalHistoricalTasks m) (Metrics.completedTasks m)
             (Metrics.incompleteOrRejectedTasks m) (Metrics.completionRate m)
             (Metrics.lastAssignedAreas m) (Metrics.areaAssignmentCounts m)
             (Some 0) (Metrics.tasksAssigned m).

(** [userMetrics[user._id] = userMetrics[user._id] || {}] and the
    assignment above; the object [{}] is never needed, every available
    person having an entry. *)
Definition resetWorkload (userMetrics : gmap string Metrics.t) (user : User.t)
    : gmap string Metrics.t :=
  <[User._id user :=
      zeroWorkload (default Metrics.initial (userMetrics !! User._id user))]>
    userMetrics.

(** The body of [responsibles.forEach] in the planning loop. *)
Definition recordAssignment (areaInfo : AreaInfo.t) (now : Z) (m : Metrics.t)
    : Metrics.t :=
  Metrics.mk (Metrics.totalHistoricalTasks m) (Metrics.completedTasks m)
             (Metrics.incompleteOrRejectedTasks m) (Metrics.completionRate m)
             (<[AreaInfo.area areaInfo := now]> (Metrics.lastAssignedAreas m))
             (Metrics.areaAssignmentCounts m)
             ((fun w => (w + AreaInfo.difficulty areaInfo)%nat)
                <$> Metrics.currentWorkload m)
             (Some (S (default 0 (Metrics.tasksAssigned m)))).

(** The state of the planning loop: the metrics, the tasks created so far
    (in creation order) and the next fresh ObjectId. *)
Record Plan := mkPlan {
  planMetrics : gmap string Metrics.t;
  newTasks : list CleaningTask.t;
  planNextId : N
}.

(** [new CleaningTask({ area, frequency, responsibles, startDate, endDate,
    verifiers })].  Modelled from the spec: the defaults of the schema are
    not part of the sources; a new task is not completed, its status is
    'pending' and it has no temporary responsible, vote or swap request. *)
Definition newCleaningTask (oid : N) (area frequency : string)
    (responsibles : list string) (startDate endDate : Z)
    (verifiers : list string) : CleaningTask.t :=
  CleaningTask.mk oid area frequency responsibles None startDate endDate
                  verifiers false None pending [] [].

(** One iteration of [for (const areaInfo of prioritizedAreas)]. *)
Definition assignArea (availableUsers : list User.t) (targetWorkload : Q)
    (now : Z) (plan : Plan) (areaInfo : AreaInfo.t) : option Plan :=
  let frequency := frequencyOf (AreaInfo.area areaInfo) in
  let endDate := calculateEndDate now frequency in
  responsibles ←
    selectResponsiblesForArea areaInfo availableUsers (planMetrics plan)
                              targetWorkload now;
  let userMetrics :=
    foldl (fun um userId => alter (recordAssignment areaInfo now) userId um)
          (planMetrics plan) responsibles in
  let verifiers := selectVerifiers responsibles availableUsers userMetrics in
  Some (mkPlan userMetrics
               (newTasks plan
                ++ [newCleaningTask (planNextId plan) (AreaInfo.area areaInfo)
                                    frequency responsibles now endDate verifiers])
               (N.succ (planNextId plan))).

(** The whole loop; an exception in an iteration ends it. *)
Fixpoint assignAreas (availableUsers : list User.t) (targetWorkload : Q)
    (now : Z) (plan : Plan) (areas : list AreaInfo.t) : option Plan :=
  match areas with
  | [] => Some plan
  | areaInfo :: rest =>
    plan' ← assignArea availableUsers targetWorkload now plan areaInfo;
    assignAreas availableUsers targetWorkload now plan' rest
  end.

(** [totalDifficulty / availableUsers.length] *)
Definition targetWorkloadPerUser (areas : list AreaInfo.t)
    (availableUsers : list User.t) : Q :=
  (ofNat (totalDifficulty areas) / ofNat (length availableUsers))%Q.

(** The planning part of [rotateAssignments], from the metrics to the loop. *)
Definition planRotation (taskHistory : list CleaningTask.t)
    (availableUsers : list User.t) (areas : list AreaInfo.t) (now : Z)
    (nextId : N) : option Plan :=
  let userMetrics := calculateUserMetrics taskHistory availableUsers in
  let targetWorkload := targetWorkloadPerUser areas availableUsers in
  let userMetrics := foldl resetWorkload userMetrics availableUsers in
  let prioritizedAreas := stableSort byDifficultyDesc areas in
  assignAreas availableUsers targetWorkload now
              (mkPlan userMetrics [] nextId) prioritizedAreas.

Definition rotateAssignments (now : Z) (db : DB) : Response * DB :=
  let availableUsers :=
    List.filter (fun u => User.availableNextWeek u) (users db) in
  if Nat.ltb (length availableUsers) 2 then
    (status_json 400
       "Se necesitan al menos 2 usuarios disponibles para asignar todas las tareas correctamente",
     db)
  else
    let taskHistory := stableSort byEndDateDesc (tasks db) in
    (* deleteMany({}) comes before the loop *)
    let db1 := set_tasks [] db in
    match planRotation taskHistory availableUsers areaConfig now
                       (nextObjectId db) with
    | None => (status_json 500 "Error al rotar las asignaciones", db1)
    | Some plan =>
      (* insertMany(newTasks) *)
      let db2 := mkDB (users db) (newTasks plan) (planNextId plan) in
      (json (tasks db2), db2)
    end.

(** ** Vocabulary of the statements *)

(** The verifiers who have voted on a task. *)
Definition voters (task : CleaningTask.t) : list string :=
  Verification.verifier <$> CleaningTask.verifications task.

(** Votes come from distinct members of a roster without repetition. *)
Definition votesWellFormed (task : CleaningTask.t) : Prop :=
  NoDup (CleaningTask.verifiers task)
  /\ NoDup (voters task)
  /\ voters task ⊆ CleaningTask.verifiers task.


(** The vote that [verifyTask] stores and the task it saves. *)
Definition voted (task : CleaningTask.t) (verifierId : string) (vote : bool)
    (comment : option string) (now : Z) : CleaningTask.t :=
  let verifications :=
    CleaningTask.verifications task
      ++ [Verification.mk verifierId vote comment now] in
  CleaningTask.set_verificationStatus
    (statusOfTally (length (CleaningTask.verifiers task)) (length verifications)
                   (approvedCount verifications) (rejectedCount verifications))
    (CleaningTask.set_verifications verifications task).

(** The verification status stored for a task. *)
Definition statusOf (taskId : N) (db : DB) : option VerificationStatus :=
  CleaningTask.verificationStatus <$> findById taskId db.

(** Votes cast one after the other on a task, with the status stored after
    each of them. *)
Fixpoint castVotes (taskId : N) (votes : list (string * bool)) (now : Z)
    (db : DB) : list (option VerificationStatus) :=
  match votes with
  | [] => []
  | (verifierId, vote) :: rest =>
    let db' := snd (verifyTask taskId vote None verifierId now db) in
    statusOf taskId db' :: castVotes taskId rest now db'
  end.

(** The pending swap requests of a requester, over all tasks. *)
Definition isPendingRequestBy (userId : string) (r : SwapRequest.t) : bool :=
  String.eqb (SwapRequest.requestedBy r) userId
  && match SwapRequest.status r with
     | swap_pending => true
     | _ => false
     end.

Definition pendingRequestsBy (userId : string) (db : DB) : list SwapRequest.t :=
  concat ((fun k => List.filter (isPendingRequestBy userId)
                                (CleaningTask.swapRequests k)) <$> tasks db).

(** The status of the swap request with that id, wherever it is stored. *)
Definition requestStatus (requestId : N) (db : DB) : option SwapStatus :=
  k ← findOneBySwapRequest requestId db;
  SwapRequest.status <$> swapRequestById requestId k.

(** *** Credits of a historical task *)

Definition isApproved (task : CleaningTask.t) : bool :=
  match CleaningTask.verificationStatus task with
  | approved => true
  | _ => false
  end.

Definition isRejected (task : CleaningTask.t) : bool :=
  match CleaningTask.verificationStatus task with
  | rejected => true
  | _ => false
  end.

(** How often a person is listed among the responsibles of a task. *)
Definition asResponsible (userId : string) (task : CleaningTask.t) : nat :=
  length (List.filter (String.eqb userId) (CleaningTask.responsibles task)).

(** Whether a person is the temporary responsible of a task (1 or 0). *)
Definition asTemporary (userId : string) (task : CleaningTask.t) : nat :=
  match CleaningTask.temporaryResponsible task with
  | Some r => if String.eqb userId r then 1 else 0
  | None => 0
  end.

(** The two roles count separately. *)
Definition creditsOf (userId : string) (task : CleaningTask.t) : nat :=
  asResponsible userId task + asTemporary userId task.

(** The later of the end date already recorded, if any, and a new one. *)
Definition laterEnd (acc : option Z) (endDate : Z) : Z :=
  match acc with
  | None => endDate
  | Some last => Z.max last endDate
  end.

(** The latest end date among the tasks of an area that list the person as
    a responsible. *)
Definition latestEnd (userId area : string) (history : list CleaningTask.t)
    : option Z :=
  foldl (fun acc task =>
           if String.eqb (CleaningTask.area task) area
              && Nat.ltb 0 (asResponsible userId task)
           then Some (laterEnd acc (CleaningTask.endDate task))
           else acc)
        None history.

(** What one task does to the entry of one person. *)
Definition creditPerson (userId : string) (task : CleaningTask.t)
    (m : Metrics.t) : Metrics.t :=
  let m' := Nat.iter (asResponsible userId task)
                     (fun m => creditArea task (creditCompletion task m)) m in
  if Nat.eqb (asTemporary userId task) 0 then m' else creditCompletion task m'.

(** The area statistics of an entry. *)
Definition areaStatistics (m : Metrics.t) : gmap string Z * gmap string nat :=
  (Metrics.lastAssignedAreas m, Metrics.areaAssignmentCounts m).

(** A history in which nobody is a temporary responsible. *)
Definition withoutTemporary (task : CleaningTask.t) : CleaningTask.t :=
  CleaningTask.set_temporaryResponsible None task.

(** *** The score, as the specification words it *)

(** The five weighted factors. *)
Definition weightedSum (daysSince : Z) (areaCount : nat) (targetWorkload : Q)
    (workload : nat) (completionRate : Q) (ratio : Q) : Q :=
  (0.2 * inject_Z daysSince
   + 0.2 * (10 - ofNat areaCount)
   + 0.3 * (targetWorkload - ofNat workload)
   + 0.2 * (completionRate * 3)
   + 0.1 * (1 - ratio))%Q.

(** A quotient, when it is a number: dividing by zero gives none. *)
Definition quotient (a b : Q) : option Q :=
  if Qeq_bool b 0 then None else Some (a / b)%Q.

(** The score with the fifth factor as the specification states it,
    [1 - totalHistoricalTasks / maxHistoricalTasksAcrossAvailablePeople],
    the divisor being that maximum itself. *)
Definition scoreAsSpecified (area : string) (now : Z)
    (userMetrics : gmap string Metrics.t) (targetWorkload : Q)
    (metrics : Metrics.t) : option Q :=
  ratio ← quotient (ofNat (Metrics.totalHistoricalTasks metrics))
                   (ofNat (maxTotalHistoricalTasks userMetrics));
  Some (weightedSum (daysSinceLastAssignment area now metrics)
                    (areaAssignmentCount area metrics) targetWorkload
                    (default 0%nat (Metrics.currentWorkload metrics))
                    (Metrics.completionRate metrics) ratio).



(** The state in which the planning loop starts. *)
Definition initialPlan (taskHistory : list CleaningTask.t)
    (availableUsers : list User.t) (nextId : N) : Plan :=
  mkPlan (foldl resetWorkload
                (calculateUserMetrics taskHistory availableUsers)
                availableUsers)
         [] nextId.

(** ** Sample data *)

Module Sample.
(** Monday 15 January 2024, 01:00 UTC. *)
Definition now : Z := 1705280400000.

Definition vote (verifierId : string) (approved : bool) : Verification.t :=
  Verification.mk verifierId approved None now.

(** A completed weekly task with the given roster and votes. *)
Definition completedTask (oid : N) (responsibles verifiers : list string)
    (status : VerificationStatus) (votes : list Verification.t)
    : CleaningTask.t :=
  CleaningTask.mk oid "Basura" "weekly" responsibles None now
                  (calculateEndDate now "weekly") verifiers true (Some now)
                  status votes [].

(** Two verifiers, the first of whom has approved. *)
Definition dbTwoVerifiers : DB :=
  mkDB [] [completedTask 1 ["ana"] ["bea"; "carlos"] approved
                         [vote "bea" true]] 2.

(** Three verifiers, nobody has voted. *)
Definition dbThreeVerifiers : DB :=
  mkDB [] [completedTask 1 ["ana"] ["bea"; "carlos"; "dora"] pending []] 2.

(** A task approved two to one. *)
Definition dbApproved : DB :=
  mkDB [] [completedTask 1 ["ana"] ["bea"; "carlos"; "dora"] approved
                         [vote "bea" true; vote "carlos" true;
                          vote "dora" false]] 2.

(** An open task with the given responsibles and swap requests. *)
Definition openTask (oid : N) (area : string) (responsibles : list string)
    (temporaryResponsible : option string) (requests : list SwapRequest.t)
    : CleaningTask.t :=
  CleaningTask.mk oid area "weekly" responsibles temporaryResponsible now
                  (calculateEndDate now "weekly") ["dora"; "eva"; "fede"]
                  false None pending [] requests.

(** Ana offers her task 2, which Carlos covers for her, for Bea's task 1. *)
Definition dbSwap : DB :=
  mkDB []
       [openTask 1 "Baño 1" ["bea"] None
                 [SwapRequest.mk 10 "ana" 2 swap_pending now];
        openTask 2 "Basura" ["ana"] (Some "carlos") []]
       11.

(** The same, after Bea has marked her task as completed. *)
Definition dbSwapCompleted : DB :=
  snd (markAsCompleted 1 true (ReqUser.mk "bea" false) now dbSwap).

(** Ana holds tasks 2 to 5 and has offered three of them for task 1. *)
Definition dbCeiling : DB :=
  mkDB []
       [openTask 1 "Baño 1" ["bea"] None
                 [SwapRequest.mk 10 "ana" 2 swap_pending now;
                  SwapRequest.mk 11 "ana" 3 swap_pending now;
                  SwapRequest.mk 12 "ana" 4 swap_pending now];
        openTask 2 "Baño 2" ["ana"] None [];
        openTask 3 "Baño 3" ["ana"] None [];
        openTask 4 "Basura" ["ana"] None [];
        openTask 5 "Orden de Cocina" ["ana"] None []]
       13.

Definition ana : User.t := User.mk "ana" "Ana" true.
Definition bea : User.t := User.mk "bea" "Bea" true.
Definition carlos : User.t := User.mk "carlos" "Carlos" false.

Definition pastTask (oid : N) (area : string) (responsibles : list string)
    (temporaryResponsible : option string) (endDate : Z) (completed : bool)
    (status : VerificationStatus) : CleaningTask.t :=
  CleaningTask.mk oid area "weekly" responsibles temporaryResponsible
                  (endDate - 7 * JSDate.msPerDay) endDate
                  ["dora"; "eva"; "fede"] completed None status [] [].

(** Four past tasks: approved, rejected, never completed, and completed but
    still being verified. *)
Definition history : list CleaningTask.t :=
  [pastTask 1 "Basura" ["ana"] (Some "bea") 1704067200000 true approved;
   pastTask 2 "Basura" ["ana"; "bea"] None 1704672000000 true rejected;
   pastTask 3 "Baño 1" ["bea"] (Some "ana") 1704672000000 false pending;
   pastTask 4 "Baño 1" ["ana"] None 1705276800000 true in_progress].

(** The database of a second rotation: the history above, two people
    available. *)
Definition dbRotation : DB := mkDB [ana; bea; carlos] history 100.

(** The database with Ana alone available. *)
Definition dbAlone : DB := mkDB [ana; carlos] history 100.


End Sample.

(** ** Further handlers *)

(** [getTasks]: the tasks whose end date has not passed
    ([endDate: { $gte: new Date() }]). *)
Definition getTasks (now : Z) (db : DB) : Response :=
  json (List.filter (fun k => (now <=? CleaningTask.endDate k)%Z) (tasks db)).

(** [changeTaskResponsible]: [findByIdAndUpdate] with
    [$set: { temporaryResponsible: responsibleId }]; no permission is
    checked.  The id of the body may be [null]. *)
Definition changeTaskResponsible (taskId : N) (responsibleId : option string)
    (db : DB) : Response * DB :=
  match findById taskId db with
  | None => (status_json 404 "Tarea no encontrada", db)
  | Some task =>
    let update k := CleaningTask.set_temporaryResponsible responsibleId k in
    (json [update task], updateTask taskId update db)
  end.

(** What [updateUserAvailability] sends: the user or an error. *)
Inductive UserResponse :=
| user_json (user : User.t)
| user_status_json (code : nat) (error : string).

(** [User.findById] *)
Definition findUserById (userId : string) (db : DB) : option User.t :=
  List.find (fun u => String.eqb (User._id u) userId) (users db).

Definition set_availableNextWeek (available : bool) (u : User.t) : User.t :=
  User.mk (User._id u) (User.fullName u) available.

Definition updateUserAvailability (userId : string) (available : bool)
    (reqUser : ReqUser.t) (db : DB) : UserResponse * DB :=
  match findUserById userId db with
  | None => (user_status_json 404 "Usuario no encontrado", db)
  | Some user =>
    if negb (ReqUser.isAdmin reqUser)
       && negb (String.eqb (ReqUser.id reqUser) userId)
    then (user_status_json 403 "No tienes permiso para actualizar este usuario",
          db)
    else
      (user_json (set_availableNextWeek available user),
       mkDB (List.map (fun u => if String.eqb (User._id u) userId
                                then set_availableNextWeek available u else u)
                      (users db))
            (tasks db) (nextObjectId db))
  end.

(** ** Archival (scripts/archiveTasks.js) *)

(** Modelled from the spec: the [archived] path of the task schema is not
    part of the sources; a stored task is the task with its archival tag,
    absent ([false]) until the script sets it. *)
Module Archive.
Record t := mk { task : CleaningTask.t; archived : bool }.
End Archive.

(** [thresholdDate.setDate(thresholdDate.getDate() - daysThreshold)] *)
Definition thresholdDate (now daysThreshold : Z) : Z :=
  JSDate.setDate now (JSDate.getDate now - daysThreshold).

(** The filter of [updateMany]. *)
Definition toArchive (threshold : Z) (k : Archive.t) : bool :=
  CleaningTask.completed (Archive.task k)
  && match CleaningTask.verificationStatus (Archive.task k) with
     | approved => true
     | _ => false
     end
  && (CleaningTask.endDate (Archive.task k) <? threshold)%Z
  && negb (Archive.archived k).

(** The result of [updateMany] and the collection after it. *)
Record ArchiveResult := mkArchiveResult {
  matchedCount : nat;
  modifiedCount : nat;
  archive : list Archive.t
}.

Definition archiveTasks (daysThreshold now : Z) (collection : list Archive.t)
    : ArchiveResult :=
  let threshold := thresholdDate now daysThreshold in
  let matched := List.filter (toArchive threshold) collection in
  mkArchiveResult
    (length matched)
    (length (List.filter (fun k => negb (Archive.archived k)) matched))
    (List.map (fun k => if toArchive threshold k
                        then Archive.mk (Archive.task k) true else k)
              collection).

(** ** Vocabulary of the further properties *)

(** A handler answer that is an error. *)
Definition isError (r : Response) : bool :=
  match r with
  | json _ => false
  | status_json _ _ => true
  end.

(** A call of one of the exported handlers that write tasks, with the
    parameters, the body and the user of its request. *)
Inductive Call :=
| rotateAssignments_call
| markAsCompleted_call (taskId : N) (completed : bool) (user : ReqUser.t)
| verifyTask_call (taskId : N) (approved : bool) (comment : option string)
                  (verifierId : string)
| changeTaskResponsible_call (taskId : N) (responsibleId : option string)
| swapTasks_call (task1Id task2Id : N) (userId : string)
| createSwapRequest_call (requestedTaskId offeredTaskId : N) (userId : string)
| respondToSwapRequest_call (taskId swapRequestId : N) (accept : bool)
                            (userId : string)
| rejectSwapRequest_call (requestId : N) (userId : string)
| acceptSwapRequest_call (requestId : N) (userId : string).

(** The answer to a call made at the time [now], and the database after
    it. *)
Definition handle (now : Z) (c : Call) (db : DB) : Response * DB :=
  match c with
  | rotateAssignments_call => rotateAssignments now db
  | markAsCompleted_call taskId completed user =>
    markAsCompleted taskId completed user now db
  | verifyTask_call taskId vote comment verifierId =>
    verifyTask taskId vote comment verifierId now db
  | changeTaskResponsible_call taskId responsibleId =>
    changeTaskResponsible taskId responsibleId db
  | swapTasks_call task1Id task2Id userId =>
    match swapTasks (ExpressReq task1Id task2Id userId) ExpressRes db with
    | Responds r db' => (r, db')
    | Rejects error db' => (status_json 500 error, db')
    end
  | createSwapRequest_call requestedTaskId offeredTaskId userId =>
    createSwapRequest requestedTaskId offeredTaskId userId now db
  | respondToSwapRequest_call taskId swapRequestId accept userId =>
    respondToSwapRequest taskId swapRequestId accept userId db
  | rejectSwapRequest_call requestId userId =>
    rejectSwapRequest requestId userId db
  | acceptSwapRequest_call requestId userId =>
    acceptSwapRequest requestId userId db
  end.


(** The people who are available for the next rotation. *)
Definition availableUsers (db : DB) : list User.t :=
  List.filter (fun u => User.availableNextWeek u) (users db).

Definition availableIds (db : DB) : list string :=
  User._id <$> availableUsers db.

(** What a task is from its creation on: its id, area, frequency, dates
    and roster of verifiers. *)
Definition rosterOf (k : CleaningTask.t)
    : N * string * string * Z * Z * list string :=
  (CleaningTask._id k, CleaningTask.area k, CleaningTask.frequency k,
   CleaningTask.startDate k, CleaningTask.endDate k, CleaningTask.verifiers k).

(** The responsibilities that the tasks hand out, task after task. *)
Definition responsibilities (db : DB) : list string :=
  concat (CleaningTask.responsibles <$> tasks db).


(** ** The listing of swap requests *)

(** The value of [a || (b && c)] with a boolean [a] and [c] and a document
    or [null] as [b]: [true], [false], or the [null] that [b && c] gives
    when there is no document. *)
Inductive JsTruth := js_true | js_false | js_null.

(** [x !== y] for such a value and a boolean: [null] differs from both
    booleans. *)
Definition strictNotEqual (x : JsTruth) (y : bool) : bool :=
  match x, y with
  | js_true, true => false
  | js_false, false => false
  | _, _ => true
  end.

(** One entry of the answer of [getSwapRequests].  The populated documents
    are given as they are stored: the requester as the user, the offered task
    as the task found, if any. *)
Module SwapRequestView.
Record t := mk {
  _id : N;
  requester : User.t;
  requestedTask : CleaningTask.t;
  offeredTask : option CleaningTask.t;
  status : SwapStatus;
  createdAt : Z;
  isOwnRequest : bool
}.
End SwapRequestView.

Inductive SwapRequestsResponse :=
| requests_json (requests : list SwapRequestView.t)
| requests_status_json (code : nat) (error : string).

(** The query of [CleaningTask.find] in [getSwapRequests]. *)
Definition swapRequestsQuery (userId : string) (k : CleaningTask.t) : bool :=
  ((existsb (fun r => String.eqb r userId) (CleaningTask.responsibles k)
    || match CleaningTask.temporaryResponsible k with
       | Some r => String.eqb r userId
       | None => false
       end)
   && existsb (fun r => match SwapRequest.status r with
                        | swap_pending => true
                        | _ => false
                        end)
              (CleaningTask.swapRequests k))
  || hasPendingRequestBy userId k.

(** [populate] of an array of user ids: the users found; an id without
    user is dropped. *)
Definition populateUsers (ids : list string) (db : DB) : list User.t :=
  omap (fun userId => findUserById userId db) ids.

(** [isTaskResponsible] in the filter, on the populated task. *)
Definition isTaskResponsible (userId : string) (db : DB) (task : CleaningTask.t)
    : JsTruth :=
  if existsb (fun r => String.eqb (User._id r) userId)
             (populateUsers (CleaningTask.responsibles task) db)
  then js_true
  else match CleaningTask.temporaryResponsible task
             ≫= (fun r => findUserById r db) with
       | None => js_null
       | Some r => if String.eqb (User._id r) userId then js_true else js_false
       end.

(** The callback of [task.swapRequests.filter]; reading [_id] of a requester
    that [populate] has not found throws. *)
Definition showsRequest (userId : string) (db : DB) (task : CleaningTask.t)
    (req : SwapRequest.t) : option bool :=
  match SwapRequest.status req with
  | swap_pending =>
    requestedBy ← findUserById (SwapRequest.requestedBy req) db;
    let isRequestor := String.eqb (User._id requestedBy) userId in
    Some (strictNotEqual (isTaskResponsible userId db task) isRequestor)
  | _ => Some false
  end.

(** The callback of [.map]. *)
Definition viewRequest (userId : string) (db : DB) (task : CleaningTask.t)
    (req : SwapRequest.t) : option SwapRequestView.t :=
  requestedBy ← findUserById (SwapRequest.requestedBy req) db;
  Some (SwapRequestView.mk (SwapRequest._id req) requestedBy task
          (findById (SwapRequest.targetTask req) db)
          (SwapRequest.status req) (SwapRequest.createdAt req)
          (String.eqb (User._id requestedBy) userId)).

(** [task.swapRequests.filter(..).map(..)]; [None] when a callback throws. *)
Definition taskRequests (userId : string) (db : DB) (task : CleaningTask.t)
    : option (list SwapRequestView.t) :=
  shown ← mapM (showsRequest userId db task) (CleaningTask.swapRequests task);
  mapM (viewRequest userId db task)
       (fst <$> List.filter snd (zip (CleaningTask.swapRequests task) shown)).

Definition getSwapRequests (userId : string) (db : DB)
    : SwapRequestsResponse :=
  let tasks := List.filter (swapRequestsQuery userId) (tasks db) in
  match mapM (taskRequests userId db) tasks with
  | Some requests => requests_json (concat requests)
  | None =>
    requests_status_json 500 "Cannot read properties of null (reading '_id')"
  end.

(** That the users named by the tasks exist. *)
Definition usersExist (db : DB) : Prop :=
  forall task, task ∈ tasks db ->
    (forall r, r ∈ CleaningTask.responsibles task ->
               is_Some (findUserById r db))
    /\ (forall r, CleaningTask.temporaryResponsible task = Some r ->
                  is_Some (findUserById r db))
    /\ (forall req, req ∈ CleaningTask.swapRequests task ->
                    is_Some (findUserById (SwapRequest.requestedBy req) db)).

(** Whether a request of a task is listed for a person, when the users
    exist: to somebody responsible for the task the pending requests of the
    others, to the requester their own; and when the task has no temporary
    responsible, to somebody not listed as a responsible who has a pending
    request of their own on the task, every pending request of the task. *)
Definition listedFor (userId : string) (task : CleaningTask.t)
    (req : SwapRequest.t) : bool :=
  let own := String.eqb (SwapRequest.requestedBy req) userId in
  match SwapRequest.status req with
  | swap_pending =>
    if isResponsible task userId then negb own
    else match CleaningTask.temporaryResponsible task with
         | Some _ => own
         | None => hasPendingRequestBy userId task
         end
  | _ => false
  end.

(** What identifies an entry of the listing: the request, the task it is
    made on, the requester, and whether it is the caller's own. *)
Definition entryOf (v : SwapRequestView.t) : N * CleaningTask.t * string * bool :=
  (SwapRequestView._id v, SwapRequestView.requestedTask v,
   User._id (SwapRequestView.requester v), SwapRequestView.isOwnRequest v).

(** The entries that the requests of a task give in the listing made for a
    person, when the users exist. *)
Definition entriesFor (userId : string) (task : CleaningTask.t)
    : list (N * CleaningTask.t * string * bool) :=
  (fun req => (SwapRequest._id req, task, SwapRequest.requestedBy req,
               String.eqb (SwapRequest.requestedBy req) userId))
    <$> List.filter (listedFor userId task) (CleaningTask.swapRequests task).

(** ** Sample data of the listing *)

Module Listing.
(** Ana, who holds task 2, and Carlos, who holds task 3, have each asked
    for Bea's task 1. *)
Definition task1 : CleaningTask.t :=
  Sample.openTask 1 "Baño 1" ["bea"] None
    [SwapRequest.mk 10 "ana" 2 swap_pending Sample.now;
     SwapRequest.mk 11 "carlos" 3 swap_pending Sample.now].

Definition db : DB :=
  mkDB [Sample.ana; Sample.bea; Sample.carlos]
       [task1;
        Sample.openTask 2 "Basura" ["ana"] None [];
        Sample.openTask 3 "Baño 2" ["carlos"] None []]
       12.
End Listing.

(* ===================================================================== *)
(** * Part II: properties                                                 *)
(* ===================================================================== *)

(** ** Calendar arithmetic *)

Module JSDateFacts.
Import JSDate.
Local Open Scope Z_scope.

Lemma yoe_range doe :
  0 <= doe < 146097 ->
  0 <= yoe_of_doe doe <= 399
  /\ 0 <= doe - days_before_yoe (yoe_of_doe doe) <= 365.
Proof. intros H. unfold yoe_of_doe, days_before_yoe. lia. Qed.

Lemma div_era a b : 0 <= a <= 399 -> (a + b * 400) / 400 = b.
Proof. intros H. lia. Qed.

(** A day number is recovered from its calendar date. *)
Lemma days_from_civil_from_days z :
  let '(y, m, d) := civil_from_days z in days_from_civil y m d = z.
Proof.
  unfold civil_from_days, days_from_civil.
  set (z' := z + 719468). set (era := z' / 146097).
  set (doe := z' - era * 146097).
  assert (Hdoe : 0 <= doe < 146097) by (unfold doe, era; lia).
  destruct (yoe_range doe Hdoe) as [Hy Hd].
  set (yoe := yoe_of_doe doe) in *.
  set (doy := doe - days_before_yoe yoe) in *.
  set (mp := (5 * doy + 2) / 153).
  assert (Hmp : 0 <= mp <= 11) by (unfold mp; lia).
  destruct (mp <? 10) eqn:E1.
  - apply Z.ltb_lt in E1.
    replace (mp + 2 <=? 1) with false by (symmetry; apply Z.leb_gt; lia).
    replace (1 <? mp + 2) with true by (symmetry; apply Z.ltb_lt; lia).
    rewrite (div_era yoe era Hy).
    replace (yoe + era * 400 - era * 400) with yoe by lia.
    replace (mp + 2 - 2) with mp by lia.
    unfold doy, doe, z'. lia.
  - apply Z.ltb_ge in E1.
    replace (mp - 10 <=? 1) with true by (symmetry; apply Z.leb_le; lia).
    replace (1 <? mp - 10) with false by (symmetry; apply Z.ltb_ge; lia).
    replace (yoe + era * 400 + 1 - 1) with (yoe + era * 400) by lia.
    rewrite (div_era yoe era Hy).
    replace (yoe + era * 400 - era * 400) with yoe by lia.
    replace (mp - 10 + 10) with mp by lia.
    unfold doy, doe, z'. lia.
Qed.

Lemma civil_month_range z : 0 <= snd (fst (civil_from_days z)) <= 11.
Proof.
  unfold civil_from_days. cbn [fst snd].
  set (z' := z + 719468). set (era := z' / 146097).
  set (doe := z' - era * 146097).
  assert (Hdoe : 0 <= doe < 146097) by (unfold doe, era; lia).
  destruct (yoe_range doe Hdoe) as [Hy Hd].
  set (doy := doe - days_before_yoe (yoe_of_doe doe)) in *.
  set (mp := (5 * doy + 2) / 153).
  assert (Hmp : 0 <= mp <= 11) by (unfold mp; lia).
  destruct (mp <? 10) eqn:E1.
  - apply Z.ltb_lt in E1. lia.
  - apply Z.ltb_ge in E1. lia.
Qed.

Lemma yoe_unique yoe doy :
  0 <= yoe <= 399 -> 0 <= doy ->
  doy <= 364
  \/ (doy = 365
      /\ (yoe + 1) mod 4 = 0 /\ ((yoe + 1) mod 100 <> 0 \/ yoe = 399)) ->
  yoe_of_doe (days_before_yoe yoe + doy) = yoe.
Proof. intros Hy Hd Hl. unfold yoe_of_doe, days_before_yoe. lia. Qed.

Lemma leap_yoe y :
  isLeapYear y = true ->
  let yoe := (y - 1) - (y - 1) / 400 * 400 in
  (yoe + 1) mod 4 = 0 /\ ((yoe + 1) mod 100 <> 0 \/ yoe = 399).
Proof.
  unfold isLeapYear. intros H.
  apply orb_true_iff in H. destruct H as [H | H].
  - apply andb_true_iff in H. destruct H as [H1 H2].
    apply Z.eqb_eq in H1. apply negb_true_iff in H2. apply Z.eqb_neq in H2.
    cbv zeta. lia.
  - apply Z.eqb_eq in H. cbv zeta. lia.
Qed.

(** A calendar date that exists is recovered from its day number. *)
Lemma civil_from_days_from_civil y m d :
  0 <= m <= 11 -> 1 <= d <= DaysInMonth y m ->
  civil_from_days (days_from_civil y m d) = (y, m, d).
Proof.
  intros Hm Hd.
  unfold civil_from_days, days_from_civil.
  set (y' := if m <=? 1 then y - 1 else y).
  set (era := y' / 400). set (yoe := y' - era * 400).
  set (mp := if 1 <? m then m - 2 else m + 10).
  set (doy := (153 * mp + 2) / 5 + d - 1).
  assert (Hyoe : 0 <= yoe <= 399) by (unfold yoe, era; lia).
  assert (Hmp : 0 <= mp <= 11 /\ (if mp <? 10 then mp + 2 else mp - 10) = m).
  { unfold mp. destruct (1 <? m) eqn:E.
    - apply Z.ltb_lt in E. split; [lia|].
      replace (m - 2 <? 10) with true by (symmetry; apply Z.ltb_lt; lia). lia.
    - apply Z.ltb_ge in E. split; [lia|].
      replace (m + 10 <? 10) with false by (symmetry; apply Z.ltb_ge; lia).
      lia. }
  destruct Hmp as [Hmp Hm'].
  assert (Hdoy : 0 <= doy
     /\ (doy <= 364
         \/ (doy = 365
             /\ (yoe + 1) mod 4 = 0 /\ ((yoe + 1) mod 100 <> 0 \/ yoe = 399)))
     /\ (5 * doy + 2) / 153 = mp /\ doy - (153 * mp + 2) / 5 + 1 = d).
  { assert (Hc : m = 0 \/ m = 1 \/ m = 2 \/ m = 3 \/ m = 4 \/ m = 5 \/ m = 6
                 \/ m = 7 \/ m = 8 \/ m = 9 \/ m = 10 \/ m = 11) by lia.
    unfold DaysInMonth in Hd.
    assert (Hmpv : mp = if 1 <? m then m - 2 else m + 10) by reflexivity.
    assert (Hdoyv : doy = (153 * mp + 2) / 5 + d - 1) by reflexivity.
    clearbody doy mp.
    destruct Hc as [-> | [-> | Hc]].
    - cbn in Hd, Hmpv. subst mp. lia.
    - change (1 =? 1) with true in Hd. cbv iota in Hd.
      cbn in Hmpv. subst mp.
      destruct (isLeapYear y) eqn:L.
      + pose proof (leap_yoe y L) as HL. cbv zeta in HL.
        unfold yoe, era, y'. change (1 <=? 1) with true. cbv iota.
        lia.
      + lia.
    - destruct Hc as [-> | [-> | [-> | [-> | [-> | [-> | [-> | [-> | [-> | ->]]]]]]]]];
        cbn in Hd, Hmpv; subst mp; lia. }
  destruct Hdoy as (Hd0 & Hd1 & Hd2 & Hd3).
  replace (era * 146097 + days_before_yoe yoe + doy - 719468 + 719468)
    with (days_before_yoe yoe + doy + era * 146097) by lia.
  assert (Hdoe : 0 <= days_before_yoe yoe + doy < 146097)
    by (unfold days_before_yoe; lia).
  replace ((days_before_yoe yoe + doy + era * 146097) / 146097)
    with era by lia.
  replace (days_before_yoe yoe + doy + era * 146097 - era * 146097)
    with (days_before_yoe yoe + doy) by lia.
  rewrite (yoe_unique yoe doy Hyoe Hd0 Hd1).
  replace (days_before_yoe yoe + doy - days_before_yoe yoe) with doy by lia.
  rewrite Hd2, Hd3, Hm'.
  f_equal. f_equal.
  unfold yoe, era, y'. destruct (m <=? 1); lia.
Qed.

Lemma days_from_civil_shift y m d k :
  days_from_civil y m (d + k) = days_from_civil y m d + k.
Proof. unfold days_from_civil. lia. Qed.

Lemma Day_MakeDate d t : 0 <= t < msPerDay -> Day (MakeDate d t) = d.
Proof. unfold Day, MakeDate, msPerDay. intros H. lia. Qed.

Lemma TimeWithinDay_MakeDate d t :
  0 <= t < msPerDay -> TimeWithinDay (MakeDate d t) = t.
Proof. unfold TimeWithinDay, MakeDate, msPerDay. intros H. lia. Qed.

Lemma TimeWithinDay_range t : 0 <= TimeWithinDay t < msPerDay.
Proof. unfold TimeWithinDay, msPerDay. lia. Qed.

Lemma MakeDate_Day t : MakeDate (Day t) (TimeWithinDay t) = t.
Proof. unfold MakeDate, Day, TimeWithinDay, msPerDay. lia. Qed.

(** The day number of a date, from its fields. *)
Lemma Day_fields t :
  days_from_civil (YearFromTime t) (MonthFromTime t) (DateFromTime t) = Day t.
Proof.
  unfold YearFromTime, MonthFromTime, DateFromTime.
  pose proof (days_from_civil_from_days (Day t)) as H.
  destruct (civil_from_days (Day t)) as [[y m] d]. exact H.
Qed.

Lemma MakeDay_in_range y m d :
  0 <= m <= 11 -> MakeDay y m d = days_from_civil y m d.
Proof.
  intros Hm. unfold MakeDay.
  replace (m / 12) with 0 by lia. replace (m mod 12) with m by lia.
  replace (y + 0) with y by lia.
  replace d with (1 + (d - 1)) at 2 by lia.
  rewrite days_from_civil_shift. lia.
Qed.

(** [date.setDate(date.getDate() + k)] moves a date by [k] whole days. *)
Lemma setDate_getDate_plus t k : setDate t (getDate t + k) = t + k * msPerDay.
Proof.
  unfold setDate, getDate.
  rewrite MakeDay_in_range by apply civil_month_range.
  rewrite days_from_civil_shift, Day_fields.
  unfold MakeDate, Day, TimeWithinDay, msPerDay. lia.
Qed.

(** [date.setMonth(date.getMonth() + 1)]: the day of the month is counted
    from the first day of the next month, at the same time of day. *)
Lemma setMonth_getMonth_succ t :
  let '(ny, nm) := nextMonth (getFullYear t) (getMonth t) in
  setMonth t (getMonth t + 1)
  = at_civil ny nm 1 (TimeWithinDay t) + (getDate t - 1) * msPerDay.
Proof.
  unfold setMonth, getMonth, getFullYear, getDate, nextMonth, at_civil.
  pose proof (civil_month_range (Day t)) as Hm.
  fold (MonthFromTime t) in Hm.
  unfold MakeDay.
  destruct (MonthFromTime t =? 11) eqn:E.
  - apply Z.eqb_eq in E. rewrite E.
    change ((11 + 1) / 12) with 1. change ((11 + 1) mod 12) with 0.
    unfold MakeDate, msPerDay. lia.
  - apply Z.eqb_neq in E.
    replace ((MonthFromTime t + 1) / 12) with 0 by lia.
    replace ((MonthFromTime t + 1) mod 12) with (MonthFromTime t + 1) by lia.
    replace (YearFromTime t + 0) with (YearFromTime t) by lia.
    unfold MakeDate, msPerDay. lia.
Qed.

(** When the next month has that day, it is the same day of the next
    month. *)
Lemma setMonth_getMonth_succ_fields t :
  let '(ny, nm) := nextMonth (getFullYear t) (getMonth t) in
  getDate t <= DaysInMonth ny nm ->
  let e := setMonth t (getMonth t + 1) in
  getFullYear e = ny /\ getMonth e = nm /\ getDate e = getDate t
  /\ TimeWithinDay e = TimeWithinDay t.
Proof.
  pose proof (setMonth_getMonth_succ t) as H.
  destruct (nextMonth (getFullYear t) (getMonth t)) as [ny nm] eqn:En.
  intros Hd e. subst e. rewrite H. clear H.
  assert (Hnm : 0 <= nm <= 11).
  { unfold nextMonth in En. pose proof (civil_month_range (Day t)) as Hm.
    fold (MonthFromTime t) in Hm. unfold getMonth in En.
    destruct (MonthFromTime t =? 11) eqn:E; inversion En; subst.
    - lia.
    - apply Z.eqb_neq in E. lia. }
  assert (Hd1 : 1 <= getDate t).
  { unfold getDate, DateFromTime, civil_from_days. cbn [snd].
    set (z' := Day t + 719468). set (era := z' / 146097).
    set (doe := z' - era * 146097).
    assert (Hdoe : 0 <= doe < 146097) by (unfold doe, era; lia).
    destruct (yoe_range doe Hdoe) as [Hy Hdy].
    set (doy := doe - days_before_yoe (yoe_of_doe doe)) in *.
    clearbody doy. lia. }
  assert (Heq : at_civil ny nm 1 (TimeWithinDay t) + (getDate t - 1) * msPerDay
                = MakeDate (days_from_civil ny nm (getDate t)) (TimeWithinDay t)).
  { unfold at_civil, MakeDate.
    replace (getDate t) with (1 + (getDate t - 1)) at 2 by lia.
    rewrite days_from_civil_shift. unfold msPerDay. lia. }
  rewrite Heq.
  unfold getFullYear, getMonth, getDate, YearFromTime, MonthFromTime,
    DateFromTime.
  rewrite Day_MakeDate by apply TimeWithinDay_range.
  rewrite TimeWithinDay_MakeDate by apply TimeWithinDay_range.
  fold (DateFromTime t). fold (getDate t).
  rewrite civil_from_days_from_civil by (auto; lia).
  cbn [fst snd]. auto.
Qed.
End JSDateFacts.

(** ** End dates (C5) *)

Lemma frequencyOf_unconfigured (area : string) :
  area ≠ "Cortar el pasto" -> area ≠ "Terraza y Escaleras" ->
  taskFrequencies !! area = None.
Proof.
  intros H1 H2. unfold taskFrequencies.
  rewrite lookup_insert_ne by congruence.
  rewrite lookup_insert_ne by congruence.
  apply lookup_empty.
Qed.

Lemma fields_at_civil_2024_01_15 (time : Z) :
  (0 <= time < JSDate.msPerDay)%Z ->
  let start := JSDate.at_civil 2024 0 15 time in
  JSDate.getFullYear start = 2024%Z /\ JSDate.getMonth start = 0%Z
  /\ JSDate.getDate start = 15%Z /\ JSDate.TimeWithinDay start = time.
Proof.
  intros Ht start. subst start.
  unfold JSDate.getFullYear, JSDate.getMonth, JSDate.getDate,
    JSDate.YearFromTime, JSDate.MonthFromTime, JSDate.DateFromTime,
    JSDate.at_civil.
  rewrite JSDateFacts.Day_MakeDate by exact Ht.
  rewrite JSDateFacts.TimeWithinDay_MakeDate by exact Ht.
  repeat split; reflexivity.
Qed.

(** C5.  For every start date and every area, the end date of the task is
    the start date plus one calendar month when the frequency configured
    for the area is monthly (the day of the month is counted from the first
    day of the next month, so it is the same day of the next month whenever
    that month has it), plus 14 days when it is biweekly, and plus 7 days
    when it is weekly or the area is not configured.  From 15 January 2024,
    at any time of day, "Cortar el pasto" ends on 15 February 2024,
    "Terraza y Escaleras" on 29 January 2024 and any other area on
    22 January 2024 (months are numbered from 0). *)
Theorem calculateEndDate_by_frequency :
  (forall (start : Z) (area : string),
     let e := calculateEndDate start (frequencyOf area) in
     (taskFrequencies !! area = Some "monthly" ->
      forall ny nm : Z,
        JSDate.nextMonth (JSDate.getFullYear start) (JSDate.getMonth start)
        = (ny, nm) ->
        e = (JSDate.at_civil ny nm 1 (JSDate.TimeWithinDay start)
             + (JSDate.getDate start - 1) * JSDate.msPerDay)%Z
        /\ ((JSDate.getDate start <= JSDate.DaysInMonth ny nm)%Z ->
            JSDate.getFullYear e = ny /\ JSDate.getMonth e = nm
            /\ JSDate.getDate e = JSDate.getDate start
            /\ JSDate.TimeWithinDay e = JSDate.TimeWithinDay start))
     /\ (taskFrequencies !! area = Some "biweekly" ->
         e = (start + 14 * JSDate.msPerDay)%Z)
     /\ (taskFrequencies !! area = Some "weekly"
         \/ taskFrequencies !! area = None ->
         e = (start + 7 * JSDate.msPerDay)%Z))
  /\ (forall (time : Z) (area : string),
        (0 <= time < JSDate.msPerDay)%Z ->
        let start := JSDate.at_civil 2024 0 15 time in
        calculateEndDate start (frequencyOf "Cortar el pasto")
        = JSDate.at_civil 2024 1 15 time
        /\ calculateEndDate start (frequencyOf "Terraza y Escaleras")
           = JSDate.at_civil 2024 0 29 time
        /\ (area ≠ "Cortar el pasto" -> area ≠ "Terraza y Escaleras" ->
            calculateEndDate start (frequencyOf area)
            = JSDate.at_civil 2024 0 22 time)).
Proof.
  split.
  - intros start area e. subst e. unfold frequencyOf.
    split; [| split].
    + intros Hf ny nm Hn. rewrite Hf. unfold calculateEndDate.
      change (String.eqb "monthly" "monthly") with true. cbv iota.
      split.
      * pose proof (JSDateFacts.setMonth_getMonth_succ start) as H.
        rewrite Hn in H. exact H.
      * intros Hd.
        pose proof (JSDateFacts.setMonth_getMonth_succ_fields start) as Hs.
        rewrite Hn in Hs. apply Hs. exact Hd.
    + intros Hf. rewrite Hf. unfold calculateEndDate.
      change (String.eqb "biweekly" "monthly") with false.
      change (String.eqb "biweekly" "biweekly") with true. cbv iota.
      apply JSDateFacts.setDate_getDate_plus.
    + intros [Hf | Hf]; rewrite Hf; unfold calculateEndDate;
        change (String.eqb "weekly" "monthly") with false;
        change (String.eqb "weekly" "biweekly") with false; cbv iota;
        apply JSDateFacts.setDate_getDate_plus.
  - intros time area Ht start.
    destruct (fields_at_civil_2024_01_15 time Ht) as (Hy & Hm & Hd & Hw).
    fold start in Hy, Hm, Hd, Hw.
    assert (Hshift : forall k : Z,
               (start + k * JSDate.msPerDay)%Z
               = JSDate.at_civil 2024 0 (15 + k) time).
    { intros k. subst start. unfold JSDate.at_civil, JSDate.MakeDate.
      rewrite JSDateFacts.days_from_civil_shift. unfold JSDate.msPerDay. lia. }
    repeat split.
    + change (frequencyOf "Cortar el pasto") with "monthly".
      unfold calculateEndDate.
      change (String.eqb "monthly" "monthly") with true. cbv iota.
      pose proof (JSDateFacts.setMonth_getMonth_succ start) as H.
      rewrite Hy, Hm in H. change (JSDate.nextMonth 2024 0) with (2024, 1)%Z in H.
      rewrite Hm, H, Hd, Hw. unfold JSDate.at_civil, JSDate.MakeDate.
      replace 15%Z with (1 + 14)%Z at 2 by reflexivity.
      rewrite JSDateFacts.days_from_civil_shift. unfold JSDate.msPerDay. lia.
    + change (frequencyOf "Terraza y Escaleras") with "biweekly".
      unfold calculateEndDate.
      change (String.eqb "biweekly" "monthly") with false.
      change (String.eqb "biweekly" "biweekly") with true. cbv iota.
      rewrite JSDateFacts.setDate_getDate_plus. apply (Hshift 14%Z).
    + intros H1 H2. unfold frequencyOf.
      rewrite (frequencyOf_unconfigured area H1 H2). unfold calculateEndDate.
      change (String.eqb "weekly" "monthly") with false.
      change (String.eqb "weekly" "biweekly") with false. cbv iota.
      rewrite JSDateFacts.setDate_getDate_plus. apply (Hshift 7%Z).
Qed.

Lemma calculateEndDate_by_frequency_witness :
  taskFrequencies !! "Cortar el pasto" = Some "monthly"
  /\ JSDate.nextMonth (JSDate.getFullYear 1705280400000)
                      (JSDate.getMonth 1705280400000) = (2024, 1)%Z
  /\ (JSDate.getDate 1705280400000 <= JSDate.DaysInMonth 2024 1)%Z
  /\ JSDate.getDate (calculateEndDate 1705280400000 (frequencyOf "Cortar el pasto"))
     = JSDate.getDate 1705280400000.
Proof.
  split; [reflexivity |]. split; [reflexivity |].
  split; [vm_compute; discriminate |].
  destruct calculateEndDate_by_frequency as [H _].
  destruct (H 1705280400000%Z "Cortar el pasto") as [Hmonthly _].
  destruct (Hmonthly eq_refl 2024%Z 1%Z eq_refl) as [_ Hfields].
  apply Hfields. vm_compute. discriminate.
Defined.

(** ** The task collection *)

Section Collection.
Variable f : CleaningTask.t -> CleaningTask.t.
Hypothesis f_id : forall k, CleaningTask._id (f k) = CleaningTask._id k.

Lemma findById_updateTask (taskId : N) (db : DB) :
  findById taskId (updateTask taskId f db) = f <$> findById taskId db.
Proof.
  unfold findById, updateTask. cbn [tasks set_tasks].
  induction (tasks db) as [| k ks IH]; [reflexivity |].
  cbn [List.map List.find].
  destruct (N.eqb (CleaningTask._id k) taskId) eqn:E.
  - rewrite f_id, E. reflexivity.
  - rewrite E. exact IH.
Qed.

Lemma findById_updateTask_ne (taskId other : N) (db : DB) :
  taskId ≠ other ->
  findById other (updateTask taskId f db) = findById other db.
Proof.
  intros Hne. unfold findById, updateTask. cbn [tasks set_tasks].
  induction (tasks db) as [| k ks IH]; [reflexivity |].
  cbn [List.map List.find].
  destruct (N.eqb (CleaningTask._id k) taskId) eqn:E.
  - apply N.eqb_eq in E. rewrite f_id.
    replace (N.eqb (CleaningTask._id k) other) with false
      by (symmetry; apply N.eqb_neq; congruence).
    exact IH.
  - destruct (N.eqb (CleaningTask._id k) other); [reflexivity | exact IH].
Qed.
End Collection.

Lemma findById_id (taskId : N) (db : DB) (task : CleaningTask.t) :
  findById taskId db = Some task -> CleaningTask._id task = taskId.
Proof.
  unfold findById. intros H. apply List.find_some in H.
  destruct H as [_ H]. apply N.eqb_eq in H. exact H.
Qed.

Lemma existsb_eqb_elem_of (x : string) (l : list string) :
  existsb (fun y => String.eqb y x) l = true <-> (x ∈ l).
Proof.
  rewrite existsb_exists. split.
  - intros (y & Hin & Heq). apply String.eqb_eq in Heq. subst y.
    apply list_elem_of_In. exact Hin.
  - intros Hin. exists x. split; [apply list_elem_of_In; exact Hin |].
    apply String.eqb_refl.
Qed.

Lemma existsb_eqb_not_elem_of (x : string) (l : list string) :
  existsb (fun y => String.eqb y x) l = false <-> (x ∉ l).
Proof.
  rewrite <- existsb_eqb_elem_of. destruct (existsb _ l); split; congruence.
Qed.

(** ** Verification (C2, C6, C10) *)

Lemma tally_length (vs : list Verification.t) :
  (approvedCount vs + rejectedCount vs = length vs)%nat.
Proof.
  unfold approvedCount, rejectedCount.
  induction vs as [| v vs IH]; [reflexivity |].
  cbn [List.filter]. destruct (Verification.approved v); cbn [negb length]; lia.
Qed.

Lemma voted_existsb (verifierId : string) (task : CleaningTask.t) :
  existsb (fun v => String.eqb (Verification.verifier v) verifierId)
          (CleaningTask.verifications task)
  = existsb (fun y => String.eqb y verifierId) (voters task).
Proof.
  unfold voters. induction (CleaningTask.verifications task) as [| v vs IH];
    [reflexivity |].
  cbn. rewrite IH. reflexivity.
Qed.

(** A vote succeeds exactly on a completed task, from a verifier of the
    roster who has not voted. *)
Lemma verifyTask_json (taskId : N) (vote : bool) (comment : option string)
    (verifierId : string) (now : Z) (db db' : DB) (docs : list CleaningTask.t) :
  verifyTask taskId vote comment verifierId now db = (json docs, db') ->
  exists task,
    findById taskId db = Some task
    /\ CleaningTask.completed task = true
    /\ (verifierId ∈ CleaningTask.verifiers task)
    /\ (verifierId ∉ voters task)
    /\ docs = [voted task verifierId vote comment now]
    /\ findById taskId db' = Some (voted task verifierId vote comment now).
Proof.
  unfold verifyTask. destruct (findById taskId db) as [task |] eqn:Hf;
    [| discriminate].
  destruct (CleaningTask.completed task) eqn:Hc; [| discriminate].
  cbn [negb].
  destruct (existsb _ (CleaningTask.verifiers task)) eqn:Hv; [| discriminate].
  cbn [negb]. rewrite voted_existsb.
  destruct (existsb _ (voters task)) eqn:Hd; [discriminate |].
  intros H. inversion H; subst. exists task.
  apply existsb_eqb_elem_of in Hv. apply existsb_eqb_not_elem_of in Hd.
  repeat split; try assumption.
  rewrite findById_updateTask by reflexivity. rewrite Hf. reflexivity.
Qed.

Lemma verifyTask_success (taskId : N) (vote : bool) (comment : option string)
    (verifierId : string) (now : Z) (db : DB) (task : CleaningTask.t) :
  findById taskId db = Some task ->
  CleaningTask.completed task = true ->
  verifierId ∈ CleaningTask.verifiers task ->
  verifierId ∉ voters task ->
  verifyTask taskId vote comment verifierId now db
  = (json [voted task verifierId vote comment now],
     updateTask taskId
       (fun k =>
          CleaningTask.set_verificationStatus
            (CleaningTask.verificationStatus
               (voted task verifierId vote comment now))
            (CleaningTask.set_verifications
               (CleaningTask.verifications
                  (voted task verifierId vote comment now)) k)) db).
Proof.
  intros Hf Hc Hv Hd. unfold verifyTask. rewrite Hf, Hc. cbn [negb].
  apply existsb_eqb_elem_of in Hv. rewrite Hv. cbn [negb].
  rewrite voted_existsb. apply existsb_eqb_not_elem_of in Hd. rewrite Hd.
  reflexivity.
Qed.



Lemma voted_well_formed (task : CleaningTask.t) (verifierId : string)
    (vote : bool) (comment : option string) (now : Z) :
  votesWellFormed task ->
  verifierId ∈ CleaningTask.verifiers task ->
  verifierId ∉ voters task ->
  votesWellFormed (voted task verifierId vote comment now).
Proof.
  intros (Hroster & Hvoters & Hsub) Hin Hnot.
  unfold votesWellFormed, voters, voted. cbn.
  rewrite fmap_app. cbn. fold (voters task).
  split; [assumption |]. split.
  - apply NoDup_app. split; [assumption |]. split.
    + intros x Hx Hx'. apply list_elem_of_singleton in Hx'. subst x. auto.
    + apply NoDup_singleton.
  - intros x Hx. apply elem_of_app in Hx. destruct Hx as [Hx | Hx].
    + apply Hsub. exact Hx.
    + apply list_elem_of_singleton in Hx. subst x. exact Hin.
Qed.



Lemma verifyTask_stored (taskId : N) (vote : bool) (comment : option string)
    (verifierId : string) (now : Z) (db : DB) (task : CleaningTask.t) :
  findById taskId db = Some task ->
  CleaningTask.completed task = true ->
  verifierId ∈ CleaningTask.verifiers task ->
  verifierId ∉ voters task ->
  findById taskId (snd (verifyTask taskId vote comment verifierId now db))
  = Some (voted task verifierId vote comment now).
Proof.
  intros Hf Hc Hin Hnot.
  rewrite (verifyTask_success _ _ _ _ _ _ _ Hf Hc Hin Hnot). cbn [snd].
  rewrite findById_updateTask by reflexivity. rewrite Hf. reflexivity.
Qed.

(** C6, as the code has it.  On a completed task with exactly three
    verifiers and no vote yet, votes arriving in the order approve, approve,
    reject from three different verifiers of the roster leave the status
    'approved' after the first vote (approvals lead one to nothing),
    'approved' after the second and 'approved' after the third, which is
    final at two to one. *)
Theorem three_verifiers_status_sequence (taskId : N) (now : Z) (db : DB)
    (task : CleaningTask.t) (w1 w2 w3 : string) :
  findById taskId db = Some task ->
  CleaningTask.completed task = true ->
  length (CleaningTask.verifiers task) = 3%nat ->
  CleaningTask.verifications task = [] ->
  w1 ∈ CleaningTask.verifiers task ->
  w2 ∈ CleaningTask.verifiers task ->
  w3 ∈ CleaningTask.verifiers task ->
  NoDup [w1; w2; w3] ->
  castVotes taskId [(w1, true); (w2, true); (w3, false)] now db
  = [Some approved; Some approved; Some approved].
Proof.
  intros Hf Hc Hlen Hvs H1 H2 H3 Hnd.
  apply NoDup_cons in Hnd. destruct Hnd as [Hn1 Hnd].
  apply NoDup_cons in Hnd. destruct Hnd as [Hn2 _].
  assert (H12 : w2 ≠ w1).
  { intros ->. apply Hn1. apply list_elem_of_here. }
  assert (H13 : w3 ≠ w1).
  { intros ->. apply Hn1. apply list_elem_of_further, list_elem_of_here. }
  assert (H23 : w3 ≠ w2).
  { intros ->. apply Hn2. apply list_elem_of_here. }
  cbn [castVotes]. unfold statusOf.
  set (task1 := voted task w1 true None now).
  set (task2 := voted task1 w2 true None now).
  set (task3 := voted task2 w3 false None now).
  assert (Hnot1 : w1 ∉ voters task).
  { unfold voters. rewrite Hvs. apply not_elem_of_nil. }
  pose proof (verifyTask_stored taskId true None w1 now db task
                Hf Hc H1 Hnot1) as Hf1.
  fold task1 in Hf1.
  set (db1 := snd (verifyTask taskId true None w1 now db)) in *.
  assert (Hnot2 : w2 ∉ voters task1).
  { unfold voters, task1, voted. cbn. rewrite Hvs. cbn.
    intros Hx. apply list_elem_of_singleton in Hx. contradiction. }
  pose proof (verifyTask_stored taskId true None w2 now db1 task1
                Hf1 Hc H2 Hnot2) as Hf2.
  fold task2 in Hf2.
  set (db2 := snd (verifyTask taskId true None w2 now db1)) in *.
  assert (Hnot3 : w3 ∉ voters task2).
  { unfold voters, task2, task1, voted. cbn. rewrite Hvs. cbn.
    intros Hx. apply elem_of_cons in Hx. destruct Hx as [Hx | Hx];
      [contradiction |].
    apply list_elem_of_singleton in Hx. contradiction. }
  pose proof (verifyTask_stored taskId false None w3 now db2 task2
                Hf2 Hc H3 Hnot3) as Hf3.
  fold task3 in Hf3.
  rewrite Hf1, Hf2, Hf3.
  unfold task3, task2, task1, voted. cbn. rewrite Hvs, Hlen. reflexivity.
Qed.

Lemma three_verifiers_status_sequence_witness :
  castVotes 1 [("bea", true); ("carlos", true); ("dora", false)] Sample.now
            Sample.dbThreeVerifiers
  = [Some approved; Some approved; Some approved].
Proof.
  apply (three_verifiers_status_sequence 1 Sample.now Sample.dbThreeVerifiers
           (Sample.completedTask 1 ["ana"] ["bea"; "carlos"; "dora"] pending [])).
  - reflexivity.
  - reflexivity.
  - reflexivity.
  - reflexivity.
  - compute_done.
  - compute_done.
  - compute_done.
  - compute_done.
Defined.

(** The sequence claimed for C6 does not occur: after the first approval the
    stored status is 'approved', not 'in_progress'. *)
Lemma three_verifiers_first_vote_not_in_progress :
  statusOf 1 (snd (verifyTask 1 true None "bea" Sample.now
                              Sample.dbThreeVerifiers)) = Some approved
  /\ castVotes 1 [("bea", true); ("carlos", true); ("dora", false)] Sample.now
               Sample.dbThreeVerifiers
     ≠ [Some in_progress; Some approved; Some approved].
Proof.
  split; [reflexivity |]. vm_compute. intros H. discriminate H.
Qed.

(** C10.  On an existing task, for a caller who is responsible for it or an
    administrator, [markAsCompleted] with [completed = true] stores the
    status 'pending' and the completion time [now] and leaves the list of
    votes as it was, whatever the task's state, votes and status were
    before; with [completed = false] it stores 'pending', no completion time
    and an empty list of votes.  Nothing else changes, on this task or on
    another. *)
Theorem markAsCompleted_votes (taskId : N) (completed : bool) (user : ReqUser.t)
    (now : Z) (db : DB) (task : CleaningTask.t) :
  findById taskId db = Some task ->
  isResponsible task (ReqUser.id user) = true \/ ReqUser.isAdmin user = true ->
  let r := markAsCompleted taskId completed user now db in
  exists task',
    fst r = json [task'] /\ findById taskId (snd r) = Some task'
    /\ CleaningTask.verificationStatus task' = pending
    /\ CleaningTask.completed task' = completed
    /\ (completed = true ->
        CleaningTask.completedAt task' = Some now
        /\ CleaningTask.verifications task' = CleaningTask.verifications task)
    /\ (completed = false ->
        CleaningTask.completedAt task' = None
        /\ CleaningTask.verifications task' = [])
    /\ (CleaningTask._id task' = CleaningTask._id task
        /\ CleaningTask.area task' = CleaningTask.area task
        /\ CleaningTask.frequency task' = CleaningTask.frequency task
        /\ CleaningTask.responsibles task' = CleaningTask.responsibles task
        /\ CleaningTask.temporaryResponsible task'
           = CleaningTask.temporaryResponsible task
        /\ CleaningTask.startDate task' = CleaningTask.startDate task
        /\ CleaningTask.endDate task' = CleaningTask.endDate task
        /\ CleaningTask.verifiers task' = CleaningTask.verifiers task
        /\ CleaningTask.swapRequests task' = CleaningTask.swapRequests task)
    /\ (forall other, taskId ≠ other ->
                      findById other (snd r) = findById other db).
Proof.
  intros Hf Hperm r. subst r. unfold markAsCompleted. rewrite Hf.
  assert (Hguard : negb (isResponsible task (ReqUser.id user))
                   && negb (ReqUser.isAdmin user) = false).
  { destruct Hperm as [H | H]; rewrite H; cbn; [reflexivity |].
    apply andb_false_r. }
  rewrite Hguard. cbn [fst snd].
  destruct completed.
  - eexists. split; [reflexivity |]. split.
    { rewrite findById_updateTask by reflexivity. rewrite Hf. reflexivity. }
    cbn. repeat split; try reflexivity; try discriminate.
    intros other Hne. apply findById_updateTask_ne; [reflexivity | exact Hne].
  - eexists. split; [reflexivity |]. split.
    { rewrite findById_updateTask by reflexivity. rewrite Hf. reflexivity. }
    cbn. repeat split; try reflexivity; try discriminate.
    intros other Hne. apply findById_updateTask_ne; [reflexivity | exact Hne].
Qed.

Lemma markAsCompleted_votes_witness :
  isResponsible
    (Sample.completedTask 1 ["ana"] ["bea"; "carlos"; "dora"] approved
       [Sample.vote "bea" true; Sample.vote "carlos" true;
        Sample.vote "dora" false])
    "ana" = true
  /\ exists task',
       findById 1 (snd (markAsCompleted 1 true (ReqUser.mk "ana" false)
                                        (Sample.now + 1) Sample.dbApproved))
       = Some task'
       /\ CleaningTask.verificationStatus task' = pending
       /\ CleaningTask.completedAt task' = Some (Sample.now + 1)%Z
       /\ CleaningTask.verifications task'
          = [Sample.vote "bea" true; Sample.vote "carlos" true;
             Sample.vote "dora" false].
Proof.
  split; [reflexivity |].
  destruct (markAsCompleted_votes 1 true (ReqUser.mk "ana" false)
              (Sample.now + 1) Sample.dbApproved
              (Sample.completedTask 1 ["ana"] ["bea"; "carlos"; "dora"] approved
                 [Sample.vote "bea" true; Sample.vote "carlos" true;
                  Sample.vote "dora" false])
              eq_refl (or_introl eq_refl))
    as (task' & _ & Hf & Hs & _ & Ht & _).
  exists task'. destruct (Ht eq_refl) as [Hat Hvs].
  repeat split; assumption.
Defined.

(** ** Swaps (C3, C7, C9) *)

Lemma findById_of_elem (db : DB) (task : CleaningTask.t) :
  NoDup (CleaningTask._id <$> tasks db) ->
  task ∈ tasks db ->
  findById (CleaningTask._id task) db = Some task.
Proof.
  unfold findById. induction (tasks db) as [| k ks IH]; intros Hnd Hin.
  - apply not_elem_of_nil in Hin. contradiction.
  - cbn in Hnd. apply NoDup_cons in Hnd. destruct Hnd as [Hk Hnd].
    cbn [List.find].
    destruct (N.eqb (CleaningTask._id k) (CleaningTask._id task)) eqn:E.
    + apply N.eqb_eq in E. apply elem_of_cons in Hin.
      destruct Hin as [-> | Hin]; [reflexivity |].
      exfalso. apply Hk. rewrite E. apply list_elem_of_fmap.
      exists task. split; [reflexivity | exact Hin].
    + apply elem_of_cons in Hin. destruct Hin as [-> | Hin].
      * rewrite N.eqb_refl in E. discriminate.
      * apply IH; assumption.
Qed.

Lemma findOneBySwapRequest_elem (requestId : N) (db : DB)
    (task : CleaningTask.t) :
  findOneBySwapRequest requestId db = Some task -> task ∈ tasks db.
Proof.
  unfold findOneBySwapRequest. intros H. apply List.find_some in H.
  apply list_elem_of_In. exact (proj1 H).
Qed.

Lemma swapRequestById_setRequestStatus (requestId : N) (s : SwapStatus)
    (rs : list SwapRequest.t) :
  List.find (fun r => N.eqb (SwapRequest._id r) requestId)
            (setRequestStatus requestId s rs)
  = SwapRequest.set_status s
      <$> List.find (fun r => N.eqb (SwapRequest._id r) requestId) rs.
Proof.
  unfold setRequestStatus. induction rs as [| r rs IH]; [reflexivity |].
  cbn [List.map List.find].
  destruct (N.eqb (SwapRequest._id r) requestId) eqn:E.
  - cbn. rewrite E. reflexivity.
  - rewrite E. exact IH.
Qed.

(** What [acceptSwapRequest] does once its checks pass: the two tasks
    exchange their responsibles, lose their temporary responsible, and the
    request is accepted.  Completion of either task plays no part. *)
Lemma acceptSwapRequest_exchanges (requestId : N) (userId : string) (db : DB)
    (task offeredTask : CleaningTask.t) (swapRequest : SwapRequest.t) :
  NoDup (CleaningTask._id <$> tasks db) ->
  findOneBySwapRequest requestId db = Some task ->
  swapRequestById requestId task = Some swapRequest ->
  SwapRequest.status swapRequest = swap_pending ->
  isResponsible task userId = true ->
  findById (SwapRequest.targetTask swapRequest) db = Some offeredTask ->
  CleaningTask._id task ≠ CleaningTask._id offeredTask ->
  let r := acceptSwapRequest requestId userId db in
  exists task' offeredTask',
    fst r = json [task']
    /\ findById (CleaningTask._id task) (snd r) = Some task'
    /\ findById (CleaningTask._id offeredTask) (snd r) = Some offeredTask'
    /\ CleaningTask.responsibles task' = CleaningTask.responsibles offeredTask
    /\ CleaningTask.responsibles offeredTask' = CleaningTask.responsibles task
    /\ CleaningTask.temporaryResponsible task' = None
    /\ CleaningTask.temporaryResponsible offeredTask' = None
    /\ SwapRequest.status <$> swapRequestById requestId task'
       = Some swap_accepted
    /\ CleaningTask.completed task' = CleaningTask.completed task
    /\ CleaningTask.completed offeredTask' = CleaningTask.completed offeredTask.
Proof.
  intros Hnd Hone Hreq Hpend Hresp Hoff Hne r. subst r.
  pose proof (findById_of_elem db task Hnd
                (findOneBySwapRequest_elem _ _ _ Hone)) as Hf.
  pose proof (findById_id _ _ _ Hoff) as Hoid.
  unfold acceptSwapRequest. rewrite Hone, Hreq, Hpend, Hresp, Hoff.
  cbn [negb fst snd].
  eexists. eexists. split; [reflexivity |]. split.
  { rewrite findById_updateTask_ne by (try reflexivity; congruence).
    rewrite findById_updateTask by reflexivity. rewrite Hf. reflexivity. }
  split.
  { rewrite findById_updateTask by reflexivity.
    rewrite findById_updateTask_ne by (try reflexivity; congruence).
    rewrite Hoid, Hoff. reflexivity. }
  cbn. repeat split; try reflexivity.
  unfold swapRequestById. cbn.
  rewrite swapRequestById_setRequestStatus.
  unfold swapRequestById in Hreq. rewrite Hreq. reflexivity.
Qed.

(** C9.  When at least one of the two tasks is completed, accepting the
    pending request through [acceptSwapRequest] still exchanges the
    responsibles of the two tasks, clears their temporary responsibles and
    marks the request accepted, while the direct swap [swapTasks] of the
    same two tasks by the same person answers 400 and changes nothing: the
    guard on completed tasks is in [swapTasks] only. *)
Theorem acceptSwapRequest_has_no_completed_guard (requestId : N)
    (userId : string) (db : DB) (task offeredTask : CleaningTask.t)
    (swapRequest : SwapRequest.t) :
  NoDup (CleaningTask._id <$> tasks db) ->
  findOneBySwapRequest requestId db = Some task ->
  swapRequestById requestId task = Some swapRequest ->
  SwapRequest.status swapRequest = swap_pending ->
  isResponsible task userId = true ->
  findById (SwapRequest.targetTask swapRequest) db = Some offeredTask ->
  CleaningTask._id task ≠ CleaningTask._id offeredTask ->
  CleaningTask.completed task = true
  \/ CleaningTask.completed offeredTask = true ->
  (let r := acceptSwapRequest requestId userId db in
   exists task' offeredTask',
     fst r = json [task']
     /\ findById (CleaningTask._id task) (snd r) = Some task'
     /\ findById (CleaningTask._id offeredTask) (snd r) = Some offeredTask'
     /\ CleaningTask.responsibles task' = CleaningTask.responsibles offeredTask
     /\ CleaningTask.responsibles offeredTask' = CleaningTask.responsibles task
     /\ CleaningTask.temporaryResponsible task' = None
     /\ CleaningTask.temporaryResponsible offeredTask' = None
     /\ SwapRequest.status <$> swapRequestById requestId task'
        = Some swap_accepted)
  /\ swapTasks (ExpressReq (CleaningTask._id task)
                           (CleaningTask._id offeredTask) userId)
               ExpressRes db
     = Responds
         (status_json 400
            "No se pueden intercambiar tareas que ya están completadas")
         db.
Proof.
  intros Hnd Hone Hreq Hpend Hresp Hoff Hne Hcompleted. split.
  - destruct (acceptSwapRequest_exchanges requestId userId db task offeredTask
                swapRequest Hnd Hone Hreq Hpend Hresp Hoff Hne)
      as (task' & offeredTask' & H1 & H2 & H3 & H4 & H5 & H6 & H7 & H8 & _).
    exists task', offeredTask'. repeat split; assumption.
  - pose proof (findById_of_elem db task Hnd
                  (findOneBySwapRequest_elem _ _ _ Hone)) as Hf.
    pose proof (findById_id _ _ _ Hoff) as Hoid.
    unfold swapTasks. rewrite Hf, Hoid, Hoff, Hresp. cbn [negb andb].
    replace (CleaningTask.completed task || CleaningTask.completed offeredTask)
      with true; [reflexivity |].
    destruct Hcompleted as [H | H]; rewrite H; [reflexivity |].
    symmetry. apply orb_true_r.
Qed.

Lemma acceptSwapRequest_has_no_completed_guard_witness :
  (let r := acceptSwapRequest 10 "bea" Sample.dbSwapCompleted in
   exists task' offeredTask',
     fst r = json [task']
     /\ findById 1 (snd r) = Some task'
     /\ findById 2 (snd r) = Some offeredTask'
     /\ CleaningTask.responsibles task' = ["ana"]
     /\ CleaningTask.responsibles offeredTask' = ["bea"]
     /\ CleaningTask.temporaryResponsible task' = None
     /\ CleaningTask.temporaryResponsible offeredTask' = None
     /\ SwapRequest.status <$> swapRequestById 10 task' = Some swap_accepted)
  /\ swapTasks (ExpressReq 1 2 "bea") ExpressRes Sample.dbSwapCompleted
     = Responds
         (status_json 400
            "No se pueden intercambiar tareas que ya están completadas")
         Sample.dbSwapCompleted.
Proof.
  refine (acceptSwapRequest_has_no_completed_guard 10 "bea"
            Sample.dbSwapCompleted
            (CleaningTask.mk 1 "Baño 1" "weekly" ["bea"] None Sample.now
               (calculateEndDate Sample.now "weekly") ["dora"; "eva"; "fede"]
               true (Some Sample.now) pending []
               [SwapRequest.mk 10 "ana" 2 swap_pending Sample.now])
            (Sample.openTask 2 "Basura" ["ana"] (Some "carlos") [])
            (SwapRequest.mk 10 "ana" 2 swap_pending Sample.now)
            _ _ _ _ _ _ _ _).
  - compute_done.
  - reflexivity.
  - reflexivity.
  - reflexivity.
  - reflexivity.
  - reflexivity.
  - cbn. discriminate.
  - left. reflexivity.
Defined.

(** The accepting branch of [respondToSwapRequest] calls the Express handler
    [swapTasks] with two ObjectIds: the handler rejects before reading any
    task, and the caller answers 500 without saving anything. *)
Lemma respondToSwapRequest_accept_changes_nothing (taskId swapRequestId : N)
    (userId : string) (db : DB) (task : CleaningTask.t)
    (swapRequest : SwapRequest.t) :
  findById taskId db = Some task ->
  swapRequestById swapRequestId task = Some swapRequest ->
  isResponsible task userId = true ->
  respondToSwapRequest taskId swapRequestId true userId db
  = (status_json 500 "res.status is not a function", db).
Proof.
  intros Hf Hreq Hresp. unfold respondToSwapRequest.
  rewrite Hf, Hreq, Hresp. reflexivity.
Qed.

(** C3, at a pending request between two open tasks, answered by the
    responsible of the requested task.  Through [acceptSwapRequest] the two
    tasks exchange their responsibles, the temporary responsible is cleared
    and the request is accepted.  Through [respondToSwapRequest] with
    [accept = true] the answer is an error 500 and the database is what it
    was: no exchange, the temporary responsible still there, the request
    still pending. *)
Theorem respondToSwapRequest_accept_at_sample :
  (let db' := snd (acceptSwapRequest 10 "bea" Sample.dbSwap) in
   CleaningTask.responsibles <$> findById 1 db' = Some ["ana"]
   /\ CleaningTask.responsibles <$> findById 2 db' = Some ["bea"]
   /\ CleaningTask.temporaryResponsible <$> findById 1 db' = Some None
   /\ CleaningTask.temporaryResponsible <$> findById 2 db' = Some None
   /\ requestStatus 10 db' = Some swap_accepted)
  /\ (let r := respondToSwapRequest 1 10 true "bea" Sample.dbSwap in
      fst r = status_json 500 "res.status is not a function"
      /\ snd r = Sample.dbSwap
      /\ CleaningTask.responsibles <$> findById 1 (snd r) = Some ["bea"]
      /\ CleaningTask.responsibles <$> findById 2 (snd r) = Some ["ana"]
      /\ CleaningTask.temporaryResponsible <$> findById 2 (snd r)
         = Some (Some "carlos")
      /\ requestStatus 10 (snd r) = Some swap_pending).
Proof.
  split.
  - cbv zeta. repeat split; reflexivity.
  - cbv zeta.
    rewrite (respondToSwapRequest_accept_changes_nothing 1 10 "bea"
               Sample.dbSwap
               (Sample.openTask 1 "Baño 1" ["bea"] None
                  [SwapRequest.mk 10 "ana" 2 swap_pending Sample.now])
               (SwapRequest.mk 10 "ana" 2 swap_pending Sample.now)
               eq_refl eq_refl eq_refl).
    repeat split; reflexivity.
Qed.

(** The ceiling of [createSwapRequest] counts tasks: with three tasks
    holding a pending request of the requester, a further request is
    refused and nothing is stored. *)
Lemma createSwapRequest_ceiling (requestedTaskId offeredTaskId : N)
    (userId : string) (now : Z) (db : DB) :
  (3 <= countDocuments (hasPendingRequestBy userId) db)%nat ->
  exists code error,
    createSwapRequest requestedTaskId offeredTaskId userId now db
    = (status_json code error, db).
Proof.
  intros Hcount. unfold createSwapRequest.
  destruct (findById requestedTaskId db) as [requestedTask |];
    [| eexists; eexists; reflexivity].
  destruct (findById offeredTaskId db) as [offeredTask |];
    [| eexists; eexists; reflexivity].
  destruct (negb (isResponsible offeredTask userId));
    [eexists; eexists; reflexivity |].
  destruct (List.find _ (CleaningTask.swapRequests requestedTask));
    [eexists; eexists; reflexivity |].
  apply Nat.leb_le in Hcount. rewrite Hcount.
  eexists; eexists; reflexivity.
Qed.

(** C7, at a requester whose three pending requests are stored in one
    task.  The count of the code is the number of tasks holding a pending
    request of the requester, here 1, so the fourth request is accepted and
    stored. *)
Theorem createSwapRequest_fourth_request_at_sample :
  length (pendingRequestsBy "ana" Sample.dbCeiling) = 3%nat
  /\ countDocuments (hasPendingRequestBy "ana") Sample.dbCeiling = 1%nat
  /\ (let r := createSwapRequest 1 5 "ana" Sample.now Sample.dbCeiling in
      (exists task', fst r = json [task'])
      /\ pendingRequestsBy "ana" (snd r)
         = [SwapRequest.mk 10 "ana" 2 swap_pending Sample.now;
            SwapRequest.mk 11 "ana" 3 swap_pending Sample.now;
            SwapRequest.mk 12 "ana" 4 swap_pending Sample.now;
            SwapRequest.mk 13 "ana" 5 swap_pending Sample.now]).
Proof.
  split; [reflexivity |]. split; [reflexivity |].
  cbv zeta. split; [eexists; reflexivity | reflexivity].
Qed.

(** ** Metrics (C8) *)

Lemma lookup_initial_metrics (availableUsers : list User.t) (userId : string)
    (metrics : gmap string Metrics.t) :
  foldl (fun metrics user => <[User._id user := Metrics.initial]> metrics)
        metrics availableUsers !! userId
  = if bool_decide (userId ∈ User._id <$> availableUsers)
    then Some Metrics.initial else metrics !! userId.
Proof.
  revert metrics. induction availableUsers as [| u us IH]; intros metrics.
  - cbn. rewrite bool_decide_eq_false_2 by apply not_elem_of_nil. reflexivity.
  - cbn [foldl]. rewrite IH. rewrite fmap_cons.
    destruct (decide (userId ∈ User._id <$> us)) as [Hin | Hnin].
    + rewrite !bool_decide_eq_true_2; [reflexivity | | assumption].
      apply list_elem_of_further. exact Hin.
    + rewrite (bool_decide_eq_false_2 _ Hnin).
      destruct (decide (userId = User._id u)) as [-> | Hne].
      * rewrite lookup_insert_eq.
        rewrite bool_decide_eq_true_2 by apply list_elem_of_here. reflexivity.
      * rewrite lookup_insert_ne by congruence.
        rewrite bool_decide_eq_false_2; [reflexivity |].
        intros Hin. apply elem_of_cons in Hin. destruct Hin; contradiction.
Qed.

Lemma lookup_creditResponsible (task : CleaningTask.t)
    (metrics : gmap string Metrics.t) (v userId : string) :
  creditResponsible task metrics v !! userId
  = (if String.eqb userId v
     then fun m => creditArea task (creditCompletion task m)
     else fun m => m) <$> metrics !! userId.
Proof.
  unfold creditResponsible.
  destruct (String.eqb userId v) eqn:E.
  - apply String.eqb_eq in E. subst v.
    destruct (metrics !! userId) as [m |] eqn:Hm.
    + rewrite lookup_insert_eq. reflexivity.
    + rewrite Hm. reflexivity.
  - apply String.eqb_neq in E.
    destruct (metrics !! v) as [m |] eqn:Hm.
    + rewrite lookup_insert_ne by congruence.
      destruct (metrics !! userId); reflexivity.
    + destruct (metrics !! userId); reflexivity.
Qed.

Lemma lookup_credit_responsibles (task : CleaningTask.t)
    (responsibles : list string) (metrics : gmap string Metrics.t)
    (userId : string) :
  foldl (creditResponsible task) metrics responsibles !! userId
  = Nat.iter (length (List.filter (String.eqb userId) responsibles))
             (fun m => creditArea task (creditCompletion task m))
      <$> metrics !! userId.
Proof.
  revert metrics. induction responsibles as [| v rs IH]; intros metrics.
  - cbn. destruct (metrics !! userId); reflexivity.
  - cbn [foldl List.filter]. rewrite IH, lookup_creditResponsible.
    destruct (String.eqb userId v).
    + cbn [length]. destruct (metrics !! userId) as [m |]; [| reflexivity].
      unfold fmap, option_fmap, option_map.
      rewrite Nat.iter_succ_r. reflexivity.
    + destruct (metrics !! userId); reflexivity.
Qed.

Lemma lookup_creditTemporary (task : CleaningTask.t)
    (metrics : gmap string Metrics.t) (userId : string) :
  creditTemporary task metrics !! userId
  = (if Nat.eqb (asTemporary userId task) 0
     then fun m => m else creditCompletion task) <$> metrics !! userId.
Proof.
  unfold creditTemporary, asTemporary.
  destruct (CleaningTask.temporaryResponsible task) as [r |].
  - destruct (String.eqb userId r) eqn:E.
    + apply String.eqb_eq in E. subst r. cbn.
      destruct (metrics !! userId) as [m |] eqn:Hm.
      * rewrite lookup_insert_eq. reflexivity.
      * rewrite Hm. reflexivity.
    + apply String.eqb_neq in E. cbn.
      destruct (metrics !! r) as [m |] eqn:Hm.
      * rewrite lookup_insert_ne by congruence.
        destruct (metrics !! userId); reflexivity.
      * destruct (metrics !! userId); reflexivity.
  - cbn. destruct (metrics !! userId); reflexivity.
Qed.

Lemma lookup_creditTask (task : CleaningTask.t)
    (metrics : gmap string Metrics.t) (userId : string) :
  creditTask metrics task !! userId
  = creditPerson userId task <$> metrics !! userId.
Proof.
  unfold creditTask, creditPerson.
  rewrite lookup_creditTemporary, lookup_credit_responsibles.
  fold (asResponsible userId task).
  destruct (metrics !! userId) as [m |]; [| reflexivity].
  cbn. destruct (Nat.eqb (asTemporary userId task) 0); reflexivity.
Qed.

(** The entry of a person is computed from the history alone. *)
Lemma lookup_tallyHistory (taskHistory : list CleaningTask.t)
    (availableUsers : list User.t) (userId : string) :
  tallyHistory taskHistory availableUsers !! userId
  = if bool_decide (userId ∈ User._id <$> availableUsers)
    then Some (foldl (fun m task => creditPerson userId task m)
                     Metrics.initial taskHistory)
    else None.
Proof.
  unfold tallyHistory.
  set (metrics0 := foldl _ ∅ availableUsers).
  assert (H0 : metrics0 !! userId
               = if bool_decide (userId ∈ User._id <$> availableUsers)
                 then Some Metrics.initial else None).
  { unfold metrics0. rewrite lookup_initial_metrics, lookup_empty.
    reflexivity. }
  clearbody metrics0.
  assert (Hgen : forall (history : list CleaningTask.t)
                        (metrics : gmap string Metrics.t),
             foldl creditTask metrics history !! userId
             = (fun m => foldl (fun m task => creditPerson userId task m)
                               m history) <$> metrics !! userId).
  { induction history as [| task history IH]; intros metrics.
    - cbn. destruct (metrics !! userId); reflexivity.
    - cbn [foldl]. rewrite IH, lookup_creditTask.
      destruct (metrics !! userId); reflexivity. }
  rewrite Hgen, H0.
  destruct (bool_decide (userId ∈ User._id <$> availableUsers)); reflexivity.
Qed.

Lemma lastAssigned_creditArea (task : CleaningTask.t) (m : Metrics.t)
    (area : string) :
  Metrics.lastAssignedAreas (creditArea task m) !! area
  = if String.eqb (CleaningTask.area task) area
    then Some (laterEnd (Metrics.lastAssignedAreas m !! area)
                        (CleaningTask.endDate task))
    else Metrics.lastAssignedAreas m !! area.
Proof.
  unfold creditArea. cbn [Metrics.lastAssignedAreas].
  destruct (String.eqb (CleaningTask.area task) area) eqn:E.
  - apply String.eqb_eq in E. subst area.
    destruct (Metrics.lastAssignedAreas m !! CleaningTask.area task)
      as [last |] eqn:Hl.
    + unfold laterEnd.
      destruct (Z.ltb last (CleaningTask.endDate task)) eqn:Hlt.
      * rewrite lookup_insert_eq. apply Z.ltb_lt in Hlt. f_equal. lia.
      * rewrite Hl. apply Z.ltb_ge in Hlt. f_equal. lia.
    + rewrite lookup_insert_eq. reflexivity.
  - apply String.eqb_neq in E.
    destruct (Metrics.lastAssignedAreas m !! CleaningTask.area task)
      as [last |].
    + destruct (Z.ltb last (CleaningTask.endDate task)); [| reflexivity].
      apply lookup_insert_ne. exact E.
    + apply lookup_insert_ne. exact E.
Qed.

Lemma count_creditArea (task : CleaningTask.t) (m : Metrics.t)
    (area : string) :
  areaAssignmentCount area (creditArea task m)
  = (areaAssignmentCount area m
     + if String.eqb (CleaningTask.area task) area then 1 else 0)%nat.
Proof.
  unfold areaAssignmentCount, creditArea. cbn [Metrics.areaAssignmentCounts].
  destruct (String.eqb (CleaningTask.area task) area) eqn:E.
  - apply String.eqb_eq in E. subst area. rewrite lookup_insert_eq. cbn. lia.
  - apply String.eqb_neq in E. rewrite lookup_insert_ne by exact E. lia.
Qed.

(** The condition under which the code counts a task as incomplete or
    rejected is the one of the specification. *)
Lemma incomplete_or_rejected_condition (task : CleaningTask.t) :
  (if wasCompleted task then false
   else wasRejected task || negb (CleaningTask.completed task))
  = isRejected task || negb (CleaningTask.completed task).
Proof.
  unfold wasCompleted, wasRejected, isRejected.
  destruct (CleaningTask.completed task),
    (CleaningTask.verificationStatus task); reflexivity.
Qed.

Lemma completed_condition (task : CleaningTask.t) :
  wasCompleted task = CleaningTask.completed task && isApproved task.
Proof. reflexivity. Qed.

Lemma counters_creditCompletion (task : CleaningTask.t) (m : Metrics.t) :
  Metrics.totalHistoricalTasks (creditCompletion task m)
  = S (Metrics.totalHistoricalTasks m)
  /\ Metrics.completedTasks (creditCompletion task m)
     = (Metrics.completedTasks m + if wasCompleted task then 1 else 0)%nat
  /\ Metrics.incompleteOrRejectedTasks (creditCompletion task m)
     = (Metrics.incompleteOrRejectedTasks m
        + if (if wasCompleted task then false
              else wasRejected task || negb (CleaningTask.completed task))
          then 1 else 0)%nat.
Proof.
  unfold creditCompletion.
  cbn [Metrics.totalHistoricalTasks Metrics.completedTasks
       Metrics.incompleteOrRejectedTasks].
  destruct (wasCompleted task);
    destruct (wasRejected task || negb (CleaningTask.completed task));
    repeat split; lia.
Qed.

Section PersonCredits.
Variable userId : string.

(** The counters of an entry after one more task. *)
Lemma counters_creditPerson (task : CleaningTask.t) (m : Metrics.t) :
  Metrics.totalHistoricalTasks (creditPerson userId task m)
  = (Metrics.totalHistoricalTasks m + creditsOf userId task)%nat
  /\ Metrics.completedTasks (creditPerson userId task m)
     = (Metrics.completedTasks m
        + if CleaningTask.completed task && isApproved task
          then creditsOf userId task else 0)%nat
  /\ Metrics.incompleteOrRejectedTasks (creditPerson userId task m)
     = (Metrics.incompleteOrRejectedTasks m
        + if isRejected task || negb (CleaningTask.completed task)
          then creditsOf userId task else 0)%nat.
Proof.
  rewrite <- incomplete_or_rejected_condition, <- completed_condition.
  unfold creditPerson, creditsOf.
  set (n := asResponsible userId task).
  set (c := wasCompleted task).
  set (i := if c then false
            else wasRejected task || negb (CleaningTask.completed task)).
  assert (Hiter :
    let m' := Nat.iter n (fun m => creditArea task (creditCompletion task m)) m in
    Metrics.totalHistoricalTasks m' = (Metrics.totalHistoricalTasks m + n)%nat
    /\ Metrics.completedTasks m'
       = (Metrics.completedTasks m + if c then n else 0)%nat
    /\ Metrics.incompleteOrRejectedTasks m'
       = (Metrics.incompleteOrRejectedTasks m + if i then n else 0)%nat).
  { clearbody n. induction n as [| n IH].
    - cbn. destruct c, i; repeat split; lia.
    - cbv zeta in *. rewrite Nat.iter_succ. destruct IH as (H1 & H2 & H3).
      change (Metrics.totalHistoricalTasks (creditArea task ?x))
        with (Metrics.totalHistoricalTasks x).
      change (Metrics.completedTasks (creditArea task ?x))
        with (Metrics.completedTasks x).
      change (Metrics.incompleteOrRejectedTasks (creditArea task ?x))
        with (Metrics.incompleteOrRejectedTasks x).
      destruct (counters_creditCompletion task
                  (Nat.iter n (fun m => creditArea task (creditCompletion task m))
                            m)) as (-> & -> & ->).
      fold c. fold i. rewrite H1, H2, H3.
      destruct c, i; repeat split; lia. }
  cbv zeta in Hiter. destruct Hiter as (H1 & H2 & H3).
  destruct (Nat.eqb (asTemporary userId task) 0) eqn:E.
  - apply Nat.eqb_eq in E. rewrite E, H1, H2, H3.
    destruct c, i; repeat split; lia.
  - assert (E1 : asTemporary userId task = 1%nat).
    { unfold asTemporary in *.
      destruct (CleaningTask.temporaryResponsible task) as [r |];
        [destruct (String.eqb userId r) |]; cbn in E;
        try discriminate; reflexivity. }
    destruct (counters_creditCompletion task
                (Nat.iter n (fun m => creditArea task (creditCompletion task m))
                          m)) as (-> & -> & ->).
    fold c. fold i. rewrite E1, H1, H2, H3.
    destruct c, i; repeat split; lia.
Qed.

(** The area statistics after one more task: only the responsibles count. *)
Lemma areas_creditPerson (task : CleaningTask.t) (m : Metrics.t)
    (area : string) :
  areaAssignmentCount area (creditPerson userId task m)
  = (areaAssignmentCount area m
     + if String.eqb (CleaningTask.area task) area
       then asResponsible userId task else 0)%nat
  /\ Metrics.lastAssignedAreas (creditPerson userId task m) !! area
     = if String.eqb (CleaningTask.area task) area
          && Nat.ltb 0 (asResponsible userId task)
       then Some (laterEnd (Metrics.lastAssignedAreas m !! area)
                           (CleaningTask.endDate task))
       else Metrics.lastAssignedAreas m !! area.
Proof.
  assert (Htemp : forall m',
             areaAssignmentCount area
               (if Nat.eqb (asTemporary userId task) 0 then m'
                else creditCompletion task m')
             = areaAssignmentCount area m'
             /\ Metrics.lastAssignedAreas
                  (if Nat.eqb (asTemporary userId task) 0 then m'
                   else creditCompletion task m') !! area
                = Metrics.lastAssignedAreas m' !! area).
  { intros m'. destruct (Nat.eqb (asTemporary userId task) 0);
      split; reflexivity. }
  unfold creditPerson. cbv zeta.
  destruct (Htemp (Nat.iter (asResponsible userId task)
                     (fun m => creditArea task (creditCompletion task m)) m))
    as [-> ->].
  clear Htemp. set (n := asResponsible userId task). clearbody n.
  induction n as [| n [IHc IHl]].
  - cbn. rewrite andb_false_r.
    destruct (String.eqb (CleaningTask.area task) area);
      (split; [lia | reflexivity]).
  - rewrite Nat.iter_succ. split.
    + rewrite count_creditArea.
      change (areaAssignmentCount area (creditCompletion task ?x))
        with (areaAssignmentCount area x).
      rewrite IHc. destruct (String.eqb (CleaningTask.area task) area); lia.
    + rewrite lastAssigned_creditArea.
      change (Metrics.lastAssignedAreas (creditCompletion task ?x))
        with (Metrics.lastAssignedAreas x).
      rewrite IHl.
      destruct (String.eqb (CleaningTask.area task) area); [| reflexivity].
      cbn [andb]. destruct n as [| n]; [reflexivity |].
      cbn. f_equal. unfold laterEnd.
      destruct (Metrics.lastAssignedAreas m !! area); lia.
Qed.
End PersonCredits.

Section HistoryCredits.
Variable userId : string.

Let step := fun (m : Metrics.t) (task : CleaningTask.t) =>
              creditPerson userId task m.

Lemma counters_history (history : list CleaningTask.t) (m : Metrics.t) :
  Metrics.totalHistoricalTasks (foldl step m history)
  = (Metrics.totalHistoricalTasks m
     + sum_list (creditsOf userId <$> history))%nat
  /\ Metrics.completedTasks (foldl step m history)
     = (Metrics.completedTasks m
        + sum_list ((fun task =>
                       if CleaningTask.completed task && isApproved task
                       then creditsOf userId task else 0%nat) <$> history))%nat
  /\ Metrics.incompleteOrRejectedTasks (foldl step m history)
     = (Metrics.incompleteOrRejectedTasks m
        + sum_list ((fun task =>
                       if isRejected task || negb (CleaningTask.completed task)
                       then creditsOf userId task else 0%nat) <$> history))%nat.
Proof.
  revert m. induction history as [| task history IH]; intros m.
  - cbn. repeat split; lia.
  - cbn [foldl fmap list_fmap sum_list].
    destruct (IH (step m task)) as (-> & -> & ->).
    unfold step at 1 2 3.
    destruct (counters_creditPerson userId task m) as (-> & -> & ->).
    unfold id. repeat split; lia.
Qed.

Lemma areas_history (history : list CleaningTask.t) (m : Metrics.t)
    (area : string) :
  areaAssignmentCount area (foldl step m history)
  = (areaAssignmentCount area m
     + sum_list ((fun task =>
                    if String.eqb (CleaningTask.area task) area
                    then asResponsible userId task else 0%nat) <$> history))%nat
  /\ Metrics.lastAssignedAreas (foldl step m history) !! area
     = foldl (fun acc task =>
                if String.eqb (CleaningTask.area task) area
                   && Nat.ltb 0 (asResponsible userId task)
                then Some (laterEnd acc (CleaningTask.endDate task))
                else acc)
             (Metrics.lastAssignedAreas m !! area) history.
Proof.
  revert m. induction history as [| task history IH]; intros m.
  - cbn. split; [lia | reflexivity].
  - cbn [foldl fmap list_fmap sum_list].
    destruct (IH (step m task)) as (-> & ->).
    unfold step at 1 2.
    destruct (areas_creditPerson userId task m area) as (-> & ->).
    unfold id. split; [lia | reflexivity].
Qed.

Lemma areaStatistics_step (task : CleaningTask.t) (x y : Metrics.t) :
  areaStatistics x = areaStatistics y ->
  areaStatistics (creditArea task (creditCompletion task x))
  = areaStatistics (creditArea task (creditCompletion task y)).
Proof.
  unfold areaStatistics. intros H. inversion H as [[Hl Hc]].
  unfold creditArea, creditCompletion.
  cbn [Metrics.lastAssignedAreas Metrics.areaAssignmentCounts].
  rewrite Hl, Hc. reflexivity.
Qed.

(** The temporary responsible of a task plays no part in the area
    statistics. *)
Lemma areaStatistics_creditPerson (task : CleaningTask.t) (x y : Metrics.t) :
  areaStatistics x = areaStatistics y ->
  areaStatistics (creditPerson userId task x)
  = areaStatistics (creditPerson userId (withoutTemporary task) y).
Proof.
  intros H. unfold creditPerson.
  change (asTemporary userId (withoutTemporary task)) with 0%nat.
  change (asResponsible userId (withoutTemporary task))
    with (asResponsible userId task).
  cbn [Nat.eqb].
  assert (Hiter : areaStatistics
                    (Nat.iter (asResponsible userId task)
                       (fun m => creditArea task (creditCompletion task m)) x)
                  = areaStatistics
                      (Nat.iter (asResponsible userId task)
                         (fun m => creditArea (withoutTemporary task)
                                     (creditCompletion (withoutTemporary task) m))
                         y)).
  { induction (asResponsible userId task) as [| n IH]; [exact H |].
    rewrite !Nat.iter_succ. apply (areaStatistics_step task). exact IH. }
  destruct (Nat.eqb (asTemporary userId task) 0); exact Hiter.
Qed.

Lemma areaStatistics_history (history : list CleaningTask.t) (x y : Metrics.t) :
  areaStatistics x = areaStatistics y ->
  areaStatistics (foldl step x history)
  = areaStatistics (foldl step y (withoutTemporary <$> history)).
Proof.
  revert x y. induction history as [| task history IH]; intros x y H.
  - exact H.
  - cbn [foldl fmap list_fmap]. apply IH. unfold step.
    apply areaStatistics_creditPerson. exact H.
Qed.
End HistoryCredits.

(** C8.  For every history and every person of the available set, the
    entry that [calculateUserMetrics] builds for the person counts a task
    as completed exactly when the task is completed and approved, and as
    incomplete or rejected exactly when it is rejected or not completed;
    a task in any other state counts for neither (only for the total).
    Each task counts once for each of the two roles the person has in it,
    responsible and temporary responsible.  The number of assignments and
    the latest end date per area count the responsibles only, and are the
    same when every temporary responsible is removed from the history. *)
Theorem calculateUserMetrics_credits (taskHistory : list CleaningTask.t)
    (availableUsers : list User.t) (userId : string) :
  userId ∈ User._id <$> availableUsers ->
  exists m,
    calculateUserMetrics taskHistory availableUsers !! userId = Some m
    /\ Metrics.totalHistoricalTasks m
       = sum_list (creditsOf userId <$> taskHistory)
    /\ Metrics.completedTasks m
       = sum_list ((fun task =>
                      if CleaningTask.completed task && isApproved task
                      then creditsOf userId task else 0%nat) <$> taskHistory)
    /\ Metrics.incompleteOrRejectedTasks m
       = sum_list ((fun task =>
                      if isRejected task || negb (CleaningTask.completed task)
                      then creditsOf userId task else 0%nat) <$> taskHistory)
    /\ (forall area,
          areaAssignmentCount area m
          = sum_list ((fun task =>
                         if String.eqb (CleaningTask.area task) area
                         then asResponsible userId task else 0%nat)
                        <$> taskHistory))
    /\ (forall area,
          Metrics.lastAssignedAreas m !! area
          = latestEnd userId area taskHistory)
    /\ exists m',
         calculateUserMetrics (withoutTemporary <$> taskHistory) availableUsers
           !! userId = Some m'
         /\ Metrics.lastAssignedAreas m' = Metrics.lastAssignedAreas m
         /\ Metrics.areaAssignmentCounts m' = Metrics.areaAssignmentCounts m.
Proof.
  intros Hin. unfold calculateUserMetrics.
  rewrite !lookup_fmap, !lookup_tallyHistory.
  rewrite (bool_decide_eq_true_2 _ Hin). cbn [fmap option_fmap option_map].
  set (m := foldl (fun m task => creditPerson userId task m)
                  Metrics.initial taskHistory).
  set (m' := foldl (fun m task => creditPerson userId task m)
                   Metrics.initial (withoutTemporary <$> taskHistory)).
  assert (Hrate : forall x,
             Metrics.totalHistoricalTasks (withCompletionRate x)
             = Metrics.totalHistoricalTasks x
             /\ Metrics.completedTasks (withCompletionRate x)
                = Metrics.completedTasks x
             /\ Metrics.incompleteOrRejectedTasks (withCompletionRate x)
                = Metrics.incompleteOrRejectedTasks x
             /\ Metrics.lastAssignedAreas (withCompletionRate x)
                = Metrics.lastAssignedAreas x
             /\ Metrics.areaAssignmentCounts (withCompletionRate x)
                = Metrics.areaAssignmentCounts x).
  { intros x. unfold withCompletionRate.
    destruct (Nat.ltb 0 _); repeat split; reflexivity. }
  exists (withCompletionRate m). split; [reflexivity |].
  destruct (Hrate m) as (-> & -> & -> & Hl & Hc).
  destruct (counters_history userId taskHistory Metrics.initial)
    as (H1 & H2 & H3).
  fold m in H1, H2, H3. rewrite H1, H2, H3.
  split; [reflexivity |]. split; [reflexivity |]. split; [reflexivity |].
  split.
  { intros area. unfold areaAssignmentCount. rewrite Hc.
    destruct (areas_history userId taskHistory Metrics.initial area)
      as [Ha _].
    unfold areaAssignmentCount in Ha. fold m in Ha. rewrite Ha.
    cbn [Metrics.areaAssignmentCounts Metrics.initial].
    rewrite lookup_empty. reflexivity. }
  split.
  { intros area. rewrite Hl.
    destruct (areas_history userId taskHistory Metrics.initial area)
      as [_ Hb].
    fold m in Hb. rewrite Hb.
    cbn [Metrics.lastAssignedAreas Metrics.initial].
    rewrite lookup_empty. reflexivity. }
  exists (withCompletionRate m'). split; [reflexivity |].
  destruct (Hrate m') as (_ & _ & _ & -> & ->). rewrite Hl, Hc.
  pose proof (areaStatistics_history userId taskHistory Metrics.initial
                Metrics.initial eq_refl) as Hs.
  fold m in Hs. fold m' in Hs. unfold areaStatistics in Hs.
  inversion Hs as [[Hs1 Hs2]]. split; reflexivity.
Qed.

Lemma calculateUserMetrics_credits_witness :
  exists m,
    calculateUserMetrics Sample.history [Sample.ana; Sample.bea] !! "ana"
    = Some m
    /\ Metrics.totalHistoricalTasks m = 4%nat
    /\ Metrics.completedTasks m = 1%nat
    /\ Metrics.incompleteOrRejectedTasks m = 2%nat
    /\ areaAssignmentCount "Baño 1" m = 1%nat
    /\ Metrics.lastAssignedAreas m !! "Basura" = Some 1704672000000%Z.
Proof.
  destruct (calculateUserMetrics_credits Sample.history
              [Sample.ana; Sample.bea] "ana")
    as (m & Hm & H1 & H2 & H3 & H4 & H5 & _).
  - compute_done.
  - exists m. split; [exact Hm |].
    rewrite H1, H2, H3, (H4 "Baño 1"), (H5 "Basura").
    repeat split; reflexivity.
Defined.

(** ** Sorting *)

Section StableSort.
Context {A : Type} (before : A -> A -> bool).

Lemma insertSorted_Permutation (x : A) (l : list A) :
  insertSorted before x l ≡ₚ x :: l.
Proof.
  induction l as [| y r IH]; [reflexivity |].
  cbn [insertSorted]. destruct (before x y); [reflexivity |].
  rewrite IH. apply Permutation_swap.
Qed.

Lemma stableSort_Permutation (l : list A) : stableSort before l ≡ₚ l.
Proof.
  unfold stableSort. induction l as [| x l IH]; [reflexivity |].
  cbn [foldr]. rewrite insertSorted_Permutation, IH. reflexivity.
Qed.

Lemma stableSort_length (l : list A) :
  length (stableSort before l) = length l.
Proof. apply Permutation_length, stableSort_Permutation. Qed.

Hypothesis before_total : forall x y, before x y = true \/ before y x = true.
Hypothesis before_trans :
  forall x y z, before x y = true -> before y z = true -> before x z = true.

Lemma insertSorted_sorted (x : A) (l : list A) :
  StronglySorted (fun a b => before a b = true) l ->
  StronglySorted (fun a b => before a b = true) (insertSorted before x l).
Proof.
  induction l as [| y r IH]; intros Hs.
  - cbn. apply SSorted_cons; [apply SSorted_nil | apply Forall_nil_2].
  - apply StronglySorted_inv in Hs. destruct Hs as [Hr Hy].
    cbn [insertSorted]. destruct (before x y) eqn:E.
    + apply SSorted_cons.
      * apply SSorted_cons; assumption.
      * apply Forall_cons. split; [exact E |].
        eapply Forall_impl; [exact Hy |]. intros z Hz.
        exact (before_trans x y z E Hz).
    + apply SSorted_cons; [apply IH; exact Hr |].
      rewrite insertSorted_Permutation. apply Forall_cons. split; [| exact Hy].
      destruct (before_total x y) as [H | H]; [congruence | exact H].
Qed.

Lemma stableSort_sorted (l : list A) :
  StronglySorted (fun a b => before a b = true) (stableSort before l).
Proof.
  unfold stableSort. induction l as [| x l IH]; [apply SSorted_nil |].
  cbn [foldr]. apply insertSorted_sorted. exact IH.
Qed.
End StableSort.

Lemma StronglySorted_weaken {A : Type} (R S : A -> A -> Prop) (l : list A) :
  (forall a b, R a b -> S a b) -> StronglySorted R l -> StronglySorted S l.
Proof.
  intros HRS Hs. induction Hs as [| a l Hs IH Ha]; [apply SSorted_nil |].
  apply SSorted_cons; [exact IH |].
  eapply Forall_impl; [exact Ha |]. intros b. apply HRS.
Qed.

(** In a sorted list every element of a prefix is related to every element
    of the rest. *)
Lemma StronglySorted_take_drop {A : Type} (R : A -> A -> Prop) (n : nat)
    (l : list A) (a b : A) :
  StronglySorted R l -> a ∈ take n l -> b ∈ drop n l -> R a b.
Proof.
  intros Hs. revert n. induction Hs as [| x l Hs IH Hx]; intros n Ha Hb.
  - rewrite take_nil in Ha. apply not_elem_of_nil in Ha. contradiction.
  - destruct n as [| n].
    + cbn in Ha. apply not_elem_of_nil in Ha. contradiction.
    + cbn in Ha, Hb. apply elem_of_cons in Ha. destruct Ha as [-> | Ha].
      * rewrite Forall_forall in Hx. apply Hx.
        eapply elem_of_sublist; [exact Hb | apply sublist_drop].
      * exact (IH n Ha Hb).
Qed.

Lemma byScoreDesc_total (x y : string * Q) :
  byScoreDesc x y = true \/ byScoreDesc y x = true.
Proof.
  unfold byScoreDesc. rewrite !Qle_bool_iff.
  destruct (Qlt_le_dec (snd x) (snd y)) as [H | H].
  - right. apply Qlt_le_weak. exact H.
  - left. exact H.
Qed.

Lemma byScoreDesc_trans (x y z : string * Q) :
  byScoreDesc x y = true -> byScoreDesc y z = true -> byScoreDesc x z = true.
Proof.
  unfold byScoreDesc. rewrite !Qle_bool_iff. intros H1 H2.
  eapply Qle_trans; eassumption.
Qed.

(** ** Scorer and planner (C1, C4) *)

(** The score is the weighted sum of the five factors, the fifth with the
    divisor replaced by 1 when nobody has any historical task. *)
Lemma score_weightedSum (area : string) (now : Z)
    (userMetrics : gmap string Metrics.t) (targetWorkload : Q)
    (metrics : Metrics.t) :
  (score area now userMetrics targetWorkload metrics
   == weightedSum (daysSinceLastAssignment area now metrics)
        (areaAssignmentCount area metrics) targetWorkload
        (default 0%nat (Metrics.currentWorkload metrics))
        (Metrics.completionRate metrics)
        (ofNat (Metrics.totalHistoricalTasks metrics)
         / ofNat (if Nat.eqb (maxTotalHistoricalTasks userMetrics) 0 then 1%nat
                  else maxTotalHistoricalTasks userMetrics)))%Q.
Proof. unfold score, weightedSum, totalTasksRatio. ring. Qed.

Lemma ofNat_zero_iff (n : nat) : (ofNat n == 0)%Q <-> n = 0%nat.
Proof.
  unfold ofNat. split.
  - intros H. unfold Qeq in H. cbn in H. lia.
  - intros ->. reflexivity.
Qed.

(** With some history, that is the score as the specification words it. *)
Lemma score_matches_specified (area : string) (now : Z)
    (userMetrics : gmap string Metrics.t) (targetWorkload : Q)
    (metrics : Metrics.t) :
  maxTotalHistoricalTasks userMetrics ≠ 0%nat ->
  exists s,
    scoreAsSpecified area now userMetrics targetWorkload metrics = Some s
    /\ (score area now userMetrics targetWorkload metrics == s)%Q.
Proof.
  intros Hmax. unfold scoreAsSpecified, quotient.
  destruct (Qeq_bool (ofNat (maxTotalHistoricalTasks userMetrics)) 0) eqn:E.
  - apply Qeq_bool_iff in E. apply ofNat_zero_iff in E. contradiction.
  - eexists. split; [reflexivity |].
    rewrite score_weightedSum.
    replace (Nat.eqb (maxTotalHistoricalTasks userMetrics) 0) with false
      by (symmetry; apply Nat.eqb_neq; exact Hmax).
    reflexivity.
Qed.

(** Without any history the score as specified is not a number. *)
Lemma score_specified_undefined (area : string) (now : Z)
    (userMetrics : gmap string Metrics.t) (targetWorkload : Q)
    (metrics : Metrics.t) :
  maxTotalHistoricalTasks userMetrics = 0%nat ->
  scoreAsSpecified area now userMetrics targetWorkload metrics = None.
Proof.
  intros Hmax. unfold scoreAsSpecified, quotient. rewrite Hmax. reflexivity.
Qed.

(** The scored list: one pair for each available person, in order. *)
Lemma scoreUser_mapM (area : string) (now : Z)
    (userMetrics : gmap string Metrics.t) (targetWorkload : Q)
    (availableUsers : list User.t) (scoredUsers : list (string * Q)) :
  mapM (scoreUser area now userMetrics targetWorkload) availableUsers
  = Some scoredUsers ->
  Forall2 (fun user scored =>
             exists metrics,
               userMetrics !! User._id user = Some metrics
               /\ scored = (User._id user,
                            score area now userMetrics targetWorkload metrics))
          availableUsers scoredUsers.
Proof.
  intros H. apply mapM_Some_1 in H.
  eapply Forall2_impl; [exact H |].
  intros user scored Hs. unfold scoreUser in Hs.
  destruct (userMetrics !! User._id user) as [metrics |]; [| discriminate].
  cbn in Hs. inversion Hs. exists metrics. split; reflexivity.
Qed.

(** The responsibles are the first [peopleNeeded] of the scored people in
    descending order of score. *)
Lemma selectResponsiblesForArea_top (areaInfo : AreaInfo.t)
    (availableUsers : list User.t) (userMetrics : gmap string Metrics.t)
    (targetWorkload : Q) (now : Z) (responsibles : list string) :
  selectResponsiblesForArea areaInfo availableUsers userMetrics targetWorkload
                            now = Some responsibles ->
  exists scoredUsers ranked,
    mapM (scoreUser (AreaInfo.area areaInfo) now userMetrics targetWorkload)
         availableUsers = Some scoredUsers
    /\ ranked ≡ₚ scoredUsers
    /\ StronglySorted (fun a b => (snd b <= snd a)%Q) ranked
    /\ responsibles = fst <$> take (AreaInfo.peopleNeeded areaInfo) ranked
    /\ length responsibles
       = Nat.min (AreaInfo.peopleNeeded areaInfo) (length availableUsers)
    /\ (forall chosen other,
          chosen ∈ take (AreaInfo.peopleNeeded areaInfo) ranked ->
          other ∈ drop (AreaInfo.peopleNeeded areaInfo) ranked ->
          (snd other <= snd chosen)%Q).
Proof.
  unfold selectResponsiblesForArea. intros H.
  destruct (mapM _ availableUsers) as [scoredUsers |] eqn:Hm; [| discriminate].
  cbn in H. inversion H as [Hr]. clear H.
  exists scoredUsers, (stableSort byScoreDesc scoredUsers).
  pose proof (stableSort_sorted byScoreDesc byScoreDesc_total
                byScoreDesc_trans scoredUsers) as Hsorted.
  assert (Hsorted' : StronglySorted (fun a b => (snd b <= snd a)%Q)
                       (stableSort byScoreDesc scoredUsers)).
  { eapply StronglySorted_weaken; [| exact Hsorted].
    intros a b Hab. apply Qle_bool_iff. exact Hab. }
  split; [reflexivity |]. split; [apply stableSort_Permutation |].
  split; [exact Hsorted' |]. split; [reflexivity |]. split.
  - rewrite length_fmap, length_take, stableSort_length.
    apply length_mapM in Hm. rewrite Hm. reflexivity.
  - intros chosen other Hc Ho.
    exact (StronglySorted_take_drop _ _ _ chosen other Hsorted' Hc Ho).
Qed.

(** *** The planning loop *)

Lemma lookup_recordAssignments (areaInfo : AreaInfo.t) (now : Z)
    (responsibles : list string) (userMetrics : gmap string Metrics.t)
    (userId : string) :
  foldl (fun um id => alter (recordAssignment areaInfo now) id um)
        userMetrics responsibles !! userId
  = Nat.iter (length (List.filter (String.eqb userId) responsibles))
             (recordAssignment areaInfo now) <$> userMetrics !! userId.
Proof.
  revert userMetrics. induction responsibles as [| v rs IH]; intros userMetrics.
  - cbn. destruct (userMetrics !! userId); reflexivity.
  - cbn [foldl List.filter]. rewrite IH.
    destruct (String.eqb userId v) eqn:E.
    + apply String.eqb_eq in E. subst v. rewrite lookup_alter_eq.
      cbn [length]. destruct (userMetrics !! userId) as [m |]; [| reflexivity].
      unfold fmap, option_fmap, option_map. rewrite Nat.iter_succ_r.
      reflexivity.
    + apply String.eqb_neq in E. rewrite lookup_alter_ne by congruence.
      reflexivity.
Qed.


(** One iteration: the responsibles come from the metrics as they are when
    the area is reached, and each of them is then charged the difficulty. *)
Lemma assignArea_Some (availableUsers : list User.t) (targetWorkload : Q)
    (now : Z) (plan plan' : Plan) (areaInfo : AreaInfo.t) :
  assignArea availableUsers targetWorkload now plan areaInfo = Some plan' ->
  exists task,
    selectResponsiblesForArea areaInfo availableUsers (planMetrics plan)
                              targetWorkload now
    = Some (CleaningTask.responsibles task)
    /\ newTasks plan' = newTasks plan ++ [task]
    /\ CleaningTask._id task = planNextId plan
    /\ planNextId plan' = N.succ (planNextId plan)
    /\ CleaningTask.area task = AreaInfo.area areaInfo
    /\ CleaningTask.frequency task = frequencyOf (AreaInfo.area areaInfo)
    /\ CleaningTask.startDate task = now
    /\ CleaningTask.endDate task
       = calculateEndDate now (frequencyOf (AreaInfo.area areaInfo))
    /\ forall userId,
         planMetrics plan' !! userId
         = Nat.iter (asResponsible userId task) (recordAssignment areaInfo now)
             <$> planMetrics plan !! userId.
Proof.
  unfold assignArea. intros H.
  destruct (selectResponsiblesForArea _ _ _ _ _) as [responsibles |];
    [| discriminate].
  cbn in H. inversion H. subst plan'. clear H.
  cbn [newTasks planMetrics planNextId].
  exists (newCleaningTask (planNextId plan) (AreaInfo.area areaInfo)
            (frequencyOf (AreaInfo.area areaInfo)) responsibles now
            (calculateEndDate now (frequencyOf (AreaInfo.area areaInfo)))
            (selectVerifiers responsibles availableUsers
               (foldl (fun um id => alter (recordAssignment areaInfo now) id um)
                      (planMetrics plan) responsibles))).
  split; [reflexivity |]. split; [reflexivity |].
  cbn. repeat split; try reflexivity.
  intros userId. apply lookup_recordAssignments.
Qed.


(** The tasks created by the loop are appended, one for each area. *)
Lemma assignAreas_newTasks (availableUsers : list User.t) (targetWorkload : Q)
    (now : Z) (areas : list AreaInfo.t) (plan planEnd : Plan) :
  assignAreas availableUsers targetWorkload now plan areas = Some planEnd ->
  exists created,
    newTasks planEnd = newTasks plan ++ created
    /\ Forall2 (fun areaInfo task =>
                  CleaningTask.area task = AreaInfo.area areaInfo
                  /\ CleaningTask.frequency task
                     = frequencyOf (AreaInfo.area areaInfo)
                  /\ CleaningTask.startDate task = now
                  /\ CleaningTask.endDate task
                     = calculateEndDate now (frequencyOf (AreaInfo.area areaInfo)))
               areas created
    /\ CleaningTask._id <$> created
       = (fun i => (planNextId plan + N.of_nat i)%N) <$> seq 0 (length areas)
    /\ planNextId planEnd = (planNextId plan + N.of_nat (length areas))%N.
Proof.
  revert plan. induction areas as [| a areas IH]; intros plan H.
  - cbn in H. inversion H. subst planEnd. exists [].
    rewrite app_nil_r. repeat split; [constructor | cbn; lia].
  - cbn [assignAreas] in H.
    destruct (assignArea availableUsers targetWorkload now plan a)
      as [plan1 |] eqn:Ha; [| discriminate].
    cbn in H.
    destruct (assignArea_Some _ _ _ _ _ _ Ha)
      as (task & _ & Hn & Hid & Hnext & Harea & Hfreq & Hstart & Hend & _).
    destruct (IH plan1 H) as (created & Hc & Hall & Hids & Hlast).
    exists (task :: created). split.
    { rewrite Hc, Hn, <- app_assoc. reflexivity. }
    split.
    { constructor; [repeat split; assumption | exact Hall]. }
    split.
    { cbn [length seq fmap list_fmap]. rewrite Hids, Hid, Hnext. f_equal.
      - lia.
      - rewrite <- fmap_S_seq, <- list_fmap_compose.
        apply list_fmap_ext. intros i x _. cbn. lia. }
    rewrite Hlast, Hnext. cbn [length]. lia.
Qed.


Lemma lookup_resetWorkload (availableUsers : list User.t)
    (userMetrics : gmap string Metrics.t) (userId : string) :
  foldl resetWorkload userMetrics availableUsers !! userId
  = if bool_decide (userId ∈ User._id <$> availableUsers)
    then Some (zeroWorkload (default Metrics.initial (userMetrics !! userId)))
    else userMetrics !! userId.
Proof.
  revert userMetrics.
  induction availableUsers as [| u us IH]; intros userMetrics.
  - cbn. rewrite bool_decide_eq_false_2 by apply not_elem_of_nil. reflexivity.
  - cbn [foldl]. rewrite IH, fmap_cons. unfold resetWorkload.
    destruct (decide (userId = User._id u)) as [-> | Hne].
    + rewrite lookup_insert_eq.
      rewrite (bool_decide_eq_true_2 (User._id u ∈ User._id u :: _))
        by apply list_elem_of_here.
      destruct (bool_decide (User._id u ∈ User._id <$> us)); reflexivity.
    + rewrite lookup_insert_ne by congruence.
      destruct (decide (userId ∈ User._id <$> us)) as [Hin | Hnin].
      * rewrite !bool_decide_eq_true_2; [reflexivity | | assumption].
        apply list_elem_of_further. exact Hin.
      * rewrite (bool_decide_eq_false_2 _ Hnin).
        rewrite bool_decide_eq_false_2; [reflexivity |].
        intros Hin. apply elem_of_cons in Hin. destruct Hin; contradiction.
Qed.

(** Every available person has an entry, those of the others are absent. *)
Lemma lookup_calculateUserMetrics (taskHistory : list CleaningTask.t)
    (availableUsers : list User.t) (userId : string) :
  is_Some (calculateUserMetrics taskHistory availableUsers !! userId)
  <-> (userId ∈ User._id <$> availableUsers).
Proof.
  unfold calculateUserMetrics. rewrite lookup_fmap, lookup_tallyHistory.
  destruct (decide (userId ∈ User._id <$> availableUsers)) as [Hin | Hnin].
  - rewrite (bool_decide_eq_true_2 _ Hin). cbn. split; [auto | eauto].
  - rewrite (bool_decide_eq_false_2 _ Hnin). cbn. split.
    + intros [x Hx]. discriminate.
    + intros Hin. contradiction.
Qed.

(** The loop starts with the entries of the history and no workload. *)
Lemma lookup_initialPlan (taskHistory : list CleaningTask.t)
    (availableUsers : list User.t) (nextId : N) (userId : string) :
  planMetrics (initialPlan taskHistory availableUsers nextId) !! userId
  = zeroWorkload
      <$> calculateUserMetrics taskHistory availableUsers !! userId.
Proof.
  unfold initialPlan. cbn [planMetrics]. rewrite lookup_resetWorkload.
  pose proof (lookup_calculateUserMetrics taskHistory availableUsers userId)
    as Hdom.
  destruct (decide (userId ∈ User._id <$> availableUsers)) as [Hin | Hnin].
  - rewrite (bool_decide_eq_true_2 _ Hin).
    apply Hdom in Hin. destruct Hin as [m Hm]. rewrite Hm. reflexivity.
  - rewrite (bool_decide_eq_false_2 _ Hnin).
    destruct (calculateUserMetrics taskHistory availableUsers !! userId)
      as [m |] eqn:Hm; [| reflexivity].
    exfalso. apply Hnin, Hdom. eauto.
Qed.








(** *** The rotation as a whole *)

Lemma assignAreas_is_Some (availableUsers : list User.t) (targetWorkload : Q)
    (now : Z) (areas : list AreaInfo.t) (plan : Plan) :
  (forall user, user ∈ availableUsers ->
                is_Some (planMetrics plan !! User._id user)) ->
  is_Some (assignAreas availableUsers targetWorkload now plan areas).
Proof.
  revert plan. induction areas as [| a areas IH]; intros plan Hdom.
  - cbn. eauto.
  - cbn [assignAreas].
    destruct (assignArea availableUsers targetWorkload now plan a)
      as [plan1 |] eqn:Ha.
    + cbn. apply IH. intros user Huser.
      destruct (assignArea_Some _ _ _ _ _ _ Ha)
        as (task & _ & _ & _ & _ & _ & _ & _ & _ & Hm).
      rewrite Hm. destruct (Hdom user Huser) as [m ->]. cbn. eauto.
    + exfalso. unfold assignArea in Ha.
      destruct (selectResponsiblesForArea a availableUsers (planMetrics plan)
                  targetWorkload now) as [responsibles |] eqn:Hs;
        [discriminate |].
      unfold selectResponsiblesForArea in Hs.
      destruct (mapM _ availableUsers) as [scored |] eqn:Hmap;
        [discriminate |].
      apply mapM_None_1 in Hmap. apply Exists_exists in Hmap.
      destruct Hmap as (user & Huser & Hnone).
      unfold scoreUser in Hnone.
      destruct (Hdom user Huser) as [m Hm]. rewrite Hm in Hnone.
      discriminate.
Qed.

(** Planning never fails: every available person has an entry to score. *)
Lemma planRotation_is_Some (taskHistory : list CleaningTask.t)
    (availableUsers : list User.t) (areas : list AreaInfo.t) (now : Z)
    (nextId : N) :
  is_Some (planRotation taskHistory availableUsers areas now nextId).
Proof.
  unfold planRotation. apply assignAreas_is_Some.
  intros user Huser.
  change (mkPlan (foldl resetWorkload
                    (calculateUserMetrics taskHistory availableUsers)
                    availableUsers) [] nextId)
    with (initialPlan taskHistory availableUsers nextId).
  rewrite lookup_initialPlan.
  assert (Hin : User._id user ∈ User._id <$> availableUsers).
  { apply list_elem_of_fmap. exists user. split; [reflexivity | exact Huser]. }
  apply lookup_calculateUserMetrics with (taskHistory := taskHistory) in Hin.
  destruct Hin as [m ->]. cbn. eauto.
Qed.

(** C4.  With fewer than two available people [rotateAssignments] answers
    400 and the database is unchanged: the answer comes before
    [deleteMany].  With two or more, the answer is the new task set, which
    is all that the task collection then holds: one task for each configured
    area, hardest area first, starting now and ending by the frequency of
    the area, with fresh ids, so that no task of the old set remains. *)
Theorem rotateAssignments_precondition (now : Z) (db : DB) :
  let availableUsers :=
    List.filter (fun u => User.availableNextWeek u) (users db) in
  ((length availableUsers < 2)%nat ->
   exists error, rotateAssignments now db = (status_json 400 error, db))
  /\ ((2 <= length availableUsers)%nat ->
      exists created,
        rotateAssignments now db
        = (json created,
           mkDB (users db) created
                (nextObjectId db + N.of_nat (length areaConfig))%N)
        /\ Forall2 (fun areaInfo task =>
                      CleaningTask.area task = AreaInfo.area areaInfo
                      /\ CleaningTask.frequency task
                         = frequencyOf (AreaInfo.area areaInfo)
                      /\ CleaningTask.startDate task = now
                      /\ CleaningTask.endDate task
                         = calculateEndDate now
                             (frequencyOf (AreaInfo.area areaInfo)))
                   (stableSort byDifficultyDesc areaConfig) created
        /\ CleaningTask._id <$> created
           = (fun i => (nextObjectId db + N.of_nat i)%N)
               <$> seq 0 (length areaConfig)
        /\ ((forall old, old ∈ tasks db ->
                         (CleaningTask._id old < nextObjectId db)%N) ->
            forall old, old ∈ tasks db -> old ∉ created)).
Proof.
  intros availableUsers. unfold rotateAssignments. fold availableUsers. split.
  - intros Hlt. apply Nat.ltb_lt in Hlt. rewrite Hlt. eexists. reflexivity.
  - intros Hge. apply Nat.ltb_ge in Hge. rewrite Hge.
    destruct (planRotation_is_Some (stableSort byEndDateDesc (tasks db))
                availableUsers areaConfig now (nextObjectId db))
      as [plan Hplan].
    rewrite Hplan. cbn [tasks].
    unfold planRotation in Hplan.
    destruct (assignAreas_newTasks _ _ _ _ _ _ Hplan)
      as (created & Hc & Hall & Hids & Hnext).
    cbn [newTasks planNextId app] in Hc, Hids, Hnext.
    rewrite stableSort_length in Hids, Hnext.
    exists created. rewrite Hc, Hnext.
    split; [reflexivity |]. split; [exact Hall |]. split; [exact Hids |].
    intros Hold old Hin Hnew.
    assert (Hid : CleaningTask._id old ∈ CleaningTask._id <$> created).
    { apply list_elem_of_fmap. exists old. split; [reflexivity | exact Hnew]. }
    rewrite Hids in Hid. apply list_elem_of_fmap in Hid.
    destruct Hid as (i & Hi & _). specialize (Hold old Hin). lia.
Qed.

Lemma rotateAssignments_precondition_witness :
  (exists error,
      rotateAssignments Sample.now Sample.dbAlone
      = (status_json 400 error, Sample.dbAlone))
  /\ exists created,
       rotateAssignments Sample.now Sample.dbRotation
       = (json created, mkDB [Sample.ana; Sample.bea; Sample.carlos] created 108)
       /\ CleaningTask.area <$> created
          = ["Cocina y Living"; "Terraza y Escaleras"; "Cortar el pasto";
             "Baño 1"; "Baño 2"; "Baño 3"; "Orden de Cocina"; "Basura"]
       /\ forall old, old ∈ Sample.history -> old ∉ created.
Proof.
  split.
  - apply (proj1 (rotateAssignments_precondition Sample.now Sample.dbAlone)).
    vm_compute. lia.
  - destruct (proj2 (rotateAssignments_precondition Sample.now
                       Sample.dbRotation))
      as (created & Hr & Hall & Hids & Hold).
    + vm_compute. lia.
    + exists created. split; [exact Hr |]. split.
      * clear - Hr. vm_compute in Hr. inversion Hr. reflexivity.
      * apply Hold. intros old Hin. clear - Hin.
        cbn in Hin. repeat (apply elem_of_cons in Hin;
                            destruct Hin as [-> | Hin]; [reflexivity |]).
        apply not_elem_of_nil in Hin. contradiction.
Defined.

(* ===================================================================== *)
(** * Part III: further properties of the code                            *)
(* ===================================================================== *)

(** ** End dates *)

Lemma DaysInMonth_range (y m : Z) :
  (28 <= JSDate.DaysInMonth y m <= 31)%Z.
Proof.
  unfold JSDate.DaysInMonth.
  destruct (m =? 1)%Z; [destruct (JSDate.isLeapYear y); lia |].
  destruct ((m =? 3)%Z || (m =? 5)%Z || (m =? 8)%Z || (m =? 10)%Z); lia.
Qed.

Ltac split_Z_tests :=
  repeat first
    [ match goal with |- context [Z.leb ?a ?b] => destruct (Z.leb_spec a b) end
    | match goal with |- context [Z.ltb ?a ?b] => destruct (Z.ltb_spec a b) end
    | match goal with |- context [Z.eqb ?a ?b] => destruct (Z.eqb_spec a b) end ];
  cbn [andb orb negb fst snd].

(** The first day of the next month comes as many days after the first day
    of a month as the month has. *)
Lemma first_of_next_month (y m : Z) :
  (0 <= m <= 11)%Z ->
  JSDate.days_from_civil (fst (JSDate.nextMonth y m))
                         (snd (JSDate.nextMonth y m)) 1
  = (JSDate.days_from_civil y m 1 + JSDate.DaysInMonth y m)%Z.
Proof.
  intros Hm.
  assert (Hc : (m = 0 \/ m = 1 \/ m = 2 \/ m = 3 \/ m = 4 \/ m = 5 \/ m = 6
                \/ m = 7 \/ m = 8 \/ m = 9 \/ m = 10 \/ m = 11)%Z) by lia.
  unfold JSDate.DaysInMonth, JSDate.isLeapYear, JSDate.nextMonth.
  destruct Hc as [-> | [-> | [-> | [-> | [-> | [-> | [-> | [-> | [-> | [-> | [-> | ->]]]]]]]]]]];
    split_Z_tests; try lia;
    unfold JSDate.days_from_civil, JSDate.days_before_yoe;
    split_Z_tests; lia.
Qed.

(** Setting the month to the next one moves a date by the length of its
    month, also when the day of the month does not exist in the next month:
    the days in excess are carried over. *)
Lemma setMonth_next_month (start : Z) :
  JSDate.setMonth start (JSDate.getMonth start + 1)
  = (start
     + JSDate.DaysInMonth (JSDate.getFullYear start) (JSDate.getMonth start)
       * JSDate.msPerDay)%Z.
Proof.
  pose proof (JSDateFacts.setMonth_getMonth_succ start) as H.
  pose proof (first_of_next_month (JSDate.getFullYear start)
                (JSDate.getMonth start)
                (JSDateFacts.civil_month_range (JSDate.Day start))) as Hn.
  destruct (JSDate.nextMonth (JSDate.getFullYear start)
                             (JSDate.getMonth start)) as [ny nm].
  cbn [fst snd] in Hn. rewrite H. unfold JSDate.at_civil, JSDate.MakeDate.
  rewrite Hn.
  pose proof (JSDateFacts.Day_fields start) as Hd.
  pose proof (JSDateFacts.MakeDate_Day start) as Hs.
  unfold JSDate.MakeDate in Hs.
  replace (JSDate.DateFromTime start)
    with (1 + (JSDate.DateFromTime start - 1))%Z in Hd by lia.
  rewrite JSDateFacts.days_from_civil_shift in Hd.
  unfold JSDate.getFullYear, JSDate.getMonth, JSDate.getDate.
  unfold JSDate.msPerDay in *. lia.
Qed.

(** An end date lies between 7 and 31 days after the start. *)
Lemma calculateEndDate_window (start : Z) (frequency : string) :
  (start + 7 * JSDate.msPerDay <= calculateEndDate start frequency
   <= start + 31 * JSDate.msPerDay)%Z.
Proof.
  unfold calculateEndDate.
  destruct (String.eqb frequency "monthly").
  - rewrite setMonth_next_month.
    pose proof (DaysInMonth_range (JSDate.getFullYear start)
                  (JSDate.getMonth start)).
    unfold JSDate.msPerDay. lia.
  - destruct (String.eqb frequency "biweekly");
      rewrite JSDateFacts.setDate_getDate_plus; unfold JSDate.msPerDay; lia.
Qed.

(** X1.  For every start date and every frequency string, the end date is
    the start date plus a whole number of days: the number of days of the
    month of the start date when the frequency is 'monthly', 14 when it is
    'biweekly', 7 for any other string.  So a task lasts between 7 and 31
    days and never ends before it starts. *)
Theorem calculateEndDate_duration (start : Z) (frequency : string) :
  let days :=
    if String.eqb frequency "monthly"
    then JSDate.DaysInMonth (JSDate.getFullYear start) (JSDate.getMonth start)
    else if String.eqb frequency "biweekly" then 14%Z else 7%Z in
  calculateEndDate start frequency = (start + days * JSDate.msPerDay)%Z
  /\ (7 <= days <= 31)%Z
  /\ (start < calculateEndDate start frequency)%Z.
Proof.
  cbv zeta.
  assert (Hmain :
    calculateEndDate start frequency
    = (start
       + (if String.eqb frequency "monthly"
          then JSDate.DaysInMonth (JSDate.getFullYear start)
                                  (JSDate.getMonth start)
          else if String.eqb frequency "biweekly" then 14 else 7)
         * JSDate.msPerDay)%Z).
  { unfold calculateEndDate.
    destruct (String.eqb frequency "monthly").
    - apply setMonth_next_month.
    - destruct (String.eqb frequency "biweekly");
        apply JSDateFacts.setDate_getDate_plus. }
  split; [exact Hmain |].
  assert (Hrange :
    (7 <= (if String.eqb frequency "monthly"
           then JSDate.DaysInMonth (JSDate.getFullYear start)
                                   (JSDate.getMonth start)
           else if String.eqb frequency "biweekly" then 14 else 7) <= 31)%Z).
  { destruct (String.eqb frequency "monthly").
    - pose proof (DaysInMonth_range (JSDate.getFullYear start)
                    (JSDate.getMonth start)). lia.
    - destruct (String.eqb frequency "biweekly"); lia. }
  split; [exact Hrange |].
  rewrite Hmain. unfold JSDate.msPerDay. lia.
Qed.

(** ** Voting *)

Lemma markAsCompleted_stored (taskId : N) (completed : bool) (user : ReqUser.t)
    (now : Z) (db : DB) (task : CleaningTask.t) :
  findById taskId db = Some task ->
  isResponsible task (ReqUser.id user) = true \/ ReqUser.isAdmin user = true ->
  findById taskId (snd (markAsCompleted taskId completed user now db))
  = Some (if completed
          then CleaningTask.set_verificationStatus pending
                 (CleaningTask.set_completion true (Some now) task)
          else CleaningTask.set_verifications []
                 (CleaningTask.set_verificationStatus pending
                    (CleaningTask.set_completion false None task))).
Proof.
  intros Hf Hperm. unfold markAsCompleted. rewrite Hf.
  assert (Hguard : negb (isResponsible task (ReqUser.id user))
                   && negb (ReqUser.isAdmin user) = false).
  { destruct Hperm as [H | H]; rewrite H; cbn; [reflexivity |].
    apply andb_false_r. }
  rewrite Hguard. cbn [snd].
  rewrite findById_updateTask by (intros k; destruct completed; reflexivity).
  rewrite Hf. destruct completed; reflexivity.
Qed.





(** X4.  A stored vote changes nothing but the task voted on, and of that
    task nothing but the list of votes, which gains the new vote at its
    end, and the status: the earlier votes, the roster, the responsibles,
    the completion and the swap requests stay. *)
Theorem verifyTask_frame (taskId : N) (vote : bool) (comment : option string)
    (verifierId : string) (now : Z) (db db' : DB) (docs : list CleaningTask.t) :
  verifyTask taskId vote comment verifierId now db = (json docs, db') ->
  exists task task',
    findById taskId db = Some task /\ findById taskId db' = Some task'
    /\ CleaningTask.verifications task'
       = CleaningTask.verifications task
           ++ [Verification.mk verifierId vote comment now]
    /\ CleaningTask.set_verificationStatus (CleaningTask.verificationStatus task)
         (CleaningTask.set_verifications (CleaningTask.verifications task) task')
       = task
    /\ (forall other, taskId ≠ other -> findById other db' = findById other db)
    /\ users db' = users db /\ nextObjectId db' = nextObjectId db
    /\ length (tasks db') = length (tasks db).
Proof.
  intros Hv.
  destruct (verifyTask_json _ _ _ _ _ _ _ _ Hv)
    as (task & Hf & Hc & Hin & Hnot & _ & Hf').
  exists task, (voted task verifierId vote comment now).
  split; [exact Hf |]. split; [exact Hf' |]. split; [reflexivity |].
  split; [destruct task; reflexivity |].
  rewrite (verifyTask_success _ _ _ _ _ _ _ Hf Hc Hin Hnot) in Hv.
  inversion Hv as [[Hdocs Hdb]]. clear Hv.
  split.
  { intros other Hne. apply findById_updateTask_ne; [reflexivity | exact Hne]. }
  unfold updateTask, set_tasks. cbn. split; [reflexivity |].
  split; [reflexivity |]. apply length_map.
Qed.

Lemma verifyTask_frame_witness :
  exists task task',
    findById 1 Sample.dbTwoVerifiers = Some task
    /\ findById 1 (snd (verifyTask 1 false None "carlos" Sample.now
                                   Sample.dbTwoVerifiers)) = Some task'
    /\ CleaningTask.verifications task'
       = CleaningTask.verifications task
           ++ [Verification.mk "carlos" false None Sample.now]
    /\ CleaningTask.set_verificationStatus (CleaningTask.verificationStatus task)
         (CleaningTask.set_verifications (CleaningTask.verifications task) task')
       = task
    /\ (forall other, 1%N ≠ other ->
                      findById other
                        (snd (verifyTask 1 false None "carlos" Sample.now
                                         Sample.dbTwoVerifiers))
                      = findById other Sample.dbTwoVerifiers)
    /\ users (snd (verifyTask 1 false None "carlos" Sample.now
                              Sample.dbTwoVerifiers))
       = users Sample.dbTwoVerifiers
    /\ nextObjectId (snd (verifyTask 1 false None "carlos" Sample.now
                                     Sample.dbTwoVerifiers))
       = nextObjectId Sample.dbTwoVerifiers
    /\ length (tasks (snd (verifyTask 1 false None "carlos" Sample.now
                                      Sample.dbTwoVerifiers)))
       = length (tasks Sample.dbTwoVerifiers).
Proof.
  eapply verifyTask_frame. vm_compute. reflexivity.
Defined.

(** ** Completion and voting *)

Lemma isResponsible_frame (task task' : CleaningTask.t) (userId : string) :
  CleaningTask.responsibles task' = CleaningTask.responsibles task ->
  CleaningTask.temporaryResponsible task'
  = CleaningTask.temporaryResponsible task ->
  isResponsible task' userId = isResponsible task userId.
Proof. intros H1 H2. unfold isResponsible. rewrite H1, H2. reflexivity. Qed.

(** X5.  Un-marking a task closes the vote and wipes it: every vote is then
    answered 400, and once the task is marked completed again every
    verifier of the roster, also one who had voted before, can vote, the
    tally starting from that vote alone. *)
Theorem markAsCompleted_false_restarts_vote (taskId : N) (user : ReqUser.t)
    (now now' : Z) (db : DB) (task : CleaningTask.t) :
  findById taskId db = Some task ->
  isResponsible task (ReqUser.id user) = true \/ ReqUser.isAdmin user = true ->
  let unmarked := snd (markAsCompleted taskId false user now db) in
  let remarked := snd (markAsCompleted taskId true user now' unmarked) in
  (forall vote comment verifierId at_,
      verifyTask taskId vote comment verifierId at_ unmarked
      = (status_json 400 "La tarea aún no está marcada como completada",
         unmarked))
  /\ (forall vote comment verifierId at_,
        verifierId ∈ CleaningTask.verifiers task ->
        exists task',
          findById taskId
            (snd (verifyTask taskId vote comment verifierId at_ remarked))
          = Some task'
          /\ CleaningTask.verifications task'
             = [Verification.mk verifierId vote comment at_]).
Proof.
  intros Hf Hperm unmarked remarked.
  pose proof (markAsCompleted_stored taskId false user now db task Hf Hperm)
    as Hu.
  fold unmarked in Hu. cbv iota in Hu.
  set (task1 := CleaningTask.set_verifications []
                  (CleaningTask.set_verificationStatus pending
                     (CleaningTask.set_completion false None task))) in Hu.
  assert (Hperm1 : isResponsible task1 (ReqUser.id user) = true
                   \/ ReqUser.isAdmin user = true).
  { destruct Hperm as [H | H]; [left | right; exact H].
    rewrite <- H. apply isResponsible_frame; reflexivity. }
  pose proof (markAsCompleted_stored taskId true user now' unmarked task1
                Hu Hperm1) as Hr.
  fold remarked in Hr. cbv iota in Hr.
  split.
  - intros vote comment verifierId at_. unfold verifyTask. rewrite Hu.
    reflexivity.
  - intros vote comment verifierId at_ Hin.
    eexists. split.
    + apply verifyTask_stored.
      * exact Hr.
      * reflexivity.
      * exact Hin.
      * unfold voters. cbn. apply not_elem_of_nil.
    + reflexivity.
Qed.

Lemma markAsCompleted_false_restarts_vote_witness :
  (forall vote comment verifierId at_,
      verifyTask 1 vote comment verifierId at_
        (snd (markAsCompleted 1 false (ReqUser.mk "ana" false) Sample.now
                              Sample.dbApproved))
      = (status_json 400 "La tarea aún no está marcada como completada",
         snd (markAsCompleted 1 false (ReqUser.mk "ana" false) Sample.now
                              Sample.dbApproved)))
  /\ (forall vote comment verifierId at_,
        verifierId ∈ ["bea"; "carlos"; "dora"] ->
        exists task',
          findById 1
            (snd (verifyTask 1 vote comment verifierId at_
                    (snd (markAsCompleted 1 true (ReqUser.mk "ana" false)
                            (Sample.now + 1)
                            (snd (markAsCompleted 1 false
                                    (ReqUser.mk "ana" false) Sample.now
                                    Sample.dbApproved))))))
          = Some task'
          /\ CleaningTask.verifications task'
             = [Verification.mk verifierId vote comment at_]).
Proof.
  refine (markAsCompleted_false_restarts_vote 1 (ReqUser.mk "ana" false)
            Sample.now (Sample.now + 1) Sample.dbApproved
            (Sample.completedTask 1 ["ana"] ["bea"; "carlos"; "dora"] approved
               [Sample.vote "bea" true; Sample.vote "carlos" true;
                Sample.vote "dora" false]) _ _).
  - reflexivity.
  - left. reflexivity.
Defined.



(** X7.  [changeTaskResponsible] gives the person it names the permission
    to mark the task, and takes it from nobody: the responsibles keep
    theirs.  Naming nobody removes the override, and a person who is not
    among the responsibles and no administrator is refused again. *)
Theorem changeTaskResponsible_permission (taskId : N) (responsibleId : string)
    (db : DB) (task : CleaningTask.t) :
  findById taskId db = Some task ->
  let changed := snd (changeTaskResponsible taskId (Some responsibleId) db) in
  let cleared := snd (changeTaskResponsible taskId None changed) in
  (forall completed at_,
      isError (fst (markAsCompleted taskId completed
                      (ReqUser.mk responsibleId false) at_ changed)) = false)
  /\ (forall userId completed at_,
        userId ∈ CleaningTask.responsibles task ->
        isError (fst (markAsCompleted taskId completed
                        (ReqUser.mk userId false) at_ changed)) = false)
  /\ (CleaningTask.responsibles <$> findById taskId changed
      = Some (CleaningTask.responsibles task))
  /\ (forall completed at_,
        responsibleId ∉ CleaningTask.responsibles task ->
        markAsCompleted taskId completed (ReqUser.mk responsibleId false) at_
                        cleared
        = (status_json 403 "No tienes permiso para actualizar esta tarea",
           cleared)).
Proof.
  intros Hf changed cleared.
  assert (Hc : findById taskId changed
               = Some (CleaningTask.set_temporaryResponsible
                         (Some responsibleId) task)).
  { unfold changed, changeTaskResponsible. rewrite Hf. cbn [snd].
    rewrite findById_updateTask by reflexivity. rewrite Hf. reflexivity. }
  assert (Hl : findById taskId cleared
               = Some (CleaningTask.set_temporaryResponsible None
                         (CleaningTask.set_temporaryResponsible
                            (Some responsibleId) task))).
  { unfold cleared, changeTaskResponsible. rewrite Hc. cbn [snd].
    rewrite findById_updateTask by reflexivity. rewrite Hc. reflexivity. }
  split; [| split; [| split]].
  - intros completed at_. unfold markAsCompleted. rewrite Hc.
    unfold isResponsible. cbn. rewrite String.eqb_refl, orb_true_r.
    reflexivity.
  - intros userId completed at_ Hin. unfold markAsCompleted. rewrite Hc.
    unfold isResponsible. cbn.
    apply existsb_eqb_elem_of in Hin. rewrite Hin. reflexivity.
  - rewrite Hc. reflexivity.
  - intros completed at_ Hnot. unfold markAsCompleted. rewrite Hl.
    unfold isResponsible. cbn.
    apply existsb_eqb_not_elem_of in Hnot. rewrite Hnot. reflexivity.
Qed.

Lemma changeTaskResponsible_permission_witness :
  isError (fst (markAsCompleted 2 true (ReqUser.mk "dora" false) Sample.now
                  (snd (changeTaskResponsible 2 (Some "dora") Sample.dbSwap))))
  = false.
Proof.
  apply (proj1 (changeTaskResponsible_permission 2 "dora" Sample.dbSwap
                  (Sample.openTask 2 "Basura" ["ana"] (Some "carlos") [])
                  eq_refl)).
Defined.

(** ** Swaps *)

Lemma find_map_preserved {A : Type} (p : A -> bool) (g : A -> A) (l : list A) :
  (forall x, p (g x) = p x) ->
  List.find p (List.map g l) = g <$> List.find p l.
Proof.
  intros Hp. induction l as [| x l IH]; [reflexivity |].
  cbn [List.map List.find]. rewrite Hp. destruct (p x); [reflexivity | exact IH].
Qed.

Lemma hasRequest_setRequestStatus (requestId other : N) (s : SwapStatus)
    (rs : list SwapRequest.t) :
  existsb (fun r => N.eqb (SwapRequest._id r) requestId)
          (setRequestStatus other s rs)
  = existsb (fun r => N.eqb (SwapRequest._id r) requestId) rs.
Proof.
  unfold setRequestStatus. induction rs as [| r rs IH]; [reflexivity |].
  cbn [List.map existsb]. rewrite IH.
  destruct (N.eqb (SwapRequest._id r) other); reflexivity.
Qed.

(** The task that holds a request still holds it after tasks have been
    updated without adding or removing requests. *)
Lemma findOneBySwapRequest_updateTask (requestId taskId : N)
    (f : CleaningTask.t -> CleaningTask.t) (db : DB) :
  (forall k,
      existsb (fun r => N.eqb (SwapRequest._id r) requestId)
              (CleaningTask.swapRequests (f k))
      = existsb (fun r => N.eqb (SwapRequest._id r) requestId)
                (CleaningTask.swapRequests k)) ->
  findOneBySwapRequest requestId (updateTask taskId f db)
  = (fun k => if N.eqb (CleaningTask._id k) taskId then f k else k)
      <$> findOneBySwapRequest requestId db.
Proof.
  intros Hf. unfold findOneBySwapRequest, updateTask. cbn [tasks set_tasks].
  apply find_map_preserved. intros k.
  destruct (N.eqb (CleaningTask._id k) taskId); [apply Hf | reflexivity].
Qed.

(** X8.  A request that has been accepted or rejected through
    [acceptSwapRequest] or [rejectSwapRequest] is settled: accepting or
    rejecting it again is answered 400 and changes nothing. *)
Theorem swap_request_settled (requestId : N) (userId userId' : string)
    (db db' : DB) (docs : list CleaningTask.t) :
  acceptSwapRequest requestId userId db = (json docs, db')
  \/ rejectSwapRequest requestId userId db = (json docs, db') ->
  acceptSwapRequest requestId userId' db'
  = (status_json 400 "Solicitud de intercambio no válida", db')
  /\ rejectSwapRequest requestId userId' db'
     = (status_json 400 "Solicitud de intercambio no válida", db').
Proof.
  intros H.
  assert (Hsettled :
    exists task' swapRequest',
      findOneBySwapRequest requestId db' = Some task'
      /\ swapRequestById requestId task' = Some swapRequest'
      /\ SwapRequest.status swapRequest' ≠ swap_pending).
  { destruct H as [H | H].
    - unfold acceptSwapRequest in H.
      destruct (findOneBySwapRequest requestId db) as [task |] eqn:Hone;
        [| discriminate].
      destruct (swapRequestById requestId task) as [swapRequest |] eqn:Hreq;
        [| discriminate].
      destruct (SwapRequest.status swapRequest); try discriminate.
      destruct (negb (isResponsible task userId)); [discriminate |].
      destruct (findById (SwapRequest.targetTask swapRequest) db)
        as [offeredTask |]; [| discriminate].
      inversion H as [[Hdocs Hdb]]. clear H.
      rewrite findOneBySwapRequest_updateTask by reflexivity.
      rewrite findOneBySwapRequest_updateTask
        by (intros k; cbn; apply hasRequest_setRequestStatus).
      rewrite Hone. cbn [fmap option_fmap option_map].
      rewrite N.eqb_refl.
      eexists. exists (SwapRequest.set_status swap_accepted swapRequest).
      split; [reflexivity |]. split; [| discriminate].
      unfold swapRequestById in *.
      destruct (N.eqb _ (CleaningTask._id offeredTask)); cbn;
        rewrite swapRequestById_setRequestStatus, Hreq; reflexivity.
    - unfold rejectSwapRequest in H.
      destruct (findOneBySwapRequest requestId db) as [task |] eqn:Hone;
        [| discriminate].
      destruct (swapRequestById requestId task) as [swapRequest |] eqn:Hreq;
        [| discriminate].
      destruct (SwapRequest.status swapRequest); try discriminate.
      destruct (negb (isResponsible task userId)); [discriminate |].
      inversion H as [[Hdocs Hdb]]. clear H.
      rewrite findOneBySwapRequest_updateTask
        by (intros k; cbn; apply hasRequest_setRequestStatus).
      rewrite Hone. cbn [fmap option_fmap option_map].
      rewrite N.eqb_refl.
      eexists. exists (SwapRequest.set_status swap_rejected swapRequest).
      split; [reflexivity |]. split; [| discriminate].
      unfold swapRequestById in *. cbn.
      rewrite swapRequestById_setRequestStatus, Hreq. reflexivity. }
  destruct Hsettled as (task' & swapRequest' & Hone' & Hreq' & Hst).
  unfold acceptSwapRequest, rejectSwapRequest. rewrite Hone', Hreq'.
  destruct (SwapRequest.status swapRequest'); [contradiction | |];
    split; reflexivity.
Qed.

Lemma swap_request_settled_witness :
  acceptSwapRequest 10 "bea"
    (snd (rejectSwapRequest 10 "bea" Sample.dbSwap))
  = (status_json 400 "Solicitud de intercambio no válida",
     snd (rejectSwapRequest 10 "bea" Sample.dbSwap))
  /\ rejectSwapRequest 10 "bea"
       (snd (rejectSwapRequest 10 "bea" Sample.dbSwap))
     = (status_json 400 "Solicitud de intercambio no válida",
        snd (rejectSwapRequest 10 "bea" Sample.dbSwap)).
Proof.
  eapply swap_request_settled with (userId := "bea") (db := Sample.dbSwap).
  right. vm_compute. reflexivity.
Defined.

(** X9.  [respondToSwapRequest] with [accept = false] does not look at the
    status of the request: answered by a responsible of the task, it marks
    the request rejected whatever its status was, also one already
    accepted, and leaves every other path of the task and every other task
    as they are. *)
Theorem respondToSwapRequest_reject_any_status (taskId swapRequestId : N)
    (userId : string) (db : DB) (task : CleaningTask.t)
    (swapRequest : SwapRequest.t) :
  findById taskId db = Some task ->
  swapRequestById swapRequestId task = Some swapRequest ->
  isResponsible task userId = true ->
  let r := respondToSwapRequest taskId swapRequestId false userId db in
  exists task',
    fst r = json [task'] /\ findById taskId (snd r) = Some task'
    /\ SwapRequest.status <$> swapRequestById swapRequestId task'
       = Some swap_rejected
    /\ CleaningTask.set_swapRequests (CleaningTask.swapRequests task) task'
       = task
    /\ (forall other, taskId ≠ other ->
                      findById other (snd r) = findById other db).
Proof.
  intros Hf Hreq Hresp r. subst r. unfold respondToSwapRequest.
  rewrite Hf, Hreq, Hresp. cbn [negb fst snd].
  pose proof (findById_id _ _ _ Hf) as Hid. rewrite Hid.
  eexists. split; [reflexivity |]. split.
  { rewrite findById_updateTask by reflexivity. rewrite Hf. reflexivity. }
  split.
  { unfold swapRequestById in *. cbn.
    rewrite swapRequestById_setRequestStatus, Hreq. reflexivity. }
  split; [destruct task; reflexivity |].
  intros other Hne. apply findById_updateTask_ne; [reflexivity | exact Hne].
Qed.

Lemma respondToSwapRequest_reject_any_status_witness :
  exists task',
    fst (respondToSwapRequest 1 10 false "ana"
           (snd (acceptSwapRequest 10 "bea" Sample.dbSwap))) = json [task']
    /\ findById 1 (snd (respondToSwapRequest 1 10 false "ana"
                          (snd (acceptSwapRequest 10 "bea" Sample.dbSwap))))
       = Some task'
    /\ SwapRequest.status <$> swapRequestById 10 task' = Some swap_rejected
    /\ CleaningTask.responsibles task' = ["ana"].
Proof.
  destruct (respondToSwapRequest_reject_any_status 1 10 "ana"
              (snd (acceptSwapRequest 10 "bea" Sample.dbSwap))
              (CleaningTask.set_swapRequests
                 [SwapRequest.mk 10 "ana" 2 swap_accepted Sample.now]
                 (Sample.openTask 1 "Baño 1" ["ana"] None []))
              (SwapRequest.mk 10 "ana" 2 swap_accepted Sample.now)
              eq_refl eq_refl eq_refl)
    as (task' & H1 & H2 & H3 & H4 & _).
  exists task'. split; [exact H1 |]. split; [exact H2 |]. split; [exact H3 |].
  apply (f_equal CleaningTask.responsibles) in H4. cbn in H4. exact H4.
Defined.

(** The direct swap, when it goes through. *)
Lemma swapTasks_done (task1Id task2Id : N) (userId : string) (db : DB)
    (task1 task2 : CleaningTask.t) :
  findById task1Id db = Some task1 ->
  findById task2Id db = Some task2 ->
  task1Id ≠ task2Id ->
  isResponsible task1 userId = true \/ isResponsible task2 userId = true ->
  CleaningTask.completed task1 = false ->
  CleaningTask.completed task2 = false ->
  exists db',
    swapTasks (ExpressReq task1Id task2Id userId) ExpressRes db
    = Responds
        (json [CleaningTask.set_temporaryResponsible None
                 (CleaningTask.set_responsibles
                    (CleaningTask.responsibles task2) task1);
               CleaningTask.set_temporaryResponsible None
                 (CleaningTask.set_responsibles
                    (CleaningTask.responsibles task1) task2)])
        db'
    /\ findById task1Id db'
       = Some (CleaningTask.set_temporaryResponsible None
                 (CleaningTask.set_responsibles
                    (CleaningTask.responsibles task2) task1))
    /\ findById task2Id db'
       = Some (CleaningTask.set_temporaryResponsible None
                 (CleaningTask.set_responsibles
                    (CleaningTask.responsibles task1) task2))
    /\ (forall other, task1Id ≠ other -> task2Id ≠ other ->
                      findById other db' = findById other db).
Proof.
  intros H1 H2 Hne Hresp Hc1 Hc2. unfold swapTasks. rewrite H1, H2.
  assert (Hguard : negb (isResponsible task1 userId)
                   && negb (isResponsible task2 userId) = false).
  { destruct Hresp as [H | H]; rewrite H; cbn; [reflexivity |].
    apply andb_false_r. }
  rewrite Hguard, Hc1, Hc2. cbn [orb send].
  eexists. split; [reflexivity |]. split; [| split].
  - rewrite findById_updateTask_ne by (try reflexivity; congruence).
    rewrite findById_updateTask by reflexivity. rewrite H1. reflexivity.
  - rewrite findById_updateTask by reflexivity.
    rewrite findById_updateTask_ne by (try reflexivity; congruence).
    rewrite H2. reflexivity.
  - intros other Ho1 Ho2.
    rewrite findById_updateTask_ne by (try reflexivity; congruence).
    apply findById_updateTask_ne; [reflexivity | exact Ho1].
Qed.

(** X10.  The direct swap of two different open tasks, by somebody listed
    among the responsibles of one of them, can be taken back: the same
    person swapping the same two tasks again gives both tasks their
    responsibles back.  Only the temporary responsibles, cleared by the
    first swap, are not restored. *)
Theorem swapTasks_twice (task1Id task2Id : N) (userId : string) (db : DB)
    (task1 task2 : CleaningTask.t) :
  findById task1Id db = Some task1 ->
  findById task2Id db = Some task2 ->
  task1Id ≠ task2Id ->
  userId ∈ CleaningTask.responsibles task1
  \/ userId ∈ CleaningTask.responsibles task2 ->
  CleaningTask.completed task1 = false ->
  CleaningTask.completed task2 = false ->
  exists r1 db1 r2 db2,
    swapTasks (ExpressReq task1Id task2Id userId) ExpressRes db
    = Responds (json r1) db1
    /\ swapTasks (ExpressReq task1Id task2Id userId) ExpressRes db1
       = Responds (json r2) db2
    /\ (CleaningTask.responsibles <$> findById task1Id db1
        = Some (CleaningTask.responsibles task2))
    /\ (CleaningTask.responsibles <$> findById task2Id db1
        = Some (CleaningTask.responsibles task1))
    /\ findById task1Id db2
       = Some (CleaningTask.set_temporaryResponsible None task1)
    /\ findById task2Id db2
       = Some (CleaningTask.set_temporaryResponsible None task2)
    /\ (forall other, task1Id ≠ other -> task2Id ≠ other ->
                      findById other db2 = findById other db).
Proof.
  intros H1 H2 Hne Hin Hc1 Hc2.
  assert (Hresp : isResponsible task1 userId = true
                  \/ isResponsible task2 userId = true).
  { destruct Hin as [H | H]; [left | right]; unfold isResponsible;
      apply existsb_eqb_elem_of in H; rewrite H; reflexivity. }
  destruct (swapTasks_done task1Id task2Id userId db task1 task2
              H1 H2 Hne Hresp Hc1 Hc2) as (db1 & Hs1 & Hf1 & Hf2 & Ho).
  assert (Hresp' :
    isResponsible (CleaningTask.set_temporaryResponsible None
                     (CleaningTask.set_responsibles
                        (CleaningTask.responsibles task2) task1)) userId = true
    \/ isResponsible (CleaningTask.set_temporaryResponsible None
                        (CleaningTask.set_responsibles
                           (CleaningTask.responsibles task1) task2)) userId
       = true).
  { destruct Hin as [H | H]; [right | left]; unfold isResponsible; cbn;
      apply existsb_eqb_elem_of in H; rewrite H; reflexivity. }
  destruct (swapTasks_done task1Id task2Id userId db1 _ _
              Hf1 Hf2 Hne Hresp' Hc1 Hc2) as (db2 & Hs2 & Hg1 & Hg2 & Ho').
  eexists. exists db1. eexists. exists db2.
  split; [exact Hs1 |]. split; [exact Hs2 |].
  split; [rewrite Hf1; reflexivity |]. split; [rewrite Hf2; reflexivity |].
  split; [rewrite Hg1; destruct task1; reflexivity |].
  split; [rewrite Hg2; destruct task2; reflexivity |].
  intros other Ho1 Ho2. rewrite (Ho' other Ho1 Ho2). apply Ho; assumption.
Qed.

Lemma swapTasks_twice_witness :
  exists r1 db1 r2 db2,
    swapTasks (ExpressReq 1 2 "bea") ExpressRes Sample.dbSwap
    = Responds (json r1) db1
    /\ swapTasks (ExpressReq 1 2 "bea") ExpressRes db1 = Responds (json r2) db2
    /\ (CleaningTask.responsibles <$> findById 1 db1 = Some ["ana"])
    /\ (CleaningTask.responsibles <$> findById 2 db1 = Some ["bea"])
    /\ findById 1 db2
       = Some (Sample.openTask 1 "Baño 1" ["bea"] None
                 [SwapRequest.mk 10 "ana" 2 swap_pending Sample.now])
    /\ findById 2 db2 = Some (Sample.openTask 2 "Basura" ["ana"] None [])
    /\ (forall other, 1%N ≠ other -> 2%N ≠ other ->
                      findById other db2 = findById other Sample.dbSwap).
Proof.
  refine (swapTasks_twice 1 2 "bea" Sample.dbSwap
            (Sample.openTask 1 "Baño 1" ["bea"] None
               [SwapRequest.mk 10 "ana" 2 swap_pending Sample.now])
            (Sample.openTask 2 "Basura" ["ana"] (Some "carlos") [])
            _ _ _ _ _ _).
  - reflexivity.
  - reflexivity.
  - discriminate.
  - left. compute_done.
  - reflexivity.
  - reflexivity.
Defined.

(** What [createSwapRequest] stores when it goes through. *)
Lemma createSwapRequest_json (requestedTaskId offeredTaskId : N)
    (userId : string) (now : Z) (db db' : DB) (docs : list CleaningTask.t) :
  createSwapRequest requestedTaskId offeredTaskId userId now db
  = (json docs, db') ->
  exists requestedTask offeredTask,
    findById requestedTaskId db = Some requestedTask
    /\ findById offeredTaskId db = Some offeredTask
    /\ isResponsible offeredTask userId = true
    /\ (countDocuments (hasPendingRequestBy userId) db < 3)%nat
    /\ db' = updateTask requestedTaskId
               (fun k => CleaningTask.set_swapRequests
                           (CleaningTask.swapRequests k
                            ++ [SwapRequest.mk (nextObjectId db) userId
                                               offeredTaskId swap_pending now])
                           k)
               (mkDB (users db) (tasks db) (N.succ (nextObjectId db))).
Proof.
  unfold createSwapRequest. intros H.
  destruct (findById requestedTaskId db) as [requestedTask |]; [| discriminate].
  destruct (findById offeredTaskId db) as [offeredTask |]; [| discriminate].
  destruct (isResponsible offeredTask userId) eqn:Hresp; [| discriminate].
  cbn [negb] in H.
  destruct (List.find _ (CleaningTask.swapRequests requestedTask));
    [discriminate |].
  destruct (Nat.leb 3 (countDocuments (hasPendingRequestBy userId) db))
    eqn:Hc; [discriminate |].
  apply Nat.leb_gt in Hc. inversion H. clear H.
  exists requestedTask, offeredTask. repeat split; auto.
Qed.

(** X11.  A swap request that goes through adds exactly one request, pending
    and with a fresh id, at the end of the requests of the requested task,
    and changes nothing else; the requester is responsible for the task
    offered.  Asking the same again is answered 400 and changes nothing. *)
Theorem createSwapRequest_once (requestedTaskId offeredTaskId : N)
    (userId : string) (now now' : Z) (db db' : DB)
    (docs : list CleaningTask.t) :
  createSwapRequest requestedTaskId offeredTaskId userId now db
  = (json docs, db') ->
  (exists requestedTask offeredTask,
      findById requestedTaskId db = Some requestedTask
      /\ findById offeredTaskId db = Some offeredTask
      /\ isResponsible offeredTask userId = true
      /\ findById requestedTaskId db'
         = Some (CleaningTask.set_swapRequests
                   (CleaningTask.swapRequests requestedTask
                    ++ [SwapRequest.mk (nextObjectId db) userId offeredTaskId
                                       swap_pending now])
                   requestedTask)
      /\ (forall other, requestedTaskId ≠ other ->
                        findById other db' = findById other db)
      /\ nextObjectId db' = N.succ (nextObjectId db)
      /\ users db' = users db)
  /\ createSwapRequest requestedTaskId offeredTaskId userId now' db'
     = (status_json 400
          "Ya existe una solicitud de intercambio pendiente para estas tareas",
        db').
Proof.
  intros H.
  destruct (createSwapRequest_json _ _ _ _ _ _ _ H)
    as (requestedTask & offeredTask & Hr & Ho & Hresp & _ & ->).
  set (request := SwapRequest.mk (nextObjectId db) userId offeredTaskId
                                 swap_pending now).
  set (save := fun k => CleaningTask.set_swapRequests
                          (CleaningTask.swapRequests k ++ [request]) k).
  set (db0 := mkDB (users db) (tasks db) (N.succ (nextObjectId db))).
  assert (Hr' : findById requestedTaskId (updateTask requestedTaskId save db0)
                = Some (save requestedTask)).
  { rewrite findById_updateTask by reflexivity.
    change (findById requestedTaskId db0) with (findById requestedTaskId db).
    rewrite Hr. reflexivity. }
  split.
  - exists requestedTask, offeredTask.
    split; [exact Hr |]. split; [exact Ho |]. split; [exact Hresp |].
    split; [exact Hr' |]. split; [| split; reflexivity].
    intros other Hne.
    rewrite findById_updateTask_ne by (try reflexivity; exact Hne).
    reflexivity.
  - unfold createSwapRequest. rewrite Hr'.
    assert (Ho' : exists offeredTask',
               findById offeredTaskId (updateTask requestedTaskId save db0)
               = Some offeredTask'
               /\ isResponsible offeredTask' userId = true).
    { destruct (N.eq_dec requestedTaskId offeredTaskId) as [<- | Hne].
      - exists (save requestedTask). split; [exact Hr' |].
        rewrite Hr in Ho. inversion Ho. subst offeredTask.
        rewrite <- Hresp. apply isResponsible_frame; reflexivity.
      - exists offeredTask. split; [| exact Hresp].
        rewrite findById_updateTask_ne by (try reflexivity; exact Hne).
        exact Ho. }
    destruct Ho' as (offeredTask' & -> & ->). cbn [negb].
    assert (Hfind : exists found,
               List.find
                 (fun r => match SwapRequest.status r with
                           | swap_pending => true
                           | _ => false
                           end
                           && N.eqb (SwapRequest.targetTask r) offeredTaskId
                           && String.eqb (SwapRequest.requestedBy r) userId)
                 (CleaningTask.swapRequests (save requestedTask))
               = Some found).
    { unfold save. cbn [CleaningTask.swapRequests CleaningTask.set_swapRequests].
      induction (CleaningTask.swapRequests requestedTask) as [| r rs IH].
      - cbn. rewrite N.eqb_refl, String.eqb_refl. eauto.
      - cbn [app List.find]. destruct (_ && _ && _); eauto. }
    destruct Hfind as [found ->]. reflexivity.
Qed.

Lemma createSwapRequest_once_witness :
  createSwapRequest 1 5 "ana" (Sample.now + 1)
    (snd (createSwapRequest 1 5 "ana" Sample.now Sample.dbCeiling))
  = (status_json 400
       "Ya existe una solicitud de intercambio pendiente para estas tareas",
     snd (createSwapRequest 1 5 "ana" Sample.now Sample.dbCeiling)).
Proof.
  eapply (fun docs H =>
            proj2 (createSwapRequest_once 1 5 "ana" Sample.now (Sample.now + 1)
                     Sample.dbCeiling
                     (snd (createSwapRequest 1 5 "ana" Sample.now
                                             Sample.dbCeiling))
                     docs H)).
  vm_compute. reflexivity.
Defined.

(** ** Staffing of a rotation *)

Lemma byCompletionRateDesc_total (userMetrics : gmap string Metrics.t)
    (x y : string) :
  byCompletionRateDesc userMetrics x y = true
  \/ byCompletionRateDesc userMetrics y x = true.
Proof.
  unfold byCompletionRateDesc.
  destruct (Qlt_le_dec (completionRateOf userMetrics x)
                       (completionRateOf userMetrics y)) as [H | H].
  - right. apply Qle_bool_iff. apply Qlt_le_weak. exact H.
  - left. apply Qle_bool_iff. exact H.
Qed.

Lemma byCompletionRateDesc_trans (userMetrics : gmap string Metrics.t)
    (x y z : string) :
  byCompletionRateDesc userMetrics x y = true ->
  byCompletionRateDesc userMetrics y z = true ->
  byCompletionRateDesc userMetrics x z = true.
Proof.
  unfold byCompletionRateDesc. rewrite !Qle_bool_iff. intros H1 H2.
  eapply Qle_trans; eassumption.
Qed.

Lemma filter_sublist {A : Type} (p : A -> bool) (l : list A) :
  List.filter p l `sublist_of` l.
Proof.
  induction l as [| x l IH]; [constructor |].
  cbn [List.filter]. destruct (p x).
  - apply sublist_skip. exact IH.
  - apply sublist_cons. exact IH.
Qed.

(** The people left once the responsibles are taken out. *)
Lemma potentialVerifiers_length (responsibles : list string)
    (availableUsers : list User.t) :
  NoDup (User._id <$> availableUsers) ->
  NoDup responsibles ->
  responsibles ⊆ User._id <$> availableUsers ->
  (length (List.filter
             (fun user => negb (existsb (String.eqb (User._id user))
                                        responsibles))
             availableUsers)
   + length responsibles = length availableUsers)%nat.
Proof.
  intros Hids Hrs Hsub.
  rewrite <- (filter_length
                (fun user => existsb (String.eqb (User._id user)) responsibles)
                availableUsers).
  rewrite Nat.add_comm. f_equal.
  rewrite <- (length_fmap User._id
                (List.filter
                   (fun user => existsb (String.eqb (User._id user))
                                        responsibles)
                   availableUsers)).
  apply Permutation_length. apply NoDup_Permutation.
  - exact Hrs.
  - eapply sublist_NoDup; [exact Hids |].
    apply fmap_sublist, filter_sublist.
  - intros x. split.
    + intros Hx. pose proof (Hsub x Hx) as Hin.
      apply list_elem_of_fmap in Hin. destruct Hin as (u & -> & Hu).
      apply list_elem_of_fmap. exists u. split; [reflexivity |].
      apply list_elem_of_In, filter_In. split; [apply list_elem_of_In, Hu |].
      apply existsb_exists. exists (User._id u).
      split; [apply list_elem_of_In, Hx | apply String.eqb_refl].
    + intros Hx. apply list_elem_of_fmap in Hx. destruct Hx as (u & -> & Hu).
      apply list_elem_of_In, filter_In in Hu. destruct Hu as [_ Hu].
      apply existsb_exists in Hu. destruct Hu as (r & Hr & Heq).
      apply String.eqb_eq in Heq. subst r. apply list_elem_of_In, Hr.
Qed.

Section Verifiers.
Variable responsibles : list string.
Variable availableUsers : list User.t.
Variable userMetrics : gmap string Metrics.t.

Let potentialVerifiers : list User.t :=
  List.filter
    (fun user => negb (existsb (String.eqb (User._id user)) responsibles))
    availableUsers.

Lemma potentialVerifiers_sublist : potentialVerifiers `sublist_of` availableUsers.
Proof. apply filter_sublist. Qed.

(** With fewer than three people left, the verifiers are taken from all
    the available people; otherwise from the people left. *)
Lemma selectVerifiers_cases :
  ((length potentialVerifiers < 3)%nat
   /\ selectVerifiers responsibles availableUsers userMetrics
      = take (Nat.min 3 (length availableUsers))
             (stableSort (byCompletionRateDesc userMetrics)
                         (User._id <$> availableUsers)))
  \/ ((3 <= length potentialVerifiers)%nat
      /\ selectVerifiers responsibles availableUsers userMetrics
         = User._id <$>
             take 3 (stableSort
                       (fun a b => byCompletionRateDesc userMetrics
                                     (User._id a) (User._id b))
                       potentialVerifiers)).
Proof.
  unfold selectVerifiers. fold potentialVerifiers.
  destruct (Nat.ltb_spec (length potentialVerifiers) 3) as [H | H];
    [left | right]; (split; [exact H |]); [| reflexivity].
  rewrite length_fmap. reflexivity.
Qed.

Lemma selectVerifiers_available :
  selectVerifiers responsibles availableUsers userMetrics
  ⊆ User._id <$> availableUsers.
Proof.
  intros v Hv.
  destruct selectVerifiers_cases as [[_ H] | [_ H]]; rewrite H in Hv; clear H.
  - eapply elem_of_sublist in Hv; [| apply sublist_take].
    rewrite stableSort_Permutation in Hv. exact Hv.
  - apply list_elem_of_fmap in Hv. destruct Hv as (u & -> & Hu).
    eapply elem_of_sublist in Hu; [| apply sublist_take].
    rewrite stableSort_Permutation in Hu.
    eapply elem_of_sublist in Hu; [| apply potentialVerifiers_sublist].
    apply list_elem_of_fmap. exists u. split; [reflexivity | exact Hu].
Qed.

Lemma selectVerifiers_NoDup :
  NoDup (User._id <$> availableUsers) ->
  NoDup (selectVerifiers responsibles availableUsers userMetrics).
Proof.
  intros Hids.
  destruct selectVerifiers_cases as [[_ H] | [_ H]]; rewrite H; clear H.
  - eapply sublist_NoDup; [| apply sublist_take].
    rewrite stableSort_Permutation. exact Hids.
  - rewrite fmap_take. eapply sublist_NoDup; [| apply sublist_take].
    rewrite stableSort_Permutation.
    eapply sublist_NoDup; [exact Hids |].
    apply fmap_sublist, potentialVerifiers_sublist.
Qed.

Lemma selectVerifiers_length :
  length (selectVerifiers responsibles availableUsers userMetrics)
  = Nat.min 3 (length availableUsers).
Proof.
  destruct selectVerifiers_cases as [[_ H] | [Hp H]]; rewrite H; clear H.
  - rewrite length_take, stableSort_length, length_fmap. lia.
  - rewrite length_fmap, length_take, stableSort_length.
    pose proof (sublist_length _ _ potentialVerifiers_sublist). lia.
Qed.

(** With three or more people left, no responsible verifies. *)
Lemma selectVerifiers_others :
  (3 <= length potentialVerifiers)%nat ->
  forall v, v ∈ selectVerifiers responsibles availableUsers userMetrics ->
            v ∉ responsibles.
Proof.
  intros Hp v Hv.
  destruct selectVerifiers_cases as [[Hlt _] | [_ H]]; [lia |].
  rewrite H in Hv. clear H.
  apply list_elem_of_fmap in Hv. destruct Hv as (u & -> & Hu).
  eapply elem_of_sublist in Hu; [| apply sublist_take].
  rewrite stableSort_Permutation in Hu.
  apply list_elem_of_In, filter_In in Hu. destruct Hu as [_ Hu].
  apply negb_true_iff in Hu. intros Hin.
  assert (Hex : existsb (String.eqb (User._id u)) responsibles = true).
  { apply existsb_exists. exists (User._id u).
    split; [apply list_elem_of_In, Hin | apply String.eqb_refl]. }
  congruence.
Qed.

(** With fewer than three people left, a responsible verifies. *)
Lemma selectVerifiers_self :
  NoDup (User._id <$> availableUsers) ->
  (length potentialVerifiers < 3)%nat ->
  (length potentialVerifiers < length availableUsers)%nat ->
  exists v, v ∈ selectVerifiers responsibles availableUsers userMetrics
            /\ v ∈ responsibles.
Proof.
  intros Hids Hp Hsome.
  destruct (decide (Exists (fun v => v ∈ responsibles)
                           (selectVerifiers responsibles availableUsers
                                            userMetrics))) as [Hex | Hno].
  { apply Exists_exists in Hex. exact Hex. }
  exfalso. apply not_Exists_Forall in Hno; [| intros v; apply _].
  rewrite Forall_forall in Hno.
  assert (Hle : (length (selectVerifiers responsibles availableUsers
                                         userMetrics)
                 <= length (User._id <$> potentialVerifiers))%nat).
  { apply submseteq_length, NoDup_submseteq.
    - apply selectVerifiers_NoDup, Hids.
    - intros v Hv. pose proof (selectVerifiers_available v Hv) as Hin.
      apply list_elem_of_fmap in Hin. destruct Hin as (u & -> & Hu).
      apply list_elem_of_fmap. exists u. split; [reflexivity |].
      apply list_elem_of_In, filter_In. split; [apply list_elem_of_In, Hu |].
      apply negb_true_iff.
      destruct (existsb (String.eqb (User._id u)) responsibles) eqn:Hex;
        [| reflexivity].
      exfalso. apply (Hno _ Hv).
      apply existsb_exists in Hex. destruct Hex as (r & Hr & Heq).
      apply String.eqb_eq in Heq. subst r. apply list_elem_of_In, Hr. }
  rewrite selectVerifiers_length, length_fmap in Hle. lia.
Qed.

End Verifiers.

(** The responsibles of an area are available people, each once. *)
Lemma selectResponsiblesForArea_people (areaInfo : AreaInfo.t)
    (availableUsers : list User.t) (userMetrics : gmap string Metrics.t)
    (targetWorkload : Q) (now : Z) (responsibles : list string) :
  selectResponsiblesForArea areaInfo availableUsers userMetrics targetWorkload
                            now = Some responsibles ->
  responsibles ⊆ User._id <$> availableUsers
  /\ (NoDup (User._id <$> availableUsers) -> NoDup responsibles)
  /\ length responsibles
     = Nat.min (AreaInfo.peopleNeeded areaInfo) (length availableUsers).
Proof.
  intros H.
  destruct (selectResponsiblesForArea_top _ _ _ _ _ _ H)
    as (scoredUsers & ranked & Hm & Hperm & _ & Hr & Hlen & _).
  assert (Hids : fst <$> scoredUsers = User._id <$> availableUsers).
  { apply scoreUser_mapM in Hm. clear -Hm.
    induction Hm as [| u s us ss (m & _ & ->) _ IH]; [reflexivity |].
    cbn. rewrite IH. reflexivity. }
  assert (Hsub : responsibles `sublist_of` fst <$> ranked).
  { rewrite Hr, fmap_take. apply sublist_take. }
  split; [| split; [| exact Hlen]].
  - intros x Hx. eapply elem_of_sublist in Hx; [| exact Hsub].
    rewrite Hperm, Hids in Hx. exact Hx.
  - intros Hnd. eapply sublist_NoDup; [| exact Hsub].
    rewrite Hperm, Hids. exact Hnd.
Qed.

(** Who staffs the tasks that the planning loop creates. *)
Lemma assignAreas_staff (availableUsers : list User.t) (targetWorkload : Q)
    (now : Z) (areas : list AreaInfo.t) (plan planEnd : Plan) :
  assignAreas availableUsers targetWorkload now plan areas = Some planEnd ->
  exists created,
    newTasks planEnd = newTasks plan ++ created
    /\ Forall2 (fun areaInfo task =>
                  exists userMetrics userMetrics',
                    selectResponsiblesForArea areaInfo availableUsers
                      userMetrics targetWorkload now
                    = Some (CleaningTask.responsibles task)
                    /\ CleaningTask.verifiers task
                       = selectVerifiers (CleaningTask.responsibles task)
                                         availableUsers userMetrics'
                    /\ CleaningTask.area task = AreaInfo.area areaInfo
                    /\ CleaningTask.temporaryResponsible task = None
                    /\ CleaningTask.completed task = false
                    /\ CleaningTask.verifications task = []
                    /\ CleaningTask.swapRequests task = [])
               areas created.
Proof.
  revert plan. induction areas as [| a areas IH]; intros plan H.
  - cbn in H. inversion H. subst planEnd. exists [].
    rewrite app_nil_r. split; [reflexivity | constructor].
  - cbn [assignAreas] in H.
    destruct (assignArea availableUsers targetWorkload now plan a)
      as [plan1 |] eqn:Ha; [| discriminate].
    cbn in H. destruct (IH plan1 H) as (created & Hc & Hall).
    unfold assignArea in Ha.
    destruct (selectResponsiblesForArea a availableUsers (planMetrics plan)
                targetWorkload now) as [responsibles |] eqn:Hs;
      [| discriminate].
    cbn in Ha. inversion Ha. subst plan1. clear Ha.
    cbn [newTasks] in Hc. rewrite <- app_assoc in Hc.
    eexists. split; [exact Hc |].
    constructor; [| exact Hall].
    eexists. eexists. cbn. split; [exact Hs |].
    split; [reflexivity |]. repeat split.
Qed.

(** A rotation that answers with tasks has planned them for the available
    people, two or more, and stored them. *)
Lemma rotateAssignments_json (now : Z) (db db' : DB)
    (created : list CleaningTask.t) :
  rotateAssignments now db = (json created, db') ->
  (2 <= length (availableUsers db))%nat
  /\ db' = mkDB (users db) created
                (nextObjectId db + N.of_nat (length areaConfig))%N
  /\ exists plan,
       planRotation (stableSort byEndDateDesc (tasks db)) (availableUsers db)
                    areaConfig now (nextObjectId db) = Some plan
       /\ newTasks plan = created.
Proof.
  unfold rotateAssignments. fold (availableUsers db). intros H.
  destruct (Nat.ltb_spec (length (availableUsers db)) 2) as [Hlt | Hge];
    [discriminate |].
  destruct (planRotation _ _ _ _ _) as [plan |] eqn:Hplan; [| discriminate].
  cbn [tasks] in H. inversion H. subst created. clear H.
  split; [exact Hge |]. split.
  - f_equal. unfold planRotation in Hplan.
    destruct (assignAreas_newTasks _ _ _ _ _ _ Hplan) as (_ & _ & _ & _ & Hn).
    rewrite Hn. cbn [planNextId]. rewrite stableSort_length. reflexivity.
  - exists plan. split; reflexivity.
Qed.

Lemma rotateAssignments_answers (now : Z) (db : DB) :
  (2 <= length (availableUsers db))%nat ->
  exists created db', rotateAssignments now db = (json created, db').
Proof.
  intros Hge. unfold rotateAssignments. fold (availableUsers db).
  apply Nat.ltb_ge in Hge. rewrite Hge.
  destruct (planRotation_is_Some (stableSort byEndDateDesc (tasks db))
              (availableUsers db) areaConfig now (nextObjectId db))
    as [plan ->].
  eexists. eexists. reflexivity.
Qed.

(** The staff of each task of a rotation, area by area. *)
Lemma rotation_staff (now : Z) (db db' : DB)
    (created : list CleaningTask.t) :
  rotateAssignments now db = (json created, db') ->
  Forall2 (fun areaInfo task =>
             exists userMetrics userMetrics',
               selectResponsiblesForArea areaInfo (availableUsers db)
                 userMetrics
                 (targetWorkloadPerUser areaConfig (availableUsers db)) now
               = Some (CleaningTask.responsibles task)
               /\ CleaningTask.verifiers task
                  = selectVerifiers (CleaningTask.responsibles task)
                                    (availableUsers db) userMetrics'
               /\ CleaningTask.area task = AreaInfo.area areaInfo
               /\ CleaningTask.temporaryResponsible task = None
               /\ CleaningTask.completed task = false
               /\ CleaningTask.verifications task = []
               /\ CleaningTask.swapRequests task = [])
          (stableSort byDifficultyDesc areaConfig) created.
Proof.
  intros H.
  destruct (rotateAssignments_json _ _ _ _ H) as (_ & _ & plan & Hplan & <-).
  unfold planRotation in Hplan.
  destruct (assignAreas_staff _ _ _ _ _ _ Hplan) as (created & Hc & Hall).
  cbn [newTasks app] in Hc. rewrite Hc. exact Hall.
Qed.

Lemma areaConfig_peopleNeeded (areaInfo : AreaInfo.t) :
  areaInfo ∈ stableSort byDifficultyDesc areaConfig ->
  (1 <= AreaInfo.peopleNeeded areaInfo <= 2)%nat.
Proof.
  rewrite stableSort_Permutation. intros H.
  assert (Hall : Forall (fun a => (1 <= AreaInfo.peopleNeeded a <= 2)%nat)
                        areaConfig).
  { unfold areaConfig. repeat constructor. }
  rewrite Forall_forall in Hall. apply Hall, H.
Qed.

(** X12.  A rotation that goes through staffs every configured area in
    full: when no two available people share an id, the responsibles of an
    area are as many as the area needs, all different and all available, and
    its verifiers are three (two when only two people are available), all
    different and all available.  The new tasks are open, without
    temporary responsible, vote or swap request. *)
Theorem rotateAssignments_staffing (now : Z) (db db' : DB)
    (created : list CleaningTask.t) :
  NoDup (availableIds db) ->
  rotateAssignments now db = (json created, db') ->
  Forall2 (fun areaInfo task =>
             CleaningTask.area task = AreaInfo.area areaInfo
             /\ length (CleaningTask.responsibles task)
                = AreaInfo.peopleNeeded areaInfo
             /\ NoDup (CleaningTask.responsibles task)
             /\ CleaningTask.responsibles task ⊆ availableIds db
             /\ length (CleaningTask.verifiers task)
                = Nat.min 3 (length (availableUsers db))
             /\ NoDup (CleaningTask.verifiers task)
             /\ CleaningTask.verifiers task ⊆ availableIds db
             /\ CleaningTask.temporaryResponsible task = None
             /\ CleaningTask.completed task = false
             /\ CleaningTask.verifications task = []
             /\ CleaningTask.swapRequests task = [])
          (stableSort byDifficultyDesc areaConfig) created.
Proof.
  intros Hids H.
  destruct (rotateAssignments_json _ _ _ _ H) as (Hge & _).
  pose proof (rotation_staff _ _ _ _ H) as Hstaff.
  apply Forall2_same_length_lookup. split.
  { eapply Forall2_length, Hstaff. }
  intros i areaInfo task Ha Ht.
  destruct (Forall2_lookup_lr _ _ _ _ _ _ Hstaff Ha Ht)
    as (um & um' & Hs & Hv & Harea & Htemp & Hc & Hvs & Hsw).
  destruct (selectResponsiblesForArea_people _ _ _ _ _ _ Hs)
    as (Hsub & Hnd & Hlen).
  pose proof (areaConfig_peopleNeeded areaInfo
                (list_elem_of_lookup_2 _ _ _ Ha)) as Hneed.
  split; [exact Harea |]. split; [rewrite Hlen; lia |].
  split; [exact (Hnd Hids) |]. split; [exact Hsub |].
  rewrite Hv.
  split; [apply selectVerifiers_length |].
  split; [apply selectVerifiers_NoDup, Hids |].
  split; [apply selectVerifiers_available |].
  repeat split; assumption.
Qed.

(** X13.  Whether the responsibles of a new task verify their own work
    depends on the head count alone: when no two available people share an
    id and the available people are at least three more than the area
    needs, no verifier of the task is one of its responsibles; when they are
    fewer, at least one verifier is one of its responsibles. *)
Theorem rotateAssignments_self_verification (now : Z) (db db' : DB)
    (created : list CleaningTask.t) :
  NoDup (availableIds db) ->
  rotateAssignments now db = (json created, db') ->
  Forall2 (fun areaInfo task =>
             ((AreaInfo.peopleNeeded areaInfo + 3
               <= length (availableUsers db))%nat ->
              forall v, v ∈ CleaningTask.verifiers task ->
                        v ∉ CleaningTask.responsibles task)
             /\ ((length (availableUsers db)
                  < AreaInfo.peopleNeeded areaInfo + 3)%nat ->
                 exists v, v ∈ CleaningTask.verifiers task
                           /\ v ∈ CleaningTask.responsibles task))
          (stableSort byDifficultyDesc areaConfig) created.
Proof.
  intros Hids H.
  destruct (rotateAssignments_json _ _ _ _ H) as (Hge & _).
  pose proof (rotation_staff _ _ _ _ H) as Hstaff.
  apply Forall2_same_length_lookup. split.
  { eapply Forall2_length, Hstaff. }
  intros i areaInfo task Ha Ht.
  destruct (Forall2_lookup_lr _ _ _ _ _ _ Hstaff Ha Ht)
    as (um & um' & Hs & Hv & _).
  destruct (selectResponsiblesForArea_people _ _ _ _ _ _ Hs)
    as (Hsub & Hnd & Hlen).
  pose proof (areaConfig_peopleNeeded areaInfo
                (list_elem_of_lookup_2 _ _ _ Ha)) as Hneed.
  pose proof (potentialVerifiers_length (CleaningTask.responsibles task)
                (availableUsers db) Hids (Hnd Hids) Hsub) as Hp.
  rewrite Hv. split.
  - intros Hmany. apply selectVerifiers_others. lia.
  - intros Hfew. apply selectVerifiers_self; [exact Hids | lia | lia].
Qed.

Lemma rotateAssignments_staffing_witness :
  Forall2 (fun areaInfo task =>
             CleaningTask.area task = AreaInfo.area areaInfo
             /\ length (CleaningTask.responsibles task)
                = AreaInfo.peopleNeeded areaInfo
             /\ NoDup (CleaningTask.responsibles task)
             /\ CleaningTask.responsibles task ⊆ ["ana"; "bea"]
             /\ length (CleaningTask.verifiers task) = 2%nat
             /\ NoDup (CleaningTask.verifiers task)
             /\ CleaningTask.verifiers task ⊆ ["ana"; "bea"]
             /\ CleaningTask.temporaryResponsible task = None
             /\ CleaningTask.completed task = false
             /\ CleaningTask.verifications task = []
             /\ CleaningTask.swapRequests task = [])
          (stableSort byDifficultyDesc areaConfig)
          (tasks (snd (rotateAssignments Sample.now Sample.dbRotation))).
Proof.
  apply (rotateAssignments_staffing Sample.now Sample.dbRotation
           (snd (rotateAssignments Sample.now Sample.dbRotation))).
  - compute_done.
  - vm_compute. reflexivity.
Defined.

Lemma rotateAssignments_self_verification_witness :
  Forall2 (fun areaInfo task =>
             ((AreaInfo.peopleNeeded areaInfo + 3 <= 2)%nat ->
              forall v, v ∈ CleaningTask.verifiers task ->
                        v ∉ CleaningTask.responsibles task)
             /\ ((2 < AreaInfo.peopleNeeded areaInfo + 3)%nat ->
                 exists v, v ∈ CleaningTask.verifiers task
                           /\ v ∈ CleaningTask.responsibles task))
          (stableSort byDifficultyDesc areaConfig)
          (tasks (snd (rotateAssignments Sample.now Sample.dbRotation))).
Proof.
  apply (rotateAssignments_self_verification Sample.now Sample.dbRotation
           (snd (rotateAssignments Sample.now Sample.dbRotation))).
  - compute_done.
  - vm_compute. reflexivity.
Defined.

(** ** Availability and the rotation *)

Lemma updateUserAvailability_done (userId : string) (available : bool)
    (reqUser : ReqUser.t) (db db' : DB) (user : User.t) :
  updateUserAvailability userId available reqUser db = (user_json user, db') ->
  (ReqUser.isAdmin reqUser = true \/ ReqUser.id reqUser = userId)
  /\ User._id user = userId
  /\ User.availableNextWeek user = available
  /\ tasks db' = tasks db
  /\ nextObjectId db' = nextObjectId db
  /\ users db'
     = List.map (fun u => if String.eqb (User._id u) userId
                          then set_availableNextWeek available u else u)
                (users db).
Proof.
  unfold updateUserAvailability, findUserById. intros H.
  destruct (List.find _ (users db)) as [u |] eqn:Hfind; [| discriminate].
  destruct (negb (ReqUser.isAdmin reqUser)
            && negb (String.eqb (ReqUser.id reqUser) userId)) eqn:Hguard;
    [discriminate |].
  inversion H. subst user db'. clear H. cbn.
  apply find_some in Hfind. destruct Hfind as [_ Hid].
  apply String.eqb_eq in Hid.
  split; [| repeat split; assumption].
  apply andb_false_iff in Hguard. destruct Hguard as [Hg | Hg];
    apply negb_false_iff in Hg; [left; exact Hg | right].
  apply String.eqb_eq. exact Hg.
Qed.

(** X14.  A person who has been set unavailable gets no work from the next
    rotation: after [updateUserAvailability] with [available = false] has
    gone through, a rotation that goes through names that person neither
    responsible nor verifier of any of its tasks, and the tasks it stores
    are the tasks it answers with. *)
Theorem unavailable_is_not_assigned (userId : string) (reqUser : ReqUser.t)
    (user : User.t) (now : Z) (db db' db'' : DB)
    (created : list CleaningTask.t) :
  updateUserAvailability userId false reqUser db = (user_json user, db') ->
  rotateAssignments now db' = (json created, db'') ->
  tasks db'' = created
  /\ forall task, task ∈ created ->
                  (userId ∉ CleaningTask.responsibles task)
                  /\ (userId ∉ CleaningTask.verifiers task).
Proof.
  intros Hu Hr.
  destruct (updateUserAvailability_done _ _ _ _ _ _ Hu)
    as (_ & _ & _ & _ & _ & Husers).
  assert (Hout : userId ∉ availableIds db').
  { unfold availableIds, availableUsers. rewrite Husers. clear.
    intros Hin. apply list_elem_of_fmap in Hin.
    destruct Hin as (u & Hid & Hu).
    apply list_elem_of_In, filter_In in Hu. destruct Hu as [Hu Hav].
    apply in_map_iff in Hu. destruct Hu as (u0 & Hu0 & _).
    destruct (String.eqb_spec (User._id u0) userId) as [Heq | Hne].
    - subst u. discriminate.
    - subst u. congruence. }
  destruct (rotateAssignments_json _ _ _ _ Hr) as (_ & -> & _).
  split; [reflexivity |].
  pose proof (rotation_staff _ _ _ _ Hr) as Hstaff.
  intros task Htask.
  apply list_elem_of_lookup in Htask. destruct Htask as [i Ht].
  destruct (Forall2_lookup_r _ _ _ _ _ Hstaff Ht)
    as (areaInfo & _ & um & um' & Hs & Hv & _).
  destruct (selectResponsiblesForArea_people _ _ _ _ _ _ Hs) as (Hsub & _).
  split.
  - intros Hin. apply Hout, Hsub, Hin.
  - intros Hin. rewrite Hv in Hin.
    apply Hout. exact (selectVerifiers_available _ _ _ _ Hin).
Qed.

Lemma unavailable_is_not_assigned_witness :
  tasks (snd (rotateAssignments Sample.now
                (snd (updateUserAvailability "bea" false
                        (ReqUser.mk "bea" false)
                        (mkDB [Sample.ana; Sample.bea;
                               User.mk "carlos" "Carlos" true]
                              Sample.history 100)))))
  = tasks (snd (rotateAssignments Sample.now
                  (mkDB [Sample.ana; User.mk "bea" "Bea" false;
                         User.mk "carlos" "Carlos" true]
                        Sample.history 100)))
  /\ forall task,
       task ∈ tasks (snd (rotateAssignments Sample.now
                            (mkDB [Sample.ana; User.mk "bea" "Bea" false;
                                   User.mk "carlos" "Carlos" true]
                                  Sample.history 100))) ->
       ("bea" ∉ CleaningTask.responsibles task)
       /\ ("bea" ∉ CleaningTask.verifiers task).
Proof.
  eapply (unavailable_is_not_assigned "bea" (ReqUser.mk "bea" false)
            (User.mk "bea" "Bea" false) Sample.now
            (mkDB [Sample.ana; Sample.bea; User.mk "carlos" "Carlos" true]
                  Sample.history 100)
            (mkDB [Sample.ana; User.mk "bea" "Bea" false;
                   User.mk "carlos" "Carlos" true]
                  Sample.history 100)).
  - reflexivity.
  - vm_compute. reflexivity.
Defined.

(** ** The tasks that are listed *)

(** X15.  The tasks of a rotation are what [getTasks] lists for the
    following week: asked at any time up to 7 days after the rotation it
    answers with exactly the new tasks, in creation order; asked more than
    31 days after the rotation it lists none of them. *)
Theorem getTasks_after_rotation (now : Z) (db db' : DB)
    (created : list CleaningTask.t) :
  rotateAssignments now db = (json created, db') ->
  (forall t, (t <= now + 7 * JSDate.msPerDay)%Z ->
             getTasks t db' = json created)
  /\ (forall t, (now + 31 * JSDate.msPerDay < t)%Z -> getTasks t db' = json []).
Proof.
  intros H.
  destruct (rotateAssignments_json _ _ _ _ H) as (_ & -> & plan & Hplan & <-).
  unfold planRotation in Hplan.
  destruct (assignAreas_newTasks _ _ _ _ _ _ Hplan)
    as (created & Hc & Hall & _ & _).
  cbn [newTasks app] in Hc. rewrite Hc. clear Hc Hplan H.
  assert (Hend : Forall (fun task =>
                           (now + 7 * JSDate.msPerDay
                            <= CleaningTask.endDate task
                            <= now + 31 * JSDate.msPerDay)%Z) created).
  { induction Hall as [| a task areas tasks' (_ & _ & _ & He) _ IH];
      constructor; [| exact IH].
    rewrite He. apply calculateEndDate_window. }
  clear Hall. unfold getTasks. cbn [tasks]. split.
  - intros t Ht. f_equal. induction Hend as [| task l Hk _ IH];
      [reflexivity |].
    cbn [List.filter].
    replace (t <=? CleaningTask.endDate task)%Z with true
      by (symmetry; apply Z.leb_le; lia).
    rewrite IH. reflexivity.
  - intros t Ht. f_equal. induction Hend as [| task l Hk _ IH];
      [reflexivity |].
    cbn [List.filter].
    replace (t <=? CleaningTask.endDate task)%Z with false
      by (symmetry; apply Z.leb_gt; lia).
    exact IH.
Qed.

Lemma getTasks_after_rotation_witness :
  (forall t, (t <= Sample.now + 7 * JSDate.msPerDay)%Z ->
             getTasks t (snd (rotateAssignments Sample.now Sample.dbRotation))
             = json (tasks (snd (rotateAssignments Sample.now
                                                   Sample.dbRotation))))
  /\ (forall t, (Sample.now + 31 * JSDate.msPerDay < t)%Z ->
                getTasks t (snd (rotateAssignments Sample.now
                                                   Sample.dbRotation))
                = json []).
Proof.
  apply (getTasks_after_rotation Sample.now Sample.dbRotation).
  vm_compute. reflexivity.
Defined.

(** ** The handlers as a whole *)

(** X16.  A handler that answers with an error has written nothing: for
    every call of a writing handler, at any time and on any database, an
    error answer leaves the database as it was.  For the rotation this
    rests on planning never failing, [deleteMany] having run by then. *)
Theorem error_answers_change_nothing (now : Z) (c : Call) (db : DB) :
  isError (fst (handle now c db)) = true -> snd (handle now c db) = db.
Proof.
  destruct c as [| taskId completed user | taskId vote comment verifierId
                | taskId responsibleId | task1Id task2Id userId
                | requestedTaskId offeredTaskId userId
                | taskId swapRequestId accept userId | requestId userId
                | requestId userId];
    cbn [handle].
  - unfold rotateAssignments.
    destruct (Nat.ltb _ 2); [reflexivity |].
    destruct (planRotation_is_Some (stableSort byEndDateDesc (tasks db))
                (List.filter (fun u => User.availableNextWeek u) (users db))
                areaConfig now (nextObjectId db)) as [plan ->].
    discriminate.
  - unfold markAsCompleted.
    destruct (findById taskId db); [| reflexivity].
    destruct (_ && _); [reflexivity | discriminate].
  - unfold verifyTask.
    destruct (findById taskId db) as [task |]; [| reflexivity].
    destruct (negb (CleaningTask.completed task)); [reflexivity |].
    destruct (negb (existsb _ (CleaningTask.verifiers task)));
      [reflexivity |].
    destruct (existsb _ (CleaningTask.verifications task));
      [reflexivity | discriminate].
  - unfold changeTaskResponsible.
    destruct (findById taskId db); [discriminate | reflexivity].
  - unfold swapTasks.
    destruct (findById task1Id db) as [task1 |];
      [destruct (findById task2Id db) as [task2 |] |]; cbn [send];
      try reflexivity.
    destruct (_ && _); [reflexivity |].
    destruct (_ || _); [reflexivity | discriminate].
  - unfold createSwapRequest.
    destruct (findById requestedTaskId db) as [requestedTask |];
      [| reflexivity].
    destruct (findById offeredTaskId db) as [offeredTask |]; [| reflexivity].
    destruct (negb (isResponsible offeredTask userId)); [reflexivity |].
    destruct (List.find _ (CleaningTask.swapRequests requestedTask));
      [reflexivity |].
    destruct (Nat.leb 3 _); [reflexivity | discriminate].
  - unfold respondToSwapRequest.
    destruct (findById taskId db) as [task |]; [| reflexivity].
    destruct (swapRequestById swapRequestId task); [| reflexivity].
    destruct (negb (isResponsible task userId)); [reflexivity |].
    destruct accept; [reflexivity | discriminate].
  - unfold rejectSwapRequest.
    destruct (findOneBySwapRequest requestId db) as [task |]; [| reflexivity].
    destruct (swapRequestById requestId task) as [swapRequest |];
      [| reflexivity].
    destruct (SwapRequest.status swapRequest); try reflexivity.
    destruct (negb (isResponsible task userId)); [reflexivity | discriminate].
  - unfold acceptSwapRequest.
    destruct (findOneBySwapRequest requestId db) as [task |]; [| reflexivity].
    destruct (swapRequestById requestId task) as [swapRequest |];
      [| reflexivity].
    destruct (SwapRequest.status swapRequest); try reflexivity.
    destruct (negb (isResponsible task userId)); [reflexivity |].
    destruct (findById (SwapRequest.targetTask swapRequest) db);
      [discriminate | reflexivity].
Qed.

Lemma error_answers_change_nothing_witness :
  snd (handle Sample.now (swapTasks_call 1 2 "bea") Sample.dbSwapCompleted)
  = Sample.dbSwapCompleted.
Proof.
  apply error_answers_change_nothing. reflexivity.
Defined.

(** With unique ids, a write reaches the one task that [findById] finds. *)
Lemma updateTask_found (taskId : N) (f : CleaningTask.t -> CleaningTask.t)
    (db : DB) (task : CleaningTask.t) :
  NoDup (CleaningTask._id <$> tasks db) ->
  findById taskId db = Some task ->
  exists before after,
    tasks db = before ++ task :: after
    /\ tasks (updateTask taskId f db) = before ++ f task :: after.
Proof.
  unfold findById, updateTask. cbn [tasks set_tasks].
  induction (tasks db) as [| k ks IH]; intros Hnd Hf; [discriminate |].
  cbn in Hnd. apply NoDup_cons in Hnd. destruct Hnd as [Hk Hnd].
  cbn [List.find List.map] in *.
  destruct (N.eqb (CleaningTask._id k) taskId) eqn:E.
  - inversion Hf. subst k. exists [], ks. split; [reflexivity |].
    cbn [app]. f_equal. apply N.eqb_eq in E.
    rewrite <- (map_id ks) at 2. apply map_ext_in. intros x Hx.
    destruct (N.eqb_spec (CleaningTask._id x) taskId) as [Heq | _];
      [| reflexivity].
    exfalso. apply Hk. rewrite E, <- Heq. apply list_elem_of_fmap.
    exists x. split; [reflexivity | apply list_elem_of_In, Hx].
  - destruct (IH Hnd Hf) as (before & after & -> & ->).
    exists (k :: before), after. split; reflexivity.
Qed.

Lemma updateTask_fmap {B : Type} (h : CleaningTask.t -> B) (taskId : N)
    (f : CleaningTask.t -> CleaningTask.t) (db : DB) :
  (forall k, h (f k) = h k) ->
  h <$> tasks (updateTask taskId f db) = h <$> tasks db.
Proof.
  intros Hh. unfold updateTask. cbn [tasks set_tasks].
  induction (tasks db) as [| k ks IH]; [reflexivity |].
  cbn [List.map fmap list_fmap] in *. f_equal; [| exact IH].
  destruct (N.eqb (CleaningTask._id k) taskId); [apply Hh | reflexivity].
Qed.

Lemma votesWellFormed_ext (k k' : CleaningTask.t) :
  CleaningTask.verifiers k' = CleaningTask.verifiers k ->
  CleaningTask.verifications k' = CleaningTask.verifications k ->
  votesWellFormed k -> votesWellFormed k'.
Proof.
  unfold votesWellFormed, voters. intros -> ->. exact id.
Qed.

Lemma findById_elem (taskId : N) (db : DB) (task : CleaningTask.t) :
  findById taskId db = Some task ->
  task ∈ tasks db /\ CleaningTask._id task = taskId.
Proof.
  intros H. split; [| exact (findById_id _ _ _ H)].
  unfold findById in H. apply List.find_some in H.
  apply list_elem_of_In. exact (proj1 H).
Qed.

(** What a call other than the rotation writes: nothing, or one stored
    task, or two stored tasks that exchange their responsibles. *)
Lemma handle_writes (now : Z) (c : Call) (db : DB) :
  c ≠ rotateAssignments_call ->
  snd (handle now c db) = db
  \/ (exists task f n,
        task ∈ tasks db
        /\ snd (handle now c db)
           = updateTask (CleaningTask._id task) f
                        (mkDB (users db) (tasks db) n)
        /\ (forall k, rosterOf (f k) = rosterOf k)
        /\ (forall k, CleaningTask.responsibles (f k)
                      = CleaningTask.responsibles k)
        /\ (votesWellFormed task -> votesWellFormed (f task)))
  \/ (exists t1 t2 f1 f2,
        t1 ∈ tasks db /\ t2 ∈ tasks db
        /\ snd (handle now c db)
           = updateTask (CleaningTask._id t2) f2
                        (updateTask (CleaningTask._id t1) f1 db)
        /\ (forall k, rosterOf (f1 k) = rosterOf k
                      /\ CleaningTask.verifications (f1 k)
                         = CleaningTask.verifications k
                      /\ CleaningTask.responsibles (f1 k)
                         = CleaningTask.responsibles t2)
        /\ (forall k, rosterOf (f2 k) = rosterOf k
                      /\ CleaningTask.verifications (f2 k)
                         = CleaningTask.verifications k
                      /\ CleaningTask.responsibles (f2 k)
                         = CleaningTask.responsibles t1)).
Proof.
  intros Hc.
  assert (Hone : forall task f n,
             task ∈ tasks db ->
             (forall k, rosterOf (f k) = rosterOf k) ->
             (forall k, CleaningTask.responsibles (f k)
                        = CleaningTask.responsibles k) ->
             (votesWellFormed task -> votesWellFormed (f task)) ->
             exists task' f' n',
               task' ∈ tasks db
               /\ updateTask (CleaningTask._id task) f
                             (mkDB (users db) (tasks db) n)
                  = updateTask (CleaningTask._id task') f'
                               (mkDB (users db) (tasks db) n')
               /\ (forall k, rosterOf (f' k) = rosterOf k)
               /\ (forall k, CleaningTask.responsibles (f' k)
                             = CleaningTask.responsibles k)
               /\ (votesWellFormed task' -> votesWellFormed (f' task'))).
  { intros task f n H1 H2 H3 H4. exists task, f, n.
    split; [exact H1 |]. split; [reflexivity |]. split; [exact H2 |].
    split; [exact H3 | exact H4]. }
  assert (Hdb : forall taskId f,
             updateTask taskId f db
             = updateTask taskId f
                 (mkDB (users db) (tasks db) (nextObjectId db))).
  { intros. destruct db; reflexivity. }
  destruct c as [| taskId completed user | taskId vote comment verifierId
                | taskId responsibleId | task1Id task2Id userId
                | requestedTaskId offeredTaskId userId
                | taskId swapRequestId accept userId | requestId userId
                | requestId userId];
    cbn [handle]; [contradiction | | | | | | | |].
  - unfold markAsCompleted.
    destruct (findById taskId db) as [task |] eqn:Hf; [| left; reflexivity].
    destruct (_ && _); [left; reflexivity |].
    apply findById_elem in Hf. destruct Hf as [Hin <-].
    right. left. cbn [snd]. rewrite Hdb. apply Hone.
    + exact Hin.
    + intros k. destruct completed; reflexivity.
    + intros k. destruct completed; reflexivity.
    + destruct completed.
      * apply votesWellFormed_ext; reflexivity.
      * intros (Hv & _). split; [exact Hv |]. split; [constructor |].
        intros x Hx. apply not_elem_of_nil in Hx. contradiction.
  - unfold verifyTask.
    destruct (findById taskId db) as [task |] eqn:Hf; [| left; reflexivity].
    destruct (negb (CleaningTask.completed task)); [left; reflexivity |].
    destruct (existsb _ (CleaningTask.verifiers task)) eqn:Hroster;
      cbn [negb]; [| left; reflexivity].
    rewrite voted_existsb.
    destruct (existsb _ (voters task)) eqn:Hvoted; [left; reflexivity |].
    apply findById_elem in Hf. destruct Hf as [Hin <-].
    right. left. cbn [snd]. rewrite Hdb. apply Hone.
    + exact Hin.
    + reflexivity.
    + reflexivity.
    + intros Hwf.
      apply (voted_well_formed task verifierId vote comment now Hwf).
      * apply existsb_eqb_elem_of. exact Hroster.
      * apply existsb_eqb_not_elem_of. exact Hvoted.
  - unfold changeTaskResponsible.
    destruct (findById taskId db) as [task |] eqn:Hf; [| left; reflexivity].
    apply findById_elem in Hf. destruct Hf as [Hin <-].
    right. left. cbn [snd]. rewrite Hdb. apply Hone.
    + exact Hin.
    + reflexivity.
    + reflexivity.
    + apply votesWellFormed_ext; reflexivity.
  - unfold swapTasks.
    destruct (findById task1Id db) as [task1 |] eqn:H1;
      [destruct (findById task2Id db) as [task2 |] eqn:H2 |]; cbn [send];
      try (left; reflexivity).
    destruct (_ && _); [left; reflexivity |].
    destruct (_ || _); [left; reflexivity |].
    apply findById_elem in H1, H2.
    destruct H1 as [Hin1 <-]. destruct H2 as [Hin2 <-].
    right. right. cbn [send snd].
    eexists task1, task2, _, _.
    split; [exact Hin1 |]. split; [exact Hin2 |]. split; [reflexivity |].
    split; intros k; repeat split.
  - unfold createSwapRequest.
    destruct (findById requestedTaskId db) as [requestedTask |] eqn:Hf;
      [| left; reflexivity].
    destruct (findById offeredTaskId db) as [offeredTask |];
      [| left; reflexivity].
    destruct (negb (isResponsible offeredTask userId)); [left; reflexivity |].
    destruct (List.find _ (CleaningTask.swapRequests requestedTask));
      [left; reflexivity |].
    destruct (Nat.leb 3 _); [left; reflexivity |].
    apply findById_elem in Hf. destruct Hf as [Hin <-].
    right. left. cbn [snd]. apply Hone.
    + exact Hin.
    + reflexivity.
    + reflexivity.
    + apply votesWellFormed_ext; reflexivity.
  - unfold respondToSwapRequest.
    destruct (findById taskId db) as [task |] eqn:Hf; [| left; reflexivity].
    destruct (swapRequestById swapRequestId task); [| left; reflexivity].
    destruct (negb (isResponsible task userId)); [left; reflexivity |].
    destruct accept; [left; reflexivity |].
    apply findById_elem in Hf. destruct Hf as [Hin _].
    right. left. cbn [snd]. rewrite Hdb. apply Hone.
    + exact Hin.
    + reflexivity.
    + reflexivity.
    + apply votesWellFormed_ext; reflexivity.
  - unfold rejectSwapRequest.
    destruct (findOneBySwapRequest requestId db) as [task |] eqn:Hf;
      [| left; reflexivity].
    destruct (swapRequestById requestId task) as [swapRequest |];
      [| left; reflexivity].
    destruct (SwapRequest.status swapRequest); try (left; reflexivity).
    destruct (negb (isResponsible task userId)); [left; reflexivity |].
    right. left. cbn [snd]. rewrite Hdb. apply Hone.
    + apply findOneBySwapRequest_elem with (requestId := requestId), Hf.
    + reflexivity.
    + reflexivity.
    + apply votesWellFormed_ext; reflexivity.
  - unfold acceptSwapRequest.
    destruct (findOneBySwapRequest requestId db) as [task |] eqn:Hf;
      [| left; reflexivity].
    destruct (swapRequestById requestId task) as [swapRequest |];
      [| left; reflexivity].
    destruct (SwapRequest.status swapRequest); try (left; reflexivity).
    destruct (negb (isResponsible task userId)); [left; reflexivity |].
    destruct (findById (SwapRequest.targetTask swapRequest) db)
      as [offeredTask |] eqn:Ho; [| left; reflexivity].
    right. right. cbn [snd].
    eexists task, offeredTask, _, _.
    split.
    { apply findOneBySwapRequest_elem with (requestId := requestId), Hf. }
    split; [exact (proj1 (findById_elem _ _ _ Ho)) |].
    split; [reflexivity |].
    split; intros k; repeat split.
Qed.

(** X17.  What a task is from its creation on is written by the rotation
    alone: every other call, whatever it answers, leaves the id, area,
    frequency, start and end date and roster of verifiers of every stored
    task as they were, adds and removes no task, and leaves the users as
    they were. *)
Theorem only_rotation_writes_roster (now : Z) (c : Call) (db : DB) :
  c ≠ rotateAssignments_call ->
  rosterOf <$> tasks (snd (handle now c db)) = rosterOf <$> tasks db
  /\ users (snd (handle now c db)) = users db.
Proof.
  intros Hc.
  destruct (handle_writes now c db Hc)
    as [-> | [(task & f & n & _ & -> & Hf & _)
             | (t1 & t2 & f1 & f2 & _ & _ & -> & H1 & H2)]].
  - split; reflexivity.
  - split; [| reflexivity]. rewrite updateTask_fmap by exact Hf. reflexivity.
  - split; [| reflexivity].
    rewrite updateTask_fmap by (intros k; apply H2).
    apply updateTask_fmap. intros k. apply H1.
Qed.

Lemma only_rotation_writes_roster_witness :
  rosterOf <$> tasks (snd (handle Sample.now (acceptSwapRequest_call 10 "bea")
                                  Sample.dbSwap))
  = rosterOf <$> tasks Sample.dbSwap
  /\ users (snd (handle Sample.now (acceptSwapRequest_call 10 "bea")
                        Sample.dbSwap))
     = users Sample.dbSwap.
Proof.
  apply only_rotation_writes_roster. discriminate.
Defined.

(** What a write to one stored task does to the responsibilities. *)
Lemma responsibilities_updateTask (task : CleaningTask.t)
    (f : CleaningTask.t -> CleaningTask.t) (db : DB) :
  NoDup (CleaningTask._id <$> tasks db) ->
  task ∈ tasks db ->
  responsibilities (updateTask (CleaningTask._id task) f db)
    ++ CleaningTask.responsibles task
  ≡ₚ responsibilities db ++ CleaningTask.responsibles (f task).
Proof.
  intros Hnd Hin.
  destruct (updateTask_found (CleaningTask._id task) f db task Hnd
              (findById_of_elem db task Hnd Hin))
    as (before & after & Hb & Ha).
  unfold responsibilities. rewrite Ha, Hb.
  rewrite !fmap_app, !fmap_cons, !concat_app, !concat_cons.
  rewrite <- !app_assoc.
  apply Permutation_app_head.
  etransitivity; [apply Permutation_app_comm |].
  rewrite (app_assoc (CleaningTask.responsibles task)).
  apply Permutation_app_tail, Permutation_app_comm.
Qed.

(** X18.  No call but the rotation creates or loses a responsibility: in a
    collection with unique ids, the responsibles of all tasks taken
    together, with their multiplicities, are after the call who they were
    before it.  The swaps move responsibles between two tasks; every other
    call leaves them in place. *)
Theorem responsibilities_conserved (now : Z) (c : Call) (db : DB) :
  c ≠ rotateAssignments_call ->
  NoDup (CleaningTask._id <$> tasks db) ->
  responsibilities (snd (handle now c db)) ≡ₚ responsibilities db.
Proof.
  intros Hc Hnd.
  destruct (handle_writes now c db Hc)
    as [-> | [(task & f & n & _ & -> & _ & Hf & _)
             | (t1 & t2 & f1 & f2 & Hin1 & Hin2 & -> & H1 & H2)]].
  - reflexivity.
  - unfold responsibilities.
    rewrite updateTask_fmap by exact Hf. reflexivity.
  - set (db1 := updateTask (CleaningTask._id t1) f1 db).
    assert (Hid1 : forall k, CleaningTask._id (f1 k) = CleaningTask._id k).
    { intros k. destruct (H1 k) as [Hr _].
      apply (f_equal (fun r => fst (fst (fst (fst (fst r)))))) in Hr.
      exact Hr. }
    assert (Hnd1 : NoDup (CleaningTask._id <$> tasks db1)).
    { unfold db1. rewrite updateTask_fmap by exact Hid1. exact Hnd. }
    assert (H2' : exists t2',
               t2' ∈ tasks db1
               /\ CleaningTask._id t2' = CleaningTask._id t2
               /\ CleaningTask.responsibles t2'
                  = CleaningTask.responsibles t2).
    { destruct (N.eq_dec (CleaningTask._id t1) (CleaningTask._id t2))
        as [Heq | Hne].
      - exists (f1 t2). split; [| split].
        + unfold db1, updateTask. cbn [tasks set_tasks].
          apply list_elem_of_In, in_map_iff. exists t2.
          rewrite Heq, N.eqb_refl.
          split; [reflexivity | apply list_elem_of_In, Hin2].
        + apply Hid1.
        + apply H1.
      - exists t2. split; [| split; reflexivity].
        assert (Hf2 : findById (CleaningTask._id t2) db1 = Some t2).
        { unfold db1.
          rewrite findById_updateTask_ne by (try exact Hid1; exact Hne).
          apply findById_of_elem; assumption. }
        exact (proj1 (findById_elem _ _ _ Hf2)). }
    destruct H2' as (t2' & Hin2' & Hid2' & Hr2').
    pose proof (responsibilities_updateTask t2' f2 db1 Hnd1 Hin2') as P2.
    pose proof (responsibilities_updateTask t1 f1 db Hnd Hin1) as P1.
    fold db1 in P1. rewrite Hid2' in P2.
    rewrite Hr2', (proj2 (proj2 (H2 t2'))) in P2.
    rewrite (proj2 (proj2 (H1 t1))) in P1.
    rewrite P1 in P2.
    apply Permutation_app_inv_r in P2. exact P2.
Qed.

Lemma responsibilities_conserved_witness :
  responsibilities (snd (handle Sample.now (acceptSwapRequest_call 10 "bea")
                                Sample.dbSwap))
  ≡ₚ responsibilities Sample.dbSwap.
Proof.
  apply responsibilities_conserved.
  - discriminate.
  - compute_done.
Defined.

(** ** An invariant of the database *)








(** ** The order of the history *)

Lemma Metrics_ext (x y : Metrics.t) :
  Metrics.totalHistoricalTasks x = Metrics.totalHistoricalTasks y ->
  Metrics.completedTasks x = Metrics.completedTasks y ->
  Metrics.incompleteOrRejectedTasks x = Metrics.incompleteOrRejectedTasks y ->
  Metrics.completionRate x = Metrics.completionRate y ->
  (forall area, Metrics.lastAssignedAreas x !! area
                = Metrics.lastAssignedAreas y !! area) ->
  (forall area, Metrics.areaAssignmentCounts x !! area
                = Metrics.areaAssignmentCounts y !! area) ->
  Metrics.currentWorkload x = Metrics.currentWorkload y ->
  Metrics.tasksAssigned x = Metrics.tasksAssigned y ->
  x = y.
Proof.
  destruct x, y. cbn. intros -> -> -> -> Hl Hc -> ->.
  f_equal; apply map_eq; assumption.
Qed.

Lemma counts_creditArea (task : CleaningTask.t) (m : Metrics.t)
    (area : string) :
  Metrics.areaAssignmentCounts (creditArea task m) !! area
  = if String.eqb (CleaningTask.area task) area
    then Some (S (default 0%nat (Metrics.areaAssignmentCounts m !! area)))
    else Metrics.areaAssignmentCounts m !! area.
Proof.
  unfold creditArea. cbn [Metrics.areaAssignmentCounts].
  destruct (String.eqb_spec (CleaningTask.area task) area) as [<- | Hne].
  - apply lookup_insert_eq.
  - apply lookup_insert_ne. exact Hne.
Qed.

Section PersonSteps.
Variable userId : string.

(** What one task leaves alone in the entry of a person, and the exact
    count it stores for an area. *)
Lemma rest_creditPerson (task : CleaningTask.t) (m : Metrics.t) :
  Metrics.completionRate (creditPerson userId task m)
  = Metrics.completionRate m
  /\ Metrics.currentWorkload (creditPerson userId task m)
     = Metrics.currentWorkload m
  /\ Metrics.tasksAssigned (creditPerson userId task m)
     = Metrics.tasksAssigned m
  /\ forall area,
       Metrics.areaAssignmentCounts (creditPerson userId task m) !! area
       = if String.eqb (CleaningTask.area task) area
            && Nat.ltb 0 (asResponsible userId task)
         then Some (default 0%nat (Metrics.areaAssignmentCounts m !! area)
                    + asResponsible userId task)%nat
         else Metrics.areaAssignmentCounts m !! area.
Proof.
  unfold creditPerson. cbv zeta.
  set (n := asResponsible userId task). clearbody n.
  assert (Hiter :
    let m' := Nat.iter n (fun m => creditArea task (creditCompletion task m))
                       m in
    Metrics.completionRate m' = Metrics.completionRate m
    /\ Metrics.currentWorkload m' = Metrics.currentWorkload m
    /\ Metrics.tasksAssigned m' = Metrics.tasksAssigned m
    /\ forall area,
         Metrics.areaAssignmentCounts m' !! area
         = if String.eqb (CleaningTask.area task) area && Nat.ltb 0 n
           then Some (default 0%nat (Metrics.areaAssignmentCounts m !! area)
                      + n)%nat
           else Metrics.areaAssignmentCounts m !! area).
  { induction n as [| n (IH1 & IH2 & IH3 & IH4)].
    - cbn. repeat split. intros area. rewrite andb_false_r. reflexivity.
    - rewrite Nat.iter_succ. cbv zeta.
      split; [exact IH1 |]. split; [exact IH2 |]. split; [exact IH3 |].
      intros area. rewrite counts_creditArea.
      change (Metrics.areaAssignmentCounts (creditCompletion task ?x))
        with (Metrics.areaAssignmentCounts x).
      rewrite IH4.
      destruct (String.eqb (CleaningTask.area task) area); [| reflexivity].
      cbn [andb]. destruct n as [| n]; cbn [Nat.ltb Nat.leb]; cbn;
        generalize (default 0%nat (Metrics.areaAssignmentCounts m !! area));
        intros d; f_equal; lia. }
  cbv zeta in Hiter.
  destruct (Nat.eqb (asTemporary userId task) 0); exact Hiter.
Qed.

(** Two tasks can be credited to a person in either order. *)
Lemma creditPerson_comm (task1 task2 : CleaningTask.t) (m : Metrics.t) :
  creditPerson userId task2 (creditPerson userId task1 m)
  = creditPerson userId task1 (creditPerson userId task2 m).
Proof.
  apply Metrics_ext.
  - destruct (counters_creditPerson userId task2
                (creditPerson userId task1 m)) as (-> & _).
    destruct (counters_creditPerson userId task1
                (creditPerson userId task2 m)) as (-> & _).
    destruct (counters_creditPerson userId task1 m) as (-> & _).
    destruct (counters_creditPerson userId task2 m) as (-> & _). lia.
  - destruct (counters_creditPerson userId task2
                (creditPerson userId task1 m)) as (_ & -> & _).
    destruct (counters_creditPerson userId task1
                (creditPerson userId task2 m)) as (_ & -> & _).
    destruct (counters_creditPerson userId task1 m) as (_ & -> & _).
    destruct (counters_creditPerson userId task2 m) as (_ & -> & _). lia.
  - destruct (counters_creditPerson userId task2
                (creditPerson userId task1 m)) as (_ & _ & ->).
    destruct (counters_creditPerson userId task1
                (creditPerson userId task2 m)) as (_ & _ & ->).
    destruct (counters_creditPerson userId task1 m) as (_ & _ & ->).
    destruct (counters_creditPerson userId task2 m) as (_ & _ & ->). lia.
  - destruct (rest_creditPerson task2 (creditPerson userId task1 m))
      as (-> & _).
    destruct (rest_creditPerson task1 (creditPerson userId task2 m))
      as (-> & _).
    destruct (rest_creditPerson task1 m) as (-> & _).
    destruct (rest_creditPerson task2 m) as (-> & _). reflexivity.
  - intros area.
    rewrite !(proj2 (areas_creditPerson userId _ _ area)).
    destruct (String.eqb (CleaningTask.area task1) area
              && Nat.ltb 0 (asResponsible userId task1));
      destruct (String.eqb (CleaningTask.area task2) area
                && Nat.ltb 0 (asResponsible userId task2));
      try reflexivity.
    f_equal. unfold laterEnd.
    destruct (Metrics.lastAssignedAreas m !! area); lia.
  - intros area.
    rewrite !(proj2 (proj2 (proj2 (rest_creditPerson _ _))) area).
    destruct (String.eqb (CleaningTask.area task1) area
              && Nat.ltb 0 (asResponsible userId task1));
      destruct (String.eqb (CleaningTask.area task2) area
                && Nat.ltb 0 (asResponsible userId task2));
      try reflexivity.
    cbn. generalize (default 0%nat (Metrics.areaAssignmentCounts m !! area)).
    intros d. f_equal. lia.
  - destruct (rest_creditPerson task2 (creditPerson userId task1 m))
      as (_ & -> & _).
    destruct (rest_creditPerson task1 (creditPerson userId task2 m))
      as (_ & -> & _).
    destruct (rest_creditPerson task1 m) as (_ & -> & _).
    destruct (rest_creditPerson task2 m) as (_ & -> & _). reflexivity.
  - destruct (rest_creditPerson task2 (creditPerson userId task1 m))
      as (_ & _ & -> & _).
    destruct (rest_creditPerson task1 (creditPerson userId task2 m))
      as (_ & _ & -> & _).
    destruct (rest_creditPerson task1 m) as (_ & _ & -> & _).
    destruct (rest_creditPerson task2 m) as (_ & _ & -> & _). reflexivity.
Qed.

Lemma creditPerson_history_Permutation (history history' : list CleaningTask.t)
    (m : Metrics.t) :
  history ≡ₚ history' ->
  foldl (fun m task => creditPerson userId task m) m history
  = foldl (fun m task => creditPerson userId task m) m history'.
Proof.
  intros H. revert m.
  induction H as [| task l l' _ IH | task1 task2 l | l l' l'' _ IH1 _ IH2];
    intros m.
  - reflexivity.
  - cbn [foldl]. apply IH.
  - cbn [foldl]. rewrite creditPerson_comm. reflexivity.
  - rewrite IH1. apply IH2.
Qed.
End PersonSteps.

Lemma calculateUserMetrics_Permutation
    (history history' : list CleaningTask.t) (people people' : list User.t) :
  history ≡ₚ history' ->
  User._id <$> people ≡ₚ User._id <$> people' ->
  calculateUserMetrics history people = calculateUserMetrics history' people'.
Proof.
  intros Hh Hp. apply map_eq. intros userId.
  unfold calculateUserMetrics. rewrite !lookup_fmap, !lookup_tallyHistory.
  rewrite (creditPerson_history_Permutation userId history history' _ Hh).
  destruct (decide (userId ∈ User._id <$> people)) as [Hin | Hout].
  - rewrite (bool_decide_eq_true_2 _ Hin).
    rewrite Hp in Hin. rewrite (bool_decide_eq_true_2 _ Hin). reflexivity.
  - rewrite (bool_decide_eq_false_2 _ Hout).
    rewrite Hp in Hout. rewrite (bool_decide_eq_false_2 _ Hout). reflexivity.
Qed.

(** X20.  The order of the history plays no part in the plan: for two
    histories with the same tasks in any order, and so for the history
    sorted by end date and the stored tasks as they come, the metrics are
    equal and the rotation plans equal.  Hence two databases with the same
    users and the same tasks stored in different orders get the same
    answer and the same new tasks from a rotation that goes through. *)
Theorem rotation_ignores_history_order (now : Z) (db1 db2 : DB) :
  users db1 = users db2 ->
  nextObjectId db1 = nextObjectId db2 ->
  tasks db1 ≡ₚ tasks db2 ->
  (forall people,
      calculateUserMetrics (stableSort byEndDateDesc (tasks db1)) people
      = calculateUserMetrics (tasks db2) people)
  /\ (isError (fst (rotateAssignments now db1)) = false ->
      rotateAssignments now db1 = rotateAssignments now db2).
Proof.
  intros Hu Hn Ht. split.
  - intros people. apply calculateUserMetrics_Permutation; [| reflexivity].
    rewrite stableSort_Permutation. exact Ht.
  - unfold rotateAssignments, set_tasks. rewrite <- Hu, <- Hn.
    destruct (Nat.ltb _ 2); [discriminate |]. intros _.
    unfold planRotation.
    assert (Hm : forall people,
               calculateUserMetrics (stableSort byEndDateDesc (tasks db1))
                                    people
               = calculateUserMetrics (stableSort byEndDateDesc (tasks db2))
                                      people).
    { intros people. apply calculateUserMetrics_Permutation; [| reflexivity].
      rewrite !stableSort_Permutation. exact Ht. }
    rewrite Hm. reflexivity.
Qed.

Lemma rotation_ignores_history_order_witness :
  (forall people,
      calculateUserMetrics (stableSort byEndDateDesc Sample.history) people
      = calculateUserMetrics (rev Sample.history) people)
  /\ (isError (fst (rotateAssignments Sample.now Sample.dbRotation)) = false ->
      rotateAssignments Sample.now Sample.dbRotation
      = rotateAssignments Sample.now
          (mkDB [Sample.ana; Sample.bea; Sample.carlos]
                (rev Sample.history) 100)).
Proof.
  apply (rotation_ignores_history_order Sample.now Sample.dbRotation
           (mkDB [Sample.ana; Sample.bea; Sample.carlos]
                 (rev Sample.history) 100)).
  - reflexivity.
  - reflexivity.
  - apply Permutation_rev.
Defined.

(** ** Completion rates *)


Section PersonRates.
Variable userId : string.

End PersonRates.



(** ** Archival *)

(** X22.  The archival script tags exactly the tasks that are completed,
    approved and ended more than [daysThreshold] whole days before now, to
    the millisecond and for every number of days: the day count given to
    [setDate] may be zero, negative or larger than a month.  Every task
    matched is modified, no tag is ever removed, no task is changed, added
    or dropped, and running the script again at the same time matches
    nothing and changes nothing. *)
Theorem archiveTasks_effect (daysThreshold now : Z)
    (collection : list Archive.t) :
  let result := archiveTasks daysThreshold now collection in
  let again := archiveTasks daysThreshold now (archive result) in
  thresholdDate now daysThreshold = (now - daysThreshold * JSDate.msPerDay)%Z
  /\ modifiedCount result = matchedCount result
  /\ Forall2 (fun before after =>
                Archive.task after = Archive.task before
                /\ Archive.archived after
                   = Archive.archived before
                     || (CleaningTask.completed (Archive.task before)
                         && isApproved (Archive.task before)
                         && (CleaningTask.endDate (Archive.task before)
                             <? now - daysThreshold * JSDate.msPerDay)%Z))
             collection (archive result)
  /\ matchedCount again = 0%nat
  /\ archive again = archive result.
Proof.
  cbv zeta.
  assert (Hthreshold : thresholdDate now daysThreshold
                       = (now - daysThreshold * JSDate.msPerDay)%Z).
  { unfold thresholdDate.
    replace (JSDate.getDate now - daysThreshold)%Z
      with (JSDate.getDate now + - daysThreshold)%Z by lia.
    rewrite JSDateFacts.setDate_getDate_plus. lia. }
  split; [exact Hthreshold |].
  unfold archiveTasks. cbv zeta.
  cbn [matchedCount modifiedCount archive].
  rewrite Hthreshold.
  set (threshold := (now - daysThreshold * JSDate.msPerDay)%Z).
  split; [| split; [| split]].
  - f_equal. induction collection as [| k l IH]; [reflexivity |].
    cbn [List.filter]. destruct (toArchive threshold k) eqn:Hk; [| exact IH].
    cbn [List.filter].
    unfold toArchive in Hk. apply andb_prop in Hk. destruct Hk as [_ ->].
    f_equal. exact IH.
  - induction collection as [| k l IH]; constructor; [| exact IH].
    unfold toArchive, isApproved.
    destruct (CleaningTask.completed (Archive.task k)),
      (CleaningTask.verificationStatus (Archive.task k)),
      (CleaningTask.endDate (Archive.task k) <? threshold)%Z,
      (Archive.archived k) eqn:Ha; cbn; rewrite ?Ha; split; reflexivity.
  - induction collection as [| k l IH]; [reflexivity |].
    cbn [List.map List.filter].
    replace (toArchive threshold
               (if toArchive threshold k
                then Archive.mk (Archive.task k) true else k)) with false.
    + exact IH.
    + destruct (toArchive threshold k) eqn:Hk; [| rewrite Hk; reflexivity].
      unfold toArchive. cbn. rewrite andb_false_r. reflexivity.
  - induction collection as [| k l IH]; [reflexivity |].
    cbn [List.map]. rewrite IH. f_equal.
    destruct (toArchive threshold k) eqn:Hk.
    + unfold toArchive. cbn. rewrite andb_false_r. reflexivity.
    + rewrite Hk. reflexivity.
Qed.

(** ** The listing of swap requests *)

Lemma findUserById_id (userId : string) (db : DB) (user : User.t) :
  findUserById userId db = Some user -> User._id user = userId.
Proof.
  unfold findUserById. intros H. apply List.find_some in H.
  apply String.eqb_eq. exact (proj2 H).
Qed.

Lemma populateUsers_ids (ids : list string) (db : DB) :
  (forall r, r ∈ ids -> is_Some (findUserById r db)) ->
  User._id <$> populateUsers ids db = ids.
Proof.
  unfold populateUsers. induction ids as [| r ids IH]; intros H;
    [reflexivity |].
  cbn [omap list_omap].
  destruct (H r) as [u Hu]; [apply list_elem_of_here |].
  rewrite Hu. cbn [fmap list_fmap]. rewrite (findUserById_id _ _ _ Hu).
  f_equal. apply IH. intros r' Hr'. apply H. apply list_elem_of_further, Hr'.
Qed.

(** With the users in place, [isTaskResponsible] is [true] for somebody
    responsible for the task, [null] for anybody else when the task has no
    temporary responsible, and [false] otherwise. *)
Lemma isTaskResponsible_cases (userId : string) (db : DB)
    (task : CleaningTask.t) :
  usersExist db -> task ∈ tasks db ->
  isTaskResponsible userId db task
  = if isResponsible task userId then js_true
    else match CleaningTask.temporaryResponsible task with
         | Some _ => js_false
         | None => js_null
         end.
Proof.
  intros Hex Hin. destruct (Hex task Hin) as (Hr & Ht & _).
  unfold isTaskResponsible, isResponsible.
  assert (Hsome : existsb (fun r => String.eqb (User._id r) userId)
                          (populateUsers (CleaningTask.responsibles task) db)
                  = existsb (fun r => String.eqb r userId)
                            (CleaningTask.responsibles task)).
  { rewrite <- (populateUsers_ids _ db Hr) at 2.
    induction (populateUsers (CleaningTask.responsibles task) db)
      as [| u l IH]; [reflexivity |].
    cbn [existsb fmap list_fmap]. rewrite IH. reflexivity. }
  rewrite Hsome.
  destruct (existsb _ (CleaningTask.responsibles task)); [reflexivity |].
  cbn [orb].
  destruct (CleaningTask.temporaryResponsible task) as [r |];
    [| reflexivity].
  destruct (Ht r eq_refl) as [u Hu]. cbn. rewrite Hu.
  rewrite (findUserById_id _ _ _ Hu).
  destruct (String.eqb r userId); reflexivity.
Qed.

Lemma hasPendingRequestBy_elem (userId : string) (task : CleaningTask.t)
    (req : SwapRequest.t) :
  req ∈ CleaningTask.swapRequests task ->
  SwapRequest.status req = swap_pending ->
  SwapRequest.requestedBy req = userId ->
  hasPendingRequestBy userId task = true.
Proof.
  intros Hin Hs Hb. unfold hasPendingRequestBy. apply existsb_exists.
  exists req. split; [apply list_elem_of_In, Hin |].
  rewrite Hs, Hb, String.eqb_refl. reflexivity.
Qed.

(** The requests of one stored task that are listed. *)
Lemma taskRequests_listed (userId : string) (db : DB) (task : CleaningTask.t) :
  usersExist db -> task ∈ tasks db ->
  exists views,
    taskRequests userId db task = Some views
    /\ (swapRequestsQuery userId task = true ->
        Some views
        = mapM (viewRequest userId db task)
               (List.filter (listedFor userId task)
                            (CleaningTask.swapRequests task)))
    /\ (swapRequestsQuery userId task = false ->
        List.filter (listedFor userId task) (CleaningTask.swapRequests task)
        = []).
Proof.
  intros Hex Hin. destruct (Hex task Hin) as (_ & _ & Hreq).
  pose proof (isTaskResponsible_cases userId db task Hex Hin) as Htr.
  unfold taskRequests.
  set (requests := CleaningTask.swapRequests task) in *.
  assert (Hshows : forall req, req ∈ requests ->
             showsRequest userId db task req
             = Some (match SwapRequest.status req with
                     | swap_pending =>
                       strictNotEqual (isTaskResponsible userId db task)
                         (String.eqb (SwapRequest.requestedBy req) userId)
                     | _ => false
                     end)).
  { intros req Hr. unfold showsRequest.
    destruct (SwapRequest.status req); try reflexivity.
    destruct (Hreq req Hr) as [u Hu]. rewrite Hu. cbn.
    rewrite (findUserById_id _ _ _ Hu). reflexivity. }
  assert (Hquery : forall req, req ∈ requests ->
             match SwapRequest.status req with
             | swap_pending =>
               strictNotEqual (isTaskResponsible userId db task)
                 (String.eqb (SwapRequest.requestedBy req) userId)
             | _ => false
             end = true ->
             swapRequestsQuery userId task = true ->
             listedFor userId task req = true).
  { intros req Hr Hs Hq. unfold listedFor.
    destruct (SwapRequest.status req) eqn:Hst; try discriminate.
    rewrite Htr in Hs. unfold swapRequestsQuery in Hq.
    fold (isResponsible task userId) in Hq.
    destruct (isResponsible task userId).
    - destruct (String.eqb (SwapRequest.requestedBy req) userId);
        [discriminate | reflexivity].
    - cbn [andb orb] in Hq.
      destruct (CleaningTask.temporaryResponsible task).
      + destruct (String.eqb (SwapRequest.requestedBy req) userId);
          [reflexivity | discriminate].
      + exact Hq. }
  assert (Hback : forall req, req ∈ requests ->
             listedFor userId task req = true ->
             swapRequestsQuery userId task = true
             /\ match SwapRequest.status req with
                | swap_pending =>
                  strictNotEqual (isTaskResponsible userId db task)
                    (String.eqb (SwapRequest.requestedBy req) userId)
                | _ => false
                end = true).
  { intros req Hr Hl. unfold listedFor in Hl.
    destruct (SwapRequest.status req) eqn:Hst; try discriminate.
    rewrite Htr. unfold swapRequestsQuery.
    fold (isResponsible task userId).
    destruct (isResponsible task userId).
    - split.
      + cbn [andb]. apply orb_true_iff. left. apply existsb_exists.
        exists req. split; [apply list_elem_of_In, Hr |].
        rewrite Hst. reflexivity.
      + destruct (String.eqb (SwapRequest.requestedBy req) userId);
          [discriminate | reflexivity].
    - cbn [andb orb].
      destruct (CleaningTask.temporaryResponsible task).
      + split.
        * apply (hasPendingRequestBy_elem userId task req Hr Hst).
          apply String.eqb_eq. exact Hl.
        * rewrite Hl. reflexivity.
      + split; [exact Hl |].
        destruct (String.eqb (SwapRequest.requestedBy req) userId);
          reflexivity. }
  clearbody requests.
  assert (Hgen : forall l, (forall req, req ∈ l -> req ∈ requests) ->
             exists views,
               (shown ← mapM (showsRequest userId db task) l;
                mapM (viewRequest userId db task)
                     (fst <$> List.filter snd (zip l shown)))
               = Some views
               /\ (swapRequestsQuery userId task = true ->
                   Some views
                   = mapM (viewRequest userId db task)
                          (List.filter (listedFor userId task) l))
               /\ (swapRequestsQuery userId task = false ->
                   List.filter (listedFor userId task) l = [])).
  { induction l as [| req l IH]; intros Hl.
    - exists []. cbn. repeat split.
    - destruct IH as (views & Hv & Hq & Hn).
      { intros r Hr. apply Hl, list_elem_of_further, Hr. }
      assert (Hreq0 : req ∈ requests) by apply Hl, list_elem_of_here.
      cbn [mapM]. rewrite (Hshows req Hreq0).
      destruct (mapM (showsRequest userId db task) l) as [shown |] eqn:Hm;
        [| discriminate].
      cbn in Hv.
      pose proof (Hquery req Hreq0) as Hquery0.
      pose proof (Hback req Hreq0) as Hback0.
      set (flag := match SwapRequest.status req with
                   | swap_pending => _
                   | _ => false
                   end) in *.
      clearbody flag.
      destruct (Hreq req Hreq0) as [u Hu].
      assert (Hview : viewRequest userId db task req
                      = Some (SwapRequestView.mk (SwapRequest._id req) u task
                                (findById (SwapRequest.targetTask req) db)
                                (SwapRequest.status req)
                                (SwapRequest.createdAt req)
                                (String.eqb (User._id u) userId))).
      { unfold viewRequest. rewrite Hu. reflexivity. }
      destruct flag; cbn -[viewRequest listedFor swapRequestsQuery].
      + rewrite Hview. cbn -[viewRequest listedFor swapRequestsQuery].
        rewrite Hv. cbn -[viewRequest listedFor swapRequestsQuery].
        eexists. split; [reflexivity |]. split.
        * intros Hquery'.
          rewrite (Hquery0 eq_refl Hquery').
          cbn -[viewRequest listedFor swapRequestsQuery].
          rewrite Hview, <- (Hq Hquery'). reflexivity.
        * intros Hquery'.
          destruct (listedFor userId task req) eqn:Hl0; [| exact (Hn Hquery')].
          destruct (Hback0 eq_refl) as [Hq' _]. congruence.
      + exists views. split; [exact Hv |]. split.
        * intros Hquery'.
          destruct (listedFor userId task req) eqn:Hl0; [| exact (Hq Hquery')].
          destruct (Hback0 eq_refl) as [_ Hf]. discriminate.
        * intros Hquery'.
          destruct (listedFor userId task req) eqn:Hl0; [| exact (Hn Hquery')].
          destruct (Hback0 eq_refl) as [Hq' _]. congruence. }
  apply Hgen. auto.
Qed.

Lemma viewRequest_entries (userId : string) (db : DB) (task : CleaningTask.t)
    (requests : list SwapRequest.t) (views : list SwapRequestView.t) :
  mapM (viewRequest userId db task) requests = Some views ->
  entryOf <$> views
  = (fun req => (SwapRequest._id req, task, SwapRequest.requestedBy req,
                 String.eqb (SwapRequest.requestedBy req) userId))
      <$> requests.
Proof.
  revert views. induction requests as [| req l IH]; intros views H.
  - cbn in H. inversion H. reflexivity.
  - cbn [mapM] in H.
    destruct (viewRequest userId db task req) as [v |] eqn:Hv;
      [| cbn in H; discriminate].
    destruct (mapM (viewRequest userId db task) l) as [vs |];
      [| cbn in H; discriminate].
    cbn in H. inversion H. subst views. clear H.
    cbn [fmap list_fmap]. rewrite (IH vs eq_refl). f_equal.
    unfold viewRequest in Hv.
    destruct (findUserById (SwapRequest.requestedBy req) db) as [u |] eqn:Hu;
      [| discriminate].
    cbn in Hv. inversion Hv. subst v. clear Hv.
    unfold entryOf. cbn. rewrite (findUserById_id _ _ _ Hu). reflexivity.
Qed.

(** X23.  When the users named by the tasks exist, [getSwapRequests]
    answers with a listing, task after task and request after request, of
    the pending requests only: to somebody responsible for the task
    (listed or temporary) the requests of the others; to anybody else
    their own requests; and, when the task has no temporary responsible,
    to anybody else who has a pending request on the task also the pending
    requests that others made on it, [isTaskResponsible] being [null]
    there and [null !== false] true. *)
Theorem getSwapRequests_listing (userId : string) (db : DB) :
  usersExist db ->
  exists views,
    getSwapRequests userId db = requests_json views
    /\ entryOf <$> views = concat (entriesFor userId <$> tasks db)
    /\ (forall task req,
          task ∈ tasks db -> req ∈ CleaningTask.swapRequests task ->
          SwapRequest.status req = swap_pending ->
          isResponsible task userId = false ->
          CleaningTask.temporaryResponsible task = None ->
          hasPendingRequestBy userId task = true ->
          (SwapRequest._id req, task, SwapRequest.requestedBy req,
           String.eqb (SwapRequest.requestedBy req) userId)
          ∈ entryOf <$> views).
Proof.
  intros Hex. unfold getSwapRequests.
  assert (Hgen : forall l, (forall task, task ∈ l -> task ∈ tasks db) ->
             exists lists,
               mapM (taskRequests userId db)
                    (List.filter (swapRequestsQuery userId) l) = Some lists
               /\ entryOf <$> concat lists
                  = concat (entriesFor userId <$> l)).
  { induction l as [| task l IH]; intros Hl.
    - exists []. split; reflexivity.
    - destruct IH as (lists & Hm & He).
      { intros k Hk. apply Hl, list_elem_of_further, Hk. }
      destruct (taskRequests_listed userId db task Hex
                  (Hl task (list_elem_of_here _ _)))
        as (views & Hv & Hq & Hn).
      cbn [List.filter fmap list_fmap concat].
      destruct (swapRequestsQuery userId task) eqn:Hquery.
      + cbn [mapM]. rewrite Hv, Hm. cbn.
        eexists. split; [reflexivity |].
        cbn [concat]. rewrite fmap_app, He. f_equal.
        symmetry in Hq. apply (viewRequest_entries userId db task _ _ (Hq eq_refl)).
      + exists lists. split; [exact Hm |].
        unfold entriesFor at 1. rewrite (Hn eq_refl). exact He. }
  destruct (Hgen (tasks db)) as (lists & Hm & He); [auto |].
  rewrite Hm. exists (concat lists).
  split; [reflexivity |]. split; [exact He |].
  intros task req Htask Hreq Hst Hresp Htemp Hown.
  rewrite He. apply list_elem_of_In, in_concat.
  exists (entriesFor userId task). split.
  - apply list_elem_of_In, list_elem_of_fmap. exists task.
    split; [reflexivity | exact Htask].
  - apply list_elem_of_In. unfold entriesFor.
    apply list_elem_of_fmap. exists req. split; [reflexivity |].
    apply list_elem_of_In, filter_In. split; [apply list_elem_of_In, Hreq |].
    unfold listedFor. rewrite Hst, Hresp, Htemp. exact Hown.
Qed.

Lemma getSwapRequests_listing_witness :
  exists views,
    getSwapRequests "ana" Listing.db = requests_json views
    /\ entryOf <$> views
       = [(10%N, Listing.task1, "ana", true);
          (11%N, Listing.task1, "carlos", false)].
Proof.
  assert (Hex : usersExist Listing.db).
  { intros task Hin.
    repeat (apply elem_of_cons in Hin; destruct Hin as [-> | Hin]);
      [| | | inversion Hin];
      (split; [| split]); cbn;
      try (intros r Hr;
           repeat (apply elem_of_cons in Hr; destruct Hr as [-> | Hr]);
           [.. | inversion Hr]; eexists; reflexivity);
      try (intros r Hr; inversion Hr). }
  destruct (getSwapRequests_listing "ana" Listing.db Hex)
    as (views & Hjson & Hentries & _).
  exists views. split; [exact Hjson |]. rewrite Hentries. reflexivity.
Defined.

(** ** Ranking *)


Lemma insertSorted_fmap {A B : Type} (f : A -> B) (before : B -> B -> bool)
    (x : A) (l : list A) :
  f <$> insertSorted (fun a b => before (f a) (f b)) x l
  = insertSorted before (f x) (f <$> l).
Proof.
  induction l as [| y l IH]; [reflexivity |].
  cbn [insertSorted fmap list_fmap].
  destruct (before (f x) (f y)); [reflexivity |].
  cbn [fmap list_fmap]. f_equal. exact IH.
Qed.

(** Sorting documents by a key of theirs sorts the keys. *)
Lemma stableSort_fmap {A B : Type} (f : A -> B) (before : B -> B -> bool)
    (l : list A) :
  f <$> stableSort (fun a b => before (f a) (f b)) l
  = stableSort before (f <$> l).
Proof.
  unfold stableSort. induction l as [| x l IH]; [reflexivity |].
  cbn [foldr fmap list_fmap]. rewrite insertSorted_fmap, IH. reflexivity.
Qed.

(** Among the elements of one class of ties, sorting keeps the order. *)
Lemma stableSort_stable {A : Type} (before : A -> A -> bool) (p : A -> bool)
    (l : list A) :
  (forall x y, p x = true -> p y = true -> before x y = true) ->
  List.filter p (stableSort before l) = List.filter p l.
Proof.
  intros Hp.
  assert (Hins : forall x r,
             List.filter p (insertSorted before x r)
             = List.filter p (x :: r)).
  { intros x r. induction r as [| y r IH]; [reflexivity |].
    cbn [insertSorted]. destruct (before x y) eqn:Hxy; [reflexivity |].
    cbn [List.filter] in *. rewrite IH.
    destruct (p x) eqn:Hx, (p y) eqn:Hy; try reflexivity.
    rewrite (Hp x y Hx Hy) in Hxy. discriminate. }
  unfold stableSort. induction l as [| x l IH]; [reflexivity |].
  cbn [foldr]. rewrite Hins. cbn [List.filter]. rewrite IH. reflexivity.
Qed.

(** X24.  The verifiers of a task are the best by completion rate: of the
    available people who are not responsible for the task when these are
    three or more, of all the available people otherwise.  They are the
    first three of that pool ranked by descending completion rate (a person
    without metrics counting as 0), so nobody left out has a higher rate
    than a verifier, and people with equal rates keep their stored order. *)
Theorem selectVerifiers_ranked (responsibles : list string)
    (people : list User.t) (userMetrics : gmap string Metrics.t) :
  let others :=
    List.filter
      (fun user => negb (existsb (String.eqb (User._id user)) responsibles))
      people in
  let pool :=
    User._id <$> (if Nat.ltb (length others) 3 then people else others) in
  exists ranked,
    selectVerifiers responsibles people userMetrics = take 3 ranked
    /\ ranked ≡ₚ pool
    /\ StronglySorted (fun a b => (completionRateOf userMetrics b
                                   <= completionRateOf userMetrics a)%Q)
                      ranked
    /\ (forall chosen other,
          chosen ∈ selectVerifiers responsibles people userMetrics ->
          other ∈ drop 3 ranked ->
          (completionRateOf userMetrics other
           <= completionRateOf userMetrics chosen)%Q)
    /\ (forall rate,
          List.filter (fun v => Qeq_bool (completionRateOf userMetrics v) rate)
                      ranked
          = List.filter (fun v => Qeq_bool (completionRateOf userMetrics v)
                                           rate)
                        pool).
Proof.
  cbv zeta.
  set (others := List.filter _ people).
  set (pool := User._id <$> (if Nat.ltb (length others) 3 then people
                             else others)).
  exists (stableSort (byCompletionRateDesc userMetrics) pool).
  assert (Hsel : selectVerifiers responsibles people userMetrics
                 = take 3 (stableSort (byCompletionRateDesc userMetrics) pool)).
  { unfold selectVerifiers. fold others. unfold pool.
    destruct (Nat.ltb (length others) 3).
    - rewrite <- (stableSort_length (byCompletionRateDesc userMetrics)
                                    (User._id <$> people)).
      destruct (Nat.min_spec 3 (length (stableSort
                                          (byCompletionRateDesc userMetrics)
                                          (User._id <$> people))))
        as [[_ ->] | [Hle ->]]; [reflexivity |].
      rewrite firstn_all. symmetry. apply take_ge. exact Hle.
    - rewrite fmap_take, stableSort_fmap. reflexivity. }
  assert (Hsorted : StronglySorted
                      (fun a b => (completionRateOf userMetrics b
                                   <= completionRateOf userMetrics a)%Q)
                      (stableSort (byCompletionRateDesc userMetrics) pool)).
  { eapply StronglySorted_weaken;
      [| apply (stableSort_sorted (byCompletionRateDesc userMetrics)
                  (byCompletionRateDesc_total userMetrics)
                  (byCompletionRateDesc_trans userMetrics))].
    intros a b Hab. apply Qle_bool_iff. exact Hab. }
  split; [exact Hsel |]. split; [apply stableSort_Permutation |].
  split; [exact Hsorted |]. split.
  - intros chosen other Hc Ho. rewrite Hsel in Hc.
    exact (StronglySorted_take_drop _ _ _ chosen other Hsorted Hc Ho).
  - intros rate. apply stableSort_stable. intros x y Hx Hy.
    apply Qeq_bool_iff in Hx, Hy. unfold byCompletionRateDesc.
    apply Qle_bool_iff. rewrite Hx, Hy. apply Qle_refl.
Qed.



(** ** A negotiated swap, from the request to the answer *)

Lemma find_none_all {A : Type} (p : A -> bool) (l : list A) :
  (forall x, x ∈ l -> p x = false) -> List.find p l = None.
Proof.
  induction l as [| x l IH]; intros H; [reflexivity |].
  cbn [List.find]. rewrite (H x (list_elem_of_here _ _)).
  apply IH. intros y Hy. apply H, list_elem_of_further, Hy.
Qed.

(** The request that [createSwapRequest] has stored is found under its
    fresh id, in the task asked for. *)
Lemma created_request_found (taskId : N) (request : SwapRequest.t) (db : DB)
    (task : CleaningTask.t) (n : N) :
  NoDup (CleaningTask._id <$> tasks db) ->
  (forall k req, k ∈ tasks db -> req ∈ CleaningTask.swapRequests k ->
                 SwapRequest._id req ≠ SwapRequest._id request) ->
  findById taskId db = Some task ->
  let save k := CleaningTask.set_swapRequests
                  (CleaningTask.swapRequests k ++ [request]) k in
  let db1 := updateTask taskId save (mkDB (users db) (tasks db) n) in
  findOneBySwapRequest (SwapRequest._id request) db1 = Some (save task)
  /\ swapRequestById (SwapRequest._id request) (save task) = Some request.
Proof.
  intros Hnd Hfresh Hf save db1.
  assert (Hnone : forall k, k ∈ tasks db ->
             List.find (fun r => N.eqb (SwapRequest._id r)
                                       (SwapRequest._id request))
                       (CleaningTask.swapRequests k) = None).
  { intros k Hk. apply find_none_all. intros req Hreq.
    apply N.eqb_neq. exact (Hfresh k req Hk Hreq). }
  destruct (updateTask_found taskId save (mkDB (users db) (tasks db) n) task
              Hnd Hf) as (before & after & Hb & Ha).
  cbn [tasks] in Hb. split.
  - unfold findOneBySwapRequest. fold db1 in Ha. rewrite Ha.
    assert (Hbefore : forall k, k ∈ before -> k ∈ tasks db).
    { intros k Hk. rewrite Hb. apply elem_of_app. left. exact Hk. }
    clear Ha Hb. induction before as [| k before IH].
    + cbn [app List.find]. unfold save at 1.
      cbn [CleaningTask.swapRequests CleaningTask.set_swapRequests].
      rewrite existsb_app. cbn [existsb]. rewrite N.eqb_refl.
      rewrite orb_true_r. reflexivity.
    + cbn [app List.find].
      replace (existsb _ (CleaningTask.swapRequests k)) with false.
      * apply IH. intros k' Hk'. apply Hbefore, list_elem_of_further, Hk'.
      * symmetry. apply not_true_is_false. intros Hex.
        apply existsb_exists in Hex. destruct Hex as (req & Hreq & Hid).
        apply N.eqb_eq in Hid.
        apply (Hfresh k req (Hbefore k (list_elem_of_here _ _))
                 (proj2 (list_elem_of_In _ _) Hreq) Hid).
  - unfold swapRequestById, save.
    cbn [CleaningTask.swapRequests CleaningTask.set_swapRequests].
    assert (Hin : task ∈ tasks db) by exact (proj1 (findById_elem _ _ _ Hf)).
    specialize (Hnone task Hin).
    induction (CleaningTask.swapRequests task) as [| req l IH].
    + cbn. rewrite N.eqb_refl. reflexivity.
    + cbn [app List.find] in *.
      destruct (N.eqb (SwapRequest._id req) (SwapRequest._id request));
        [discriminate |].
      apply IH, Hnone.
Qed.

(** X26.  A negotiated swap works from end to end.  In a collection with
    unique ids, a request that [createSwapRequest] stores for two different
    tasks can at once be accepted by anybody responsible for the task
    asked for: the two tasks then have exchanged their responsibles, have
    no temporary responsible, and the request is accepted.  It can as well
    be rejected by that person: the request is then rejected and every
    task keeps its responsibles. *)
Theorem swap_negotiated (requestedTaskId offeredTaskId : N)
    (requester acceptor : string) (now : Z) (db db1 : DB)
    (requestedTask offeredTask : CleaningTask.t) (docs : list CleaningTask.t) :
  NoDup (CleaningTask._id <$> tasks db) ->
  (forall k req, k ∈ tasks db -> req ∈ CleaningTask.swapRequests k ->
                 SwapRequest._id req ≠ nextObjectId db) ->
  findById requestedTaskId db = Some requestedTask ->
  findById offeredTaskId db = Some offeredTask ->
  requestedTaskId ≠ offeredTaskId ->
  isResponsible requestedTask acceptor = true ->
  createSwapRequest requestedTaskId offeredTaskId requester now db
  = (json docs, db1) ->
  let requestId := nextObjectId db in
  (exists task' offeredTask',
      fst (acceptSwapRequest requestId acceptor db1) = json [task']
      /\ findById requestedTaskId (snd (acceptSwapRequest requestId acceptor db1))
         = Some task'
      /\ findById offeredTaskId (snd (acceptSwapRequest requestId acceptor db1))
         = Some offeredTask'
      /\ CleaningTask.responsibles task'
         = CleaningTask.responsibles offeredTask
      /\ CleaningTask.responsibles offeredTask'
         = CleaningTask.responsibles requestedTask
      /\ CleaningTask.temporaryResponsible task' = None
      /\ CleaningTask.temporaryResponsible offeredTask' = None
      /\ SwapRequest.status <$> swapRequestById requestId task'
         = Some swap_accepted)
  /\ (isError (fst (rejectSwapRequest requestId acceptor db1)) = false
      /\ requestStatus requestId (snd (rejectSwapRequest requestId acceptor db1))
         = Some swap_rejected
      /\ CleaningTask.responsibles
           <$> tasks (snd (rejectSwapRequest requestId acceptor db1))
         = CleaningTask.responsibles <$> tasks db).
Proof.
  intros Hnd Hfresh Hr Ho Hne Hresp Hcreate requestId.
  destruct (createSwapRequest_json _ _ _ _ _ _ _ Hcreate)
    as (requestedTask0 & offeredTask0 & Hr0 & Ho0 & _ & _ & ->).
  rewrite Hr in Hr0. inversion Hr0. subst requestedTask0. clear Hr0.
  rewrite Ho in Ho0. inversion Ho0. subst offeredTask0. clear Ho0.
  set (request := SwapRequest.mk (nextObjectId db) requester offeredTaskId
                                 swap_pending now).
  set (save := fun k => CleaningTask.set_swapRequests
                          (CleaningTask.swapRequests k ++ [request]) k).
  set (db1 := updateTask requestedTaskId save
                (mkDB (users db) (tasks db) (N.succ (nextObjectId db)))).
  destruct (created_request_found requestedTaskId request db requestedTask
              (N.succ (nextObjectId db)) Hnd Hfresh Hr) as [Hone Hreq].
  change (SwapRequest._id request) with requestId in Hone, Hreq.
  fold save in Hone, Hreq. fold db1 in Hone.
  assert (Hnd1 : NoDup (CleaningTask._id <$> tasks db1)).
  { unfold db1. rewrite updateTask_fmap by reflexivity. exact Hnd. }
  assert (Ho1 : findById offeredTaskId db1 = Some offeredTask).
  { unfold db1.
    rewrite findById_updateTask_ne by (try reflexivity; exact Hne).
    exact Ho. }
  assert (Hresp1 : isResponsible (save requestedTask) acceptor = true).
  { rewrite <- Hresp. apply isResponsible_frame; reflexivity. }
  pose proof (findById_id _ _ _ Hr) as Hrid.
  pose proof (findById_id _ _ _ Ho) as Hoid.
  split.
  - destruct (acceptSwapRequest_exchanges requestId acceptor db1
                (save requestedTask) offeredTask request Hnd1 Hone Hreq
                eq_refl Hresp1 Ho1)
      as (task' & offeredTask' & H1 & H2 & H3 & H4 & H5 & H6 & H7 & H8 & _).
    { cbn [save CleaningTask._id CleaningTask.set_swapRequests]. congruence. }
    change (CleaningTask._id (save requestedTask))
      with (CleaningTask._id requestedTask) in H2.
    rewrite Hrid in H2. rewrite Hoid in H3.
    exists task', offeredTask'. repeat split; assumption.
  - unfold rejectSwapRequest, requestStatus. rewrite Hone, Hreq.
    change (SwapRequest.status request) with swap_pending. cbv iota.
    change (CleaningTask.set_swapRequests
              (CleaningTask.swapRequests requestedTask ++ [request])
              requestedTask) with (save requestedTask).
    rewrite Hresp1. cbn [negb fst snd isError].
    split; [reflexivity |]. split.
    + rewrite findOneBySwapRequest_updateTask
        by (intros k; cbn; apply hasRequest_setRequestStatus).
      rewrite Hone. cbn [fmap option_fmap option_map mbind option_bind].
      rewrite N.eqb_refl. unfold swapRequestById, save in *.
      cbn [CleaningTask.swapRequests CleaningTask.set_swapRequests] in *.
      rewrite swapRequestById_setRequestStatus, Hreq. reflexivity.
    + rewrite updateTask_fmap by reflexivity.
      unfold db1. rewrite updateTask_fmap by reflexivity. reflexivity.
Qed.

Lemma swap_negotiated_witness :
  exists task' offeredTask',
    fst (acceptSwapRequest 11 "bea"
           (snd (createSwapRequest 1 2 "carlos" Sample.now Sample.dbSwap)))
    = json [task']
    /\ CleaningTask.responsibles task' = ["ana"]
    /\ CleaningTask.responsibles offeredTask' = ["bea"]
    /\ SwapRequest.status <$> swapRequestById 11 task' = Some swap_accepted.
Proof.
  destruct (swap_negotiated 1 2 "carlos" "bea" Sample.now Sample.dbSwap
              (snd (createSwapRequest 1 2 "carlos" Sample.now Sample.dbSwap))
              (Sample.openTask 1 "Baño 1" ["bea"] None
                 [SwapRequest.mk 10 "ana" 2 swap_pending Sample.now])
              (Sample.openTask 2 "Basura" ["ana"] (Some "carlos") [])
              [CleaningTask.set_swapRequests
                 [SwapRequest.mk 10 "ana" 2 swap_pending Sample.now;
                  SwapRequest.mk 11 "carlos" 2 swap_pending Sample.now]
                 (Sample.openTask 1 "Baño 1" ["bea"] None [])])
    as [(task' & offeredTask' & H1 & _ & _ & H4 & H5 & _ & _ & H8) _].
  - compute_done.
  - intros k req Hk Hreq.
    repeat (apply elem_of_cons in Hk; destruct Hk as [-> | Hk]);
      [| | inversion Hk];
      repeat (apply elem_of_cons in Hreq; destruct Hreq as [-> | Hreq]);
      try (inversion Hreq; fail); discriminate.
  - reflexivity.
  - reflexivity.
  - discriminate.
  - reflexivity.
  - reflexivity.
  - exists task', offeredTask'. repeat split; assumption.
Defined.

(** X27.  [respondToSwapRequest] never accepts: with [accept = true] it
    answers with an error on every database and for every task, request and
    caller, and leaves the database as it was, the call of [swapTasks] with
    two ObjectIds failing whatever they are.  A request is accepted through
    [acceptSwapRequest] only. *)
Theorem respondToSwapRequest_never_accepts (taskId swapRequestId : N)
    (userId : string) (db : DB) :
  isError (fst (respondToSwapRequest taskId swapRequestId true userId db))
  = true
  /\ snd (respondToSwapRequest taskId swapRequestId true userId db) = db
  /\ forall requestId,
       requestStatus requestId
         (snd (respondToSwapRequest taskId swapRequestId true userId db))
       = requestStatus requestId db.
Proof.
  assert (H : isError (fst (respondToSwapRequest taskId swapRequestId true
                              userId db)) = true
              /\ snd (respondToSwapRequest taskId swapRequestId true userId db)
                 = db).
  { unfold respondToSwapRequest.
    destruct (findById taskId db) as [task |]; [| split; reflexivity].
    destruct (swapRequestById swapRequestId task) as [swapRequest |];
      [| split; reflexivity].
    destruct (negb (isResponsible task userId)); split; reflexivity. }
  destruct H as [H1 H2]. split; [exact H1 |]. split; [exact H2 |].
  intros requestId. rewrite H2. reflexivity.
Qed.

(** ** Availability *)

Lemma findUserById_map (userId other : string) (g : User.t -> User.t)
    (people : list User.t) :
  (forall u, User._id (g u) = User._id u) ->
  List.find (fun u => String.eqb (User._id u) other)
            (List.map (fun u => if String.eqb (User._id u) userId
                                then g u else u) people)
  = (fun u => if String.eqb (User._id u) userId then g u else u)
      <$> List.find (fun u => String.eqb (User._id u) other) people.
Proof.
  intros Hg. induction people as [| u l IH]; [reflexivity |].
  cbn [List.map List.find].
  replace (User._id (if String.eqb (User._id u) userId then g u else u))
    with (User._id u)
    by (destruct (String.eqb (User._id u) userId); [rewrite Hg |]; reflexivity).
  destruct (String.eqb (User._id u) other); [reflexivity | exact IH].
Qed.

(** X28.  The availability of a person is changed by that person or by an
    administrator only: anybody else is answered with an error (404 when
    there is no such user, 403 when there is, the existence being checked
    first) and nothing changes.  A change that goes through sets the flag
    of that user, leaves every other user, every task and the name of the
    user as they were, and the same call made again changes nothing more. *)
Theorem updateUserAvailability_effect (userId : string) (available : bool)
    (reqUser : ReqUser.t) (db : DB) :
  let r := updateUserAvailability userId available reqUser db in
  (ReqUser.isAdmin reqUser = false -> ReqUser.id reqUser ≠ userId ->
   snd r = db
   /\ fst r = match findUserById userId db with
              | None => user_status_json 404 "Usuario no encontrado"
              | Some _ =>
                user_status_json 403
                  "No tienes permiso para actualizar este usuario"
              end)
  /\ (forall user,
        findUserById userId db = Some user ->
        ReqUser.isAdmin reqUser = true \/ ReqUser.id reqUser = userId ->
        fst r = user_json (set_availableNextWeek available user)
        /\ findUserById userId (snd r)
           = Some (set_availableNextWeek available user)
        /\ (forall other, other ≠ userId ->
                          findUserById other (snd r) = findUserById other db)
        /\ tasks (snd r) = tasks db
        /\ User._id <$> users (snd r) = User._id <$> users db
        /\ updateUserAvailability userId available reqUser (snd r)
           = (fst r, snd r)).
Proof.
  cbv zeta. split.
  - intros Hadmin Hother. unfold updateUserAvailability.
    destruct (findUserById userId db); [| split; reflexivity].
    rewrite Hadmin. apply String.eqb_neq in Hother. rewrite Hother.
    split; reflexivity.
  - intros user Hfind Hperm.
    assert (Hguard : negb (ReqUser.isAdmin reqUser)
                     && negb (String.eqb (ReqUser.id reqUser) userId) = false).
    { destruct Hperm as [-> | <-]; [reflexivity |].
      rewrite String.eqb_refl. apply andb_false_r. }
    pose proof (findUserById_id _ _ _ Hfind) as Hid.
    set (db' := mkDB (List.map (fun u => if String.eqb (User._id u) userId
                                         then set_availableNextWeek available u
                                         else u)
                               (users db))
                     (tasks db) (nextObjectId db)).
    assert (Hr : updateUserAvailability userId available reqUser db
                 = (user_json (set_availableNextWeek available user), db')).
    { unfold updateUserAvailability. rewrite Hfind, Hguard. reflexivity. }
    rewrite Hr. cbn [fst snd].
    assert (Hfind' : findUserById userId db'
                     = Some (set_availableNextWeek available user)).
    { unfold findUserById, db'. cbn [users].
      rewrite (findUserById_map userId userId
                 (set_availableNextWeek available)) by reflexivity.
      unfold findUserById in Hfind. rewrite Hfind. cbn.
      rewrite Hid, String.eqb_refl. reflexivity. }
    split; [reflexivity |]. split; [exact Hfind' |]. split.
    { intros other Hne. unfold findUserById, db'. cbn [users].
      rewrite (findUserById_map userId other
                 (set_availableNextWeek available)) by reflexivity.
      destruct (List.find _ (users db)) as [u |] eqn:Hu; [| reflexivity].
      cbn. apply List.find_some in Hu. destruct Hu as [_ Hu].
      apply String.eqb_eq in Hu. rewrite Hu.
      apply String.eqb_neq in Hne. rewrite Hne. reflexivity. }
    split; [reflexivity |]. split.
    { unfold db'. cbn [users]. clear.
      induction (users db) as [| u l IH]; [reflexivity |].
      cbn [List.map fmap list_fmap] in *. rewrite IH. f_equal.
      destruct (String.eqb (User._id u) userId); reflexivity. }
    unfold updateUserAvailability. rewrite Hfind', Hguard.
    f_equal. unfold db'. cbn [users tasks nextObjectId]. f_equal.
    rewrite List.map_map. apply map_ext. intros u.
    destruct (String.eqb (User._id u) userId) eqn:E.
    + cbn [set_availableNextWeek User._id]. rewrite E. reflexivity.
    + rewrite E. reflexivity.
Qed.

Lemma updateUserAvailability_effect_witness :
  fst (updateUserAvailability "bea" false (ReqUser.mk "bea" false)
                              Sample.dbRotation)
  = user_json (User.mk "bea" "Bea" false)
  /\ snd (updateUserAvailability "carlos" true (ReqUser.mk "bea" false)
                                 Sample.dbRotation)
     = Sample.dbRotation.
Proof.
  split.
  - apply (proj2 (updateUserAvailability_effect "bea" false
                    (ReqUser.mk "bea" false) Sample.dbRotation)
             Sample.bea eq_refl (or_intror eq_refl)).
  - apply (proj1 (updateUserAvailability_effect "carlos" true
                    (ReqUser.mk "bea" false) Sample.dbRotation)).
    + reflexivity.
    + discriminate.
Defined.

(** ** Approving one's own work *)

Lemma rotation_ids_NoDup (now : Z) (db db' : DB)
    (created : list CleaningTask.t) :
  rotateAssignments now db = (json created, db') ->
  NoDup (CleaningTask._id <$> created).
Proof.
  intros H.
  destruct (rotateAssignments_json _ _ _ _ H) as (_ & _ & plan & Hp & Hn).
  unfold planRotation in Hp.
  destruct (assignAreas_newTasks _ _ _ _ _ _ Hp)
    as (created' & Hc & _ & Hids & _).
  cbn [newTasks app planNextId] in Hc, Hids.
  rewrite <- Hn, Hc, Hids. apply NoDup_fmap_2; [| apply NoDup_seq].
  intros i j Hij. lia.
Qed.

(** X29.  With three available people or fewer, every task of a rotation
    can be approved by one of its own responsibles alone: when no two
    available people share an id, each new task has a responsible who is
    also one of its verifiers; that person may mark the task as completed
    and then vote, and after that single approving vote the stored status
    of the task is 'approved'. *)
Theorem self_approval_after_rotation (now markedAt votedAt : Z) (db db' : DB)
    (created : list CleaningTask.t) :
  NoDup (availableIds db) ->
  (length (availableUsers db) <= 3)%nat ->
  rotateAssignments now db = (json created, db') ->
  forall task, task ∈ created ->
    exists person,
      person ∈ CleaningTask.responsibles task
      /\ person ∈ CleaningTask.verifiers task
      /\ let taskId := CleaningTask._id task in
         let marked := markAsCompleted taskId true (ReqUser.mk person false)
                                       markedAt db' in
         let verified := verifyTask taskId true None person votedAt
                                 (snd marked) in
         isError (fst marked) = false
         /\ isError (fst verified) = false
         /\ statusOf taskId (snd verified) = Some approved
         /\ CleaningTask.completed <$> findById taskId (snd verified)
            = Some true.
Proof.
  intros Hids Hfew H task Htask.
  pose proof (rotation_staff _ _ _ _ H) as Hstaff.
  pose proof (rotation_ids_NoDup _ _ _ _ H) as Hnd.
  destruct (rotateAssignments_json _ _ _ _ H) as (Hge & -> & _).
  pose proof Htask as Hi. apply list_elem_of_lookup in Hi.
  destruct Hi as [i Hi].
  destruct (Forall2_lookup_r _ _ _ _ _ Hstaff Hi)
    as (areaInfo & Ha & um & um' & Hs & Hv & _ & _ & _ & Hvotes & _).
  destruct (selectResponsiblesForArea_people _ _ _ _ _ _ Hs)
    as (Hsub & Hrnd & Hlen).
  pose proof (areaConfig_peopleNeeded areaInfo
                (list_elem_of_lookup_2 _ _ _ Ha)) as Hneed.
  pose proof (potentialVerifiers_length (CleaningTask.responsibles task)
                (availableUsers db) Hids (Hrnd Hids) Hsub) as Hp.
  destruct (selectVerifiers_self (CleaningTask.responsibles task)
              (availableUsers db) um' Hids) as (person & Hpv & Hpr);
    [lia | lia |].
  rewrite <- Hv in Hpv.
  exists person. split; [exact Hpr |]. split; [exact Hpv |].
  cbv zeta.
  set (db' := mkDB (users db) created _).
  assert (Hf : findById (CleaningTask._id task) db' = Some task).
  { apply findById_of_elem; [exact Hnd | exact Htask]. }
  assert (Hresp : isResponsible task person = true).
  { unfold isResponsible. apply existsb_eqb_elem_of in Hpr. rewrite Hpr.
    reflexivity. }
  pose proof (markAsCompleted_stored (CleaningTask._id task) true
                (ReqUser.mk person false) markedAt db' task Hf
                (or_introl Hresp)) as Hmarked.
  cbv iota in Hmarked.
  set (task1 := CleaningTask.set_verificationStatus pending
                  (CleaningTask.set_completion true (Some markedAt) task))
    in Hmarked.
  assert (Hnot : person ∉ voters task1).
  { unfold voters, task1. cbn. rewrite Hvotes. apply not_elem_of_nil. }
  split.
  { unfold markAsCompleted. rewrite Hf.
    cbn [ReqUser.id ReqUser.isAdmin]. rewrite Hresp. reflexivity. }
  split.
  { rewrite (verifyTask_success _ _ _ _ _ _ _ Hmarked eq_refl Hpv Hnot).
    reflexivity. }
  unfold statusOf.
  rewrite (verifyTask_stored _ true None person votedAt _ task1 Hmarked
             eq_refl Hpv Hnot).
  split; [| reflexivity].
  unfold voted, task1. cbn. rewrite Hvotes. cbn.
  unfold statusOfTally. cbn.
  destruct (length (CleaningTask.verifiers task)) as [| [| n]]; reflexivity.
Qed.

Lemma self_approval_after_rotation_witness :
  Forall (fun task =>
            exists person,
              person ∈ CleaningTask.responsibles task
              /\ person ∈ CleaningTask.verifiers task
              /\ let taskId := CleaningTask._id task in
                 let marked := markAsCompleted taskId true
                                 (ReqUser.mk person false) (Sample.now + 1)
                                 (snd (rotateAssignments Sample.now
                                                         Sample.dbRotation)) in
                 let verified := verifyTask taskId true None person
                                            (Sample.now + 2) (snd marked) in
                 isError (fst marked) = false
                 /\ isError (fst verified) = false
                 /\ statusOf taskId (snd verified) = Some approved
                 /\ CleaningTask.completed <$> findById taskId (snd verified)
                    = Some true)
         (tasks (snd (rotateAssignments Sample.now Sample.dbRotation))).
Proof.
  apply Forall_forall.
  apply (self_approval_after_rotation Sample.now (Sample.now + 1)
           (Sample.now + 2) Sample.dbRotation
           (snd (rotateAssignments Sample.now Sample.dbRotation))).
  - compute_done.
  - vm_compute. lia.
  - vm_compute. reflexivity.
Defined.
